(** * The exoscale machine driver (drivers/exoscale/exoscale.go)

    A shallow embedding of the driver: its pure helpers are Rocq functions,
    and its lifecycle calls ([Create], [Remove], [GetState], [GetURL]) are
    programs of a small free monad whose events are the requests the driver
    sends to the egoscale client, to the local file system and to libmachine.
    The programs are run against an arbitrary environment, and the theorems
    speak about the value returned and about the sequence of requests made.
    The [log.*] calls of the source have no effect on either and are left out. *)

From Stdlib Require Import ZArith Ascii String List Bool Lia.
From stdpp Require Import base option list strings gmap.

Local Open Scope string_scope.

(** ** Go strings

    A Go [string] is a sequence of bytes: [String.string] over [ascii]. *)
Module strings.

(** [strings.HasPrefix(s, prefix)] *)
Definition HasPrefix (s pre : string) : bool := String.prefix pre s.

(** [strings.Contains(s, substr)]: [substr] starts at some position of [s]. *)
Fixpoint Contains (s substr : string) : bool :=
  HasPrefix s substr ||
  match s with
  | EmptyString => false
  | String _ s' => Contains s' substr
  end.

(** [strings.Replace(s, " ", "-", -1)], for one-byte [old] and [new]:
    every occurrence is replaced. *)
Fixpoint ReplaceByte (s : string) (old new : ascii) : string :=
  match s with
  | EmptyString => EmptyString
  | String c s' =>
      String (if Ascii.eqb c old then new else c) (ReplaceByte s' old new)
  end.

(** [s[n:]] for [n <= len(s)] *)
Fixpoint drop (n : nat) (s : string) : string :=
  match n, s with
  | O, _ => s
  | S n', String _ s' => drop n' s'
  | S _, EmptyString => EmptyString
  end.

(** The ASCII part of [strings.ToLower]: bytes [A]..[Z] are mapped to
    [a]..[z] and every other byte is kept.  It is the instance the
    examples run with; the development itself is stated for any
    lowercasing function (see [GoRuntime]). *)
Definition lower_byte (c : ascii) : ascii :=
  if (Ascii.leb "A" c && Ascii.leb c "Z")%bool
  then ascii_of_nat (nat_of_ascii c + 32)
  else c.

Fixpoint ToLowerASCII (s : string) : string :=
  match s with
  | EmptyString => EmptyString
  | String c s' => String (lower_byte c) (ToLowerASCII s')
  end.

End strings.

(** ** The template-name pattern

    [regexp.MustCompile(`^Linux (?P<name>.+?) (?P<version>[0-9.]+)\b`)]
    and [re.FindStringSubmatch].  Go's [regexp] returns the match a
    backtracking search finds first: the lazy [.+?] is tried from its
    shortest expansion, the greedy [[0-9.]+] from its longest.  [.] does not
    match a newline and [\b] is the ASCII word boundary.  A space and the
    bytes of the version are ASCII, so matching byte by byte and rune by rune
    agree. *)
Module regexp.

Definition in_range (lo hi c : ascii) : bool :=
  (Ascii.leb lo c && Ascii.leb c hi)%bool.

Definition is_digit (c : ascii) : bool := in_range "0" "9" c.

(** [[0-9.]] *)
Definition is_version_byte (c : ascii) : bool :=
  (is_digit c || Ascii.eqb c ".")%bool.

(** [\w]: [[0-9A-Za-z_]] *)
Definition is_word_byte (c : ascii) : bool :=
  (is_digit c || in_range "A" "Z" c || in_range "a" "z" c || Ascii.eqb c "_")%bool.

(** [\b] between the byte [c] just consumed and the remaining text. *)
Definition word_boundary (c : ascii) (rest : string) : bool :=
  xorb (is_word_byte c)
       (match rest with
        | EmptyString => false
        | String c' _ => is_word_byte c'
        end).

(** [[0-9.]+\b] at the start of [s], greedy: the longest run of version
    bytes that ends at a word boundary; [(version, text after it)]. *)
Fixpoint match_version (s : string) : option (string * string) :=
  match s with
  | EmptyString => None
  | String c s' =>
      if is_version_byte c then
        match match_version s' with
        | Some (v, rest) => Some (String c v, rest)
        | None => if word_boundary c s' then Some (String c "", s') else None
        end
      else None
  end.

(** [ [0-9.]+\b] after the name: a space, then the version. *)
Definition match_space_version (s : string) : option (string * string) :=
  match s with
  | String " " s' => match_version s'
  | _ => None
  end.

(** [.+? [0-9.]+\b] at the start of [s], lazy in the name: the shortest
    non-empty, newline-free name that is followed by a space and a version;
    [(name, version, text after the match)]. *)
Fixpoint match_name_version (s : string) : option (string * string * string) :=
  match s with
  | EmptyString => None
  | String c s' =>
      if Ascii.eqb c "010" then None
      else
        match match_space_version s' with
        | Some (v, rest) => Some (String c "", v, rest)
        | None =>
            match match_name_version s' with
            | Some (n, v, rest) => Some (String c n, v, rest)
            | None => None
            end
        end
  end.

(** [re.FindStringSubmatch(s)]: [[]] (Go's [nil]) when the pattern does not
    match, else the whole match followed by the two groups. *)
Definition FindStringSubmatch (s : string) : list string :=
  if strings.HasPrefix s "Linux " then
    match match_name_version (strings.drop 6 s) with
    | Some (n, v, _) => ["Linux " ++ n ++ " " ++ v; n; v]
    | None => []
    end
  else [].

End regexp.

(** ** Errors

    A Go [error] value.  The driver tests one dynamic type only,
    [*egoscale.ErrorResponse] (the API answered with an error); every other
    error, the ones it builds itself with [fmt.Errorf] included, is an
    [errorString].  [None : option error] is Go's [nil]. *)
Inductive error : Type :=
| ErrorResponse (text : string)
| errorString (text : string).

(** [err.Error()] *)
Definition Error (e : error) : string :=
  match e with
  | ErrorResponse t => t
  | errorString t => t
  end.

(** The type assertion of [err] to [egoscale.ErrorResponse]: its [ok]. *)
Definition is_ErrorResponse (e : error) : bool :=
  match e with
  | ErrorResponse _ => true
  | errorString _ => false
  end.

(** ** libmachine's state enum *)
Module state.
(** Modelled from the spec: the [State] enum of [libmachine/state], whose
    declaration is not under src/.  The spec lists
    {Starting, Running, Stopped, Paused, Error, Unknown/None}. *)
Inductive State : Type :=
| None | Running | Paused | Stopped | Starting | Error.
End state.

(** ** The egoscale resources and requests, with the fields the driver uses *)

(** [egoscale.UUID]; a [*egoscale.UUID] is an [option UUID]. *)
Definition UUID : Type := string.

(** [egoscale.CIDR], kept in the textual form given to [MustParseCIDR]. *)
Definition CIDR : Type := string.

Module Zone.
Record t : Type := { ID : option UUID; Name : string }.
End Zone.

Module Template.
Record t : Type := {
  ID : option UUID;
  Name : string;
  Size : Z;                          (* int64, in bytes *)
  Details : gmap string string;      (* map[string]string *)
  IsFeatured : bool;
  ZoneID : option UUID;
}.
End Template.

Module ServiceOffering.
Record t : Type := { ID : option UUID; Name : string }.
End ServiceOffering.

Module UserSecurityGroup.
Record t : Type := { Group : string }.
End UserSecurityGroup.

Module SecurityGroup.
Record t : Type := { ID : option UUID; Name : string }.
(** [sg.UserSecurityGroup()] *)
Definition UserSecurityGroup (sg : t) : UserSecurityGroup.t :=
  {| UserSecurityGroup.Group := Name sg |}.
End SecurityGroup.

Module AffinityGroup.
Record t : Type := { ID : option UUID; Name : string }.
End AffinityGroup.

Module SSHKeyPair.
Record t : Type := { Name : string; PrivateKey : string }.
End SSHKeyPair.

Module VirtualMachine.
Record t : Type := {
  ID : option UUID;
  State : string;
  IP : option string;     (* [vm.IP()], printed with [String()]; [None] is nil *)
  PasswordEnabled : bool;
  Password : string;
}.
End VirtualMachine.

Module CreateSecurityGroup.
Record t : Type := { Name : string; Description : string }.
End CreateSecurityGroup.

Module AuthorizeSecurityGroupIngress.
Record t : Type := {
  SecurityGroupID : option UUID;
  Description : string;
  CIDRList : list CIDR;
  Protocol : string;
  StartPort : Z;
  EndPort : Z;
  IcmpType : Z;
  IcmpCode : Z;
  UserSecurityGroupList : list UserSecurityGroup.t;
}.
End AuthorizeSecurityGroupIngress.

Module CreateAffinityGroup.
Record t : Type := { Name : string; Type_ : string; Description : string }.
End CreateAffinityGroup.

Module DeployVirtualMachine.
Record t : Type := {
  Details : gmap string string;
  TemplateID : option UUID;
  ServiceOfferingID : option UUID;
  UserData : string;
  ZoneID : option UUID;
  Name : string;
  KeyPair : string;
  DisplayName : string;
  RootDiskSize : Z;
  SecurityGroupIDs : list UUID;
  AffinityGroupIDs : list UUID;
}.
End DeployVirtualMachine.

(** ** The driver

    [Driver] embeds libmachine's [*drivers.BaseDriver]; Go promotes its
    fields, and the ones the driver reads or writes ([MachineName],
    [StorePath], [SSHUser], [IPAddress]) are fields of the record here. *)
Record Driver : Type := {
  MachineName : string;
  StorePath : string;
  SSHUser : string;
  IPAddress : string;
  URL : string;
  APIKey : string;
  APISecretKey : string;
  InstanceProfile : string;
  DiskSize : Z;
  Image : string;
  SecurityGroups : list string;
  AffinityGroups : list string;
  AvailabilityZone : string;
  SSHKey : string;
  KeyPair : string;
  Password : string;
  PublicKey : string;
  UserDataFile : string;
  UserData : string;
  ID : option UUID;
}.

(** Assignments to the fields the driver writes. *)
Definition set_SSHUser (d : Driver) (v : string) : Driver :=
  {| MachineName := MachineName d; StorePath := StorePath d; SSHUser := v;
     IPAddress := IPAddress d; URL := URL d; APIKey := APIKey d;
     APISecretKey := APISecretKey d; InstanceProfile := InstanceProfile d;
     DiskSize := DiskSize d; Image := Image d; SecurityGroups := SecurityGroups d;
     AffinityGroups := AffinityGroups d; AvailabilityZone := AvailabilityZone d;
     SSHKey := SSHKey d; KeyPair := KeyPair d; Password := Password d;
     PublicKey := PublicKey d; UserDataFile := UserDataFile d;
     UserData := UserData d; ID := ID d |}.

Definition set_IPAddress (d : Driver) (v : string) : Driver :=
  {| MachineName := MachineName d; StorePath := StorePath d; SSHUser := SSHUser d;
     IPAddress := v; URL := URL d; APIKey := APIKey d;
     APISecretKey := APISecretKey d; InstanceProfile := InstanceProfile d;
     DiskSize := DiskSize d; Image := Image d; SecurityGroups := SecurityGroups d;
     AffinityGroups := AffinityGroups d; AvailabilityZone := AvailabilityZone d;
     SSHKey := SSHKey d; KeyPair := KeyPair d; Password := Password d;
     PublicKey := PublicKey d; UserDataFile := UserDataFile d;
     UserData := UserData d; ID := ID d |}.

Definition set_KeyPair (d : Driver) (v : string) : Driver :=
  {| MachineName := MachineName d; StorePath := StorePath d; SSHUser := SSHUser d;
     IPAddress := IPAddress d; URL := URL d; APIKey := APIKey d;
     APISecretKey := APISecretKey d; InstanceProfile := InstanceProfile d;
     DiskSize := DiskSize d; Image := Image d; SecurityGroups := SecurityGroups d;
     AffinityGroups := AffinityGroups d; AvailabilityZone := AvailabilityZone d;
     SSHKey := SSHKey d; KeyPair := v; Password := Password d;
     PublicKey := PublicKey d; UserDataFile := UserDataFile d;
     UserData := UserData d; ID := ID d |}.

Definition set_Password (d : Driver) (v : string) : Driver :=
  {| MachineName := MachineName d; StorePath := StorePath d; SSHUser := SSHUser d;
     IPAddress := IPAddress d; URL := URL d; APIKey := APIKey d;
     APISecretKey := APISecretKey d; InstanceProfile := InstanceProfile d;
     DiskSize := DiskSize d; Image := Image d; SecurityGroups := SecurityGroups d;
     AffinityGroups := AffinityGroups d; AvailabilityZone := AvailabilityZone d;
     SSHKey := SSHKey d; KeyPair := KeyPair d; Password := v;
     PublicKey := PublicKey d; UserDataFile := UserDataFile d;
     UserData := UserData d; ID := ID d |}.

Definition set_UserData (d : Driver) (v : string) : Driver :=
  {| MachineName := MachineName d; StorePath := StorePath d; SSHUser := SSHUser d;
     IPAddress := IPAddress d; URL := URL d; APIKey := APIKey d;
     APISecretKey := APISecretKey d; InstanceProfile := InstanceProfile d;
     DiskSize := DiskSize d; Image := Image d; SecurityGroups := SecurityGroups d;
     AffinityGroups := AffinityGroups d; AvailabilityZone := AvailabilityZone d;
     SSHKey := SSHKey d; KeyPair := KeyPair d; Password := Password d;
     PublicKey := PublicKey d; UserDataFile := UserDataFile d;
     UserData := v; ID := ID d |}.

Definition set_ID (d : Driver) (v : option UUID) : Driver :=
  {| MachineName := MachineName d; StorePath := StorePath d; SSHUser := SSHUser d;
     IPAddress := IPAddress d; URL := URL d; APIKey := APIKey d;
     APISecretKey := APISecretKey d; InstanceProfile := InstanceProfile d;
     DiskSize := DiskSize d; Image := Image d; SecurityGroups := SecurityGroups d;
     AffinityGroups := AffinityGroups d; AvailabilityZone := AvailabilityZone d;
     SSHKey := SSHKey d; KeyPair := KeyPair d; Password := Password d;
     PublicKey := PublicKey d; UserDataFile := UserDataFile d;
     UserData := UserData d; ID := v |}.

(** What [client.DeleteWithContext] accepts: any deletable resource. *)
Inductive Deletable : Type :=
| DeleteSSHKeyPair (key : SSHKeyPair.t)
| DeleteVirtualMachine (vm : VirtualMachine.t)
| DeleteSecurityGroup (sg : SecurityGroup.t)
| DeleteAffinityGroup (ag : AffinityGroup.t).

(** [os.FileMode] *)
Definition FileMode : Type := N.

(** ** Requests to the outside world

    [Call X] is a request whose answer has type [X].  A Go call returning
    [(x, err)] of which the driver reads [x] only when [err == nil] answers
    with [error + X]; [ioutil.ReadFile] in [getCloudInit] stores the data
    whatever the error, so it answers with the pair. *)
Inductive Call : Type -> Type :=
(* egoscale client *)
| ListZones (filter : Zone.t) : Call (error + list Zone.t)
| ListTemplates (filter : Template.t) : Call (error + list Template.t)
| ListServiceOfferings (filter : ServiceOffering.t)
    : Call (error + list ServiceOffering.t)
| GetSecurityGroup (sg : SecurityGroup.t) : Call (error + SecurityGroup.t)
| GetAffinityGroup (ag : AffinityGroup.t) : Call (error + AffinityGroup.t)
| GetVirtualMachine (vm : VirtualMachine.t) : Call (error + VirtualMachine.t)
| RequestCreateSecurityGroup (req : CreateSecurityGroup.t)
    : Call (error + SecurityGroup.t)
| RequestAuthorizeSecurityGroupIngress (req : AuthorizeSecurityGroupIngress.t)
    : Call (option error)
| RequestCreateAffinityGroup (req : CreateAffinityGroup.t)
    : Call (error + AffinityGroup.t)
| RequestCreateSSHKeyPair (name : string) : Call (error + SSHKeyPair.t)
| RequestDeployVirtualMachine (req : DeployVirtualMachine.t)
    : Call (error + VirtualMachine.t)
| Delete (r : Deletable) : Call (option error)
(* local system *)
| ReadFile (path : string) : Call (string * option error)
| MkdirAll (path : string) (perm : FileMode) : Call (option error)
| WriteFile (path : string) (data : string) (perm : FileMode) : Call (option error)
| Chmod (path : string) (perm : FileMode) : Call (option error)
| UserCurrent : Call (option string)   (* [usr.HomeDir]; [None] when [usr] is nil *)
| FilepathAbs (path : string) : Call (error + string)
(* libmachine *)
| CopyFile (src dst : string) : Call (option error)
| WaitForSSH (d : Driver) : Call (option error).

(** ** Programs

    [Vis c k] sends [c] and continues with [k] on the answer; [Panic] is a Go
    run-time panic (a nil pointer dereference). *)
Inductive Prog (A : Type) : Type :=
| Ret (a : A)
| Panic
| Vis {X : Type} (c : Call X) (k : X -> Prog A).
Arguments Ret {A} a.
Arguments Panic {A}.
Arguments Vis {A X} c k.

Fixpoint bind {A B : Type} (p : Prog A) (f : A -> Prog B) : Prog B :=
  match p with
  | Ret a => f a
  | Panic => Panic
  | Vis c k => Vis c (fun x => bind (k x) f)
  end.

#[export] Instance Prog_ret : MRet Prog := @Ret.
#[export] Instance Prog_bind : MBind Prog := fun A B f p => bind p f.

Definition call {X : Type} (c : Call X) : Prog X := Vis c Ret.

(** One request together with its answer. *)
Inductive Event : Type :=
| Ev {X : Type} (c : Call X) (x : X).

(** Running a program in a world [W] that answers every request. *)
Section Run.
Context {W : Type} (handle : forall X, Call X -> W -> X * W).

(** [(result, requests made, final world)]; the result is [None] on panic. *)
Fixpoint run {A : Type} (p : Prog A) (w : W) : option A * list Event * W :=
  match p with
  | Ret a => (Some a, [], w)
  | Panic => (None, [], w)
  | Vis c k =>
      let '(x, w1) := handle _ c w in
      let '(r, tr, w2) := run (k x) w1 in
      (r, Ev c x :: tr, w2)
  end.

Definition result {A : Type} (p : Prog A) (w : W) : option A := (run p w).1.1.
Definition trace {A : Type} (p : Prog A) (w : W) : list Event := (run p w).1.2.
End Run.

(** ** Library functions the driver calls

    Functions of Go's standard library and of libmachine (whose code is not
    under src/) that the driver uses as black boxes.  Everything below holds
    for any implementation of them. *)
Class GoRuntime : Type := {
  ToLower : string -> string;                  (* strings.ToLower *)
  filepath_Join : string -> string -> string;  (* filepath.Join *)
  filepath_Dir : string -> string;             (* filepath.Dir *)
  EncodeToString : string -> string;           (* base64.StdEncoding.EncodeToString *)
  GetSSHKeyPath : Driver -> string;            (* (d *BaseDriver).GetSSHKeyPath *)
  GetIP : Driver -> error + string;            (* (d *BaseDriver).GetIP *)
  MustBeRunning : Driver -> Prog (option error);  (* drivers.MustBeRunning *)
}.

Module net.
(** [net.JoinHostPort(host, port)]: a host with a colon in it (a literal
    IPv6 address) is put in brackets. *)
Definition JoinHostPort (host port : string) : string :=
  if strings.Contains host ":"
  then "[" ++ host ++ "]:" ++ port
  else host ++ ":" ++ port.
End net.

Definition defaultAPIEndpoint : string := "https://api.exoscale.ch/compute".
Definition defaultInstanceProfile : string := "Small".
Definition defaultDiskSize : Z := 50.
Definition defaultImage : string := "Linux Ubuntu 18.04 LTS 64-bit".
Definition defaultAvailabilityZone : string := "CH-DK-2".
Definition defaultSSHUser : string := "root".
Definition defaultSecurityGroup : string := "docker-machine".
Definition defaultAffinityGroupType : string := "host anti-affinity".
Definition defaultCloudInit : string := "#cloud-config
manage_etc_hosts: localhost
".

(** [NewDriver(machineName, storePath)]; the fields it does not name have
    Go's zero value. *)
Definition NewDriver (machineName storePath : string) : Driver :=
  {| MachineName := machineName; StorePath := storePath; SSHUser := "";
     IPAddress := ""; URL := ""; APIKey := ""; APISecretKey := "";
     InstanceProfile := defaultInstanceProfile; DiskSize := defaultDiskSize;
     Image := defaultImage; SecurityGroups := []; AffinityGroups := [];
     AvailabilityZone := defaultAvailabilityZone; SSHKey := ""; KeyPair := "";
     Password := ""; PublicKey := ""; UserDataFile := ""; UserData := "";
     ID := None |}.

(** Zero values of the egoscale structs the driver fills in part. *)
Definition VirtualMachine_with_ID (id : option UUID) : VirtualMachine.t :=
  {| VirtualMachine.ID := id; VirtualMachine.State := "";
     VirtualMachine.IP := None; VirtualMachine.PasswordEnabled := false;
     VirtualMachine.Password := "" |}.

Definition SSHKeyPair_with_Name (name : string) : SSHKeyPair.t :=
  {| SSHKeyPair.Name := name; SSHKeyPair.PrivateKey := "" |}.

(** How a block of [Create] ends: control falls through to the next block
    with the values computed so far, or [Create] returns [err]. *)
Inductive Flow (A : Type) : Type :=
| Continue (a : A)
| Return (err : option error).
Arguments Continue {A} a.
Arguments Return {A} err.

Section Driver.
Context `{GoRuntime}.

(** [GetSSHUsername] *)
Definition GetSSHUsername (d : Driver) : string :=
  if String.eqb (SSHUser d) "" then
    let name := ToLower (Image d) in
    if strings.Contains name "ubuntu" then "ubuntu"
    else if strings.Contains name "centos" then "centos"
    else if strings.Contains name "redhat" then "cloud-user"
    else if strings.Contains name "fedora" then "fedora"
    else if strings.Contains name "coreos" then "core"
    else if strings.Contains name "debian" then "debian"
    else defaultSSHUser
  else SSHUser d.

(** [virtualMachine] *)
Definition virtualMachine (d : Driver) : Prog (error + VirtualMachine.t) :=
  call (GetVirtualMachine (VirtualMachine_with_ID (ID d))).

(** The [switch vm.State] of [GetState] *)
Definition state_of (vmState : string) : state.State :=
  if String.eqb vmState "Starting" then state.Starting
  else if String.eqb vmState "Running" then state.Running
  else if String.eqb vmState "Stopping" then state.Running
  else if String.eqb vmState "Stopped" then state.Stopped
  else if String.eqb vmState "Destroyed" then state.Stopped
  else if String.eqb vmState "Expunging" then state.Stopped
  else if String.eqb vmState "Migrating" then state.Paused
  else if String.eqb vmState "Error" then state.Error
  else if String.eqb vmState "Unknown" then state.Error
  else if String.eqb vmState "Shutdowned" then state.Stopped
  else state.None.

(** [GetState] *)
Definition GetState (d : Driver) : Prog (state.State * option error) :=
  r ← virtualMachine d;
  match r with
  | inl err => mret (state.Error, Some err)
  | inr vm => mret (state_of (VirtualMachine.State vm), None)
  end.

(** [GetURL] *)
Definition GetURL (d : Driver) : Prog (string * option error) :=
  err ← MustBeRunning d;
  match err with
  | Some e => mret ("", Some e)
  | None =>
      match GetIP d with
      | inl e => mret ("", Some e)
      | inr ip => mret ("tcp://" ++ net.JoinHostPort ip "2376", None)
      end
  end.

(** [Remove] *)
Definition Remove (d : Driver) : Prog (option error) :=
  err ← (if negb (String.eqb (KeyPair d) "")
         then call (Delete (DeleteSSHKeyPair (SSHKeyPair_with_Name (KeyPair d))))
         else mret None);
  match err with
  | Some e => mret (Some e)
  | None =>
      err ← (match ID d with
             | Some _ =>
                 call (Delete (DeleteVirtualMachine (VirtualMachine_with_ID (ID d))))
             | None => mret None
             end);
      match err with
      | Some e => mret (Some e)
      | None => mret None
      end
  end.

(** [getCloudInit]: the payload, the error and the driver, whose
    [UserData] it overwrites when a file is configured. *)
Definition getCloudInit (d : Driver) : Prog (Driver * (string * option error)) :=
  if negb (String.eqb (UserDataFile d) "") then
    '(data, err) ← call (ReadFile (UserDataFile d));
    let d := set_UserData d data in
    mret (d, (UserData d, err))
  else mret (d, (UserData d, None)).

(** *** Creating missing groups *)

(** [0.0.0.0/0] and [::/0] *)
Definition cidrList : list CIDR := ["0.0.0.0/0"; "::/0"].

(** The [requests] of [createDefaultSecurityGroup], for the group [sg] that
    was just created. *)
Definition defaultRules (sg : SecurityGroup.t)
  : list AuthorizeSecurityGroupIngress.t :=
  let rule description cidrs protocol startPort endPort icmpType icmpCode groups :=
    {| AuthorizeSecurityGroupIngress.SecurityGroupID := SecurityGroup.ID sg;
       AuthorizeSecurityGroupIngress.Description := description;
       AuthorizeSecurityGroupIngress.CIDRList := cidrs;
       AuthorizeSecurityGroupIngress.Protocol := protocol;
       AuthorizeSecurityGroupIngress.StartPort := startPort;
       AuthorizeSecurityGroupIngress.EndPort := endPort;
       AuthorizeSecurityGroupIngress.IcmpType := icmpType;
       AuthorizeSecurityGroupIngress.IcmpCode := icmpCode;
       AuthorizeSecurityGroupIngress.UserSecurityGroupList := groups |} in
  let self := [SecurityGroup.UserSecurityGroup sg] in
  [ rule "SSH" cidrList "TCP" 22 22 0 0 [];
    rule "Ping" ["0.0.0.0/0"] "ICMP" 0 0 8 0 [];
    rule "Ping6" ["::/0"] "ICMPv6" 0 0 128 0 [];
    rule "Docker" cidrList "TCP" 2376 2377 0 0 [];
    rule "Legacy Standalone Swarm" cidrList "TCP" 3376 3377 0 0 [];
    rule "Communication among nodes" [] "TCP" 7946 7946 0 0 self;
    rule "Communication among nodes" [] "UDP" 7946 7946 0 0 self;
    rule "Overlay network traffic" [] "UDP" 4789 4789 0 0 self ]%Z.

(** [for _, req := range requests]: one request per rule, stopping at the
    first error. *)
Fixpoint authorizeAll (requests : list AuthorizeSecurityGroupIngress.t)
  : Prog (option error) :=
  match requests with
  | [] => mret None
  | req :: requests' =>
      err ← call (RequestAuthorizeSecurityGroupIngress req);
      match err with
      | Some e => mret (Some e)
      | None => authorizeAll requests'
      end
  end.

(** [createDefaultSecurityGroup] *)
Definition createDefaultSecurityGroup (group : string)
  : Prog (error + SecurityGroup.t) :=
  resp ← call (RequestCreateSecurityGroup
                 {| CreateSecurityGroup.Name := group;
                    CreateSecurityGroup.Description := "created by docker-machine" |});
  match resp with
  | inl err => mret (inl err)
  | inr sg =>
      err ← authorizeAll (defaultRules sg);
      match err with
      | Some e => mret (inl e)
      | None => mret (inr sg)
      end
  end.

(** [createDefaultAffinityGroup] *)
Definition createDefaultAffinityGroup (group : string)
  : Prog (error + AffinityGroup.t) :=
  call (RequestCreateAffinityGroup
          {| CreateAffinityGroup.Name := group;
             CreateAffinityGroup.Type_ := defaultAffinityGroupType;
             CreateAffinityGroup.Description := "created by docker-machine" |}).

(** *** [Create], block by block

    Each block of [Create] is a program of its own; [Create] below chains
    them in the order of the source. *)

(** Lines 442-454: the availability zone. *)
Definition Create_zone (d : Driver) : Prog (Flow (option UUID)) :=
  r ← call (ListZones {| Zone.ID := None; Zone.Name := AvailabilityZone d |});
  match r with
  | inl err => mret (Return (Some err))
  | inr zones =>
      if negb (Nat.eqb (length zones) 1) then
        mret (Return (Some (errorString
          ("Availability zone " ++ AvailabilityZone d ++ " doesn't exist"))))
      else
        match zones with
        | z :: _ => mret (Continue (Zone.ID z))
        | [] => Panic
        end
  end.

(** Lines 470-495: the loop over the listed templates.  [template] is the
    variable the loop assigns on [break]; [image] is already lowercased. *)
Fixpoint selectTemplate (image : string) (templates : list Template.t)
    (template : Template.t) : Template.t :=
  match templates with
  | [] => template
  | tpl :: templates' =>
      if negb (Z.shiftr (Template.Size tpl) 30 =? 10)%Z then
        selectTemplate image templates' template
      else
        let fullname := ToLower (Template.Name tpl) in
        if String.eqb image fullname then tpl
        else
          let submatch := regexp.FindStringSubmatch (Template.Name tpl) in
          if (0 <? length submatch)%nat then
            let name := strings.ReplaceByte (ToLower (nth 1 submatch "")) " " "-" in
            let version := nth 2 submatch "" in
            let shortname := name ++ "-" ++ version in
            if String.eqb image shortname then tpl
            else selectTemplate image templates' template
          else selectTemplate image templates' template
  end.

(** [egoscale.Template{IsFeatured: true, ZoneID: zone}] *)
Definition featuredTemplate (zone : option UUID) : Template.t :=
  {| Template.ID := None; Template.Name := ""; Template.Size := 0;
     Template.Details := ∅; Template.IsFeatured := true;
     Template.ZoneID := zone |}.

(** Lines 456-498: the image. *)
Definition Create_image (d : Driver) (zone : option UUID) : Prog (Flow Template.t) :=
  let template := featuredTemplate zone in
  r ← call (ListTemplates template);
  match r with
  | inl err => mret (Return (Some err))
  | inr templates =>
      let image := ToLower (Image d) in
      let template := selectTemplate image templates template in
      match Template.ID template with
      | None =>
          mret (Return (Some (errorString ("Unable to find image " ++ Image d))))
      | Some _ => mret (Continue template)
      end
  end.

(** Lines 500-503: the user name of the template. *)
Definition Create_username (d : Driver) (template : Template.t) : Driver :=
  match Template.Details template !! "username" with
  | Some name => set_SSHUser d name
  | None => d
  end.

(** Lines 506-518: the instance profile. *)
Definition Create_profile (d : Driver) : Prog (Flow (option UUID)) :=
  r ← call (ListServiceOfferings
              {| ServiceOffering.ID := None;
                 ServiceOffering.Name := InstanceProfile d |});
  match r with
  | inl err => mret (Return (Some err))
  | inr profiles =>
      if negb (Nat.eqb (length profiles) 1) then
        mret (Return (Some (errorString
          ("Unable to find the " ++ InstanceProfile d ++ " profile"))))
      else
        match profiles with
        | p :: _ => mret (Continue (ServiceOffering.ID p))
        | [] => Panic
        end
  end.

(** Lines 520-542: the security groups.  [sgs] is the slice built so far;
    dereferencing a nil [sg.ID] panics. *)
Fixpoint Create_securityGroups (groups : list string) (sgs : list UUID)
  : Prog (Flow (list UUID)) :=
  match groups with
  | [] => mret (Continue sgs)
  | group :: groups' =>
      if String.eqb group "" then Create_securityGroups groups' sgs
      else
        r ← call (GetSecurityGroup
                    {| SecurityGroup.ID := None; SecurityGroup.Name := group |});
        match r with
        | inr sg =>
            match SecurityGroup.ID sg with
            | Some id => Create_securityGroups groups' (sgs ++ [id])
            | None => Panic
            end
        | inl errGet =>
            if negb (is_ErrorResponse errGet) then mret (Return (Some errGet))
            else
              r' ← createDefaultSecurityGroup group;
              match r' with
              | inl errCreate => mret (Return (Some errCreate))
              | inr securityGroup =>
                  match SecurityGroup.ID securityGroup with
                  | Some id => Create_securityGroups groups' (sgs ++ [id])
                  | None => Panic
                  end
              end
        end
  end.

(** Lines 544-564: the affinity groups.  [err] is the variable [err] of
    [Create], which line 553 returns. *)
Fixpoint Create_affinityGroups (err : option error) (groups : list string)
    (ags : list UUID) : Prog (Flow (list UUID)) :=
  match groups with
  | [] => mret (Continue ags)
  | group :: groups' =>
      if String.eqb group "" then Create_affinityGroups err groups' ags
      else
        r ← call (GetAffinityGroup
                    {| AffinityGroup.ID := None; AffinityGroup.Name := group |});
        match r with
        | inr ag =>
            match AffinityGroup.ID ag with
            | Some id => Create_affinityGroups err groups' (ags ++ [id])
            | None => Panic
            end
        | inl errGet =>
            if negb (is_ErrorResponse errGet) then mret (Return err)
            else
              r' ← createDefaultAffinityGroup group;
              match r' with
              | inl errCreate => mret (Return (Some errCreate))
              | inr affinityGroup =>
                  match AffinityGroup.ID affinityGroup with
                  | Some id => Create_affinityGroups err groups' (ags ++ [id])
                  | None => Panic
                  end
              end
        end
  end.

(** File modes [0750] and [0600] *)
Definition mode_0750 : FileMode := (7 * 64 + 5 * 8 + 0)%N.
Definition mode_0600 : FileMode := (6 * 64 + 0 * 8 + 0)%N.

Definition sshAuthorizedKeys : string := "
ssh_authorized_keys:
- ".

(** Lines 567-583: no key configured, a key pair is generated. *)
Definition Create_generateKey (d : Driver) : Prog (Flow Driver) :=
  let keyPairName := "docker-machine-" ++ MachineName d in
  resp ← call (RequestCreateSSHKeyPair keyPairName);
  match resp with
  | inl errCreate =>
      mret (Return (Some (errorString
        ("SSH Key pair creation failed " ++ Error errCreate))))
  | inr keyPair =>
      errM ← call (MkdirAll (filepath_Dir (GetSSHKeyPath d)) mode_0750);
      match errM with
      | Some e =>
          mret (Return (Some (errorString
            ("Cannot create the folder to store the SSH private key. " ++ Error e))))
      | None =>
          errW ← call (WriteFile (GetSSHKeyPath d)
                         (SSHKeyPair.PrivateKey keyPair) mode_0600);
          match errW with
          | Some e =>
              mret (Return (Some (errorString
                ("SSH private key could not be written. " ++ Error e))))
          | None => mret (Continue (set_KeyPair d keyPairName))
          end
      end
  end.

(** Lines 598-615: the key at [sshKey] is imported; the new cloud-init. *)
Definition Create_importKeyAt (d : Driver) (cloudInit sshKey : string)
  : Prog (Flow string) :=
  '(pubKey, errR) ← call (ReadFile (sshKey ++ ".pub"));
  match errR with
  | Some e =>
      mret (Return (Some (errorString ("Cannot read SSH public key " ++ Error e))))
  | None =>
      let cloudInit := cloudInit ++ sshAuthorizedKeys ++ pubKey in
      errCopy ← call (CopyFile sshKey (GetSSHKeyPath d));
      match errCopy with
      | Some e =>
          mret (Return (Some (errorString ("Unable to copy SSH file: " ++ Error e))))
      | None =>
          errChmod ← call (Chmod (GetSSHKeyPath d) mode_0600);
          match errChmod with
          | Some e =>
              mret (Return (Some (errorString
                ("Unable to set permissions on the SSH file: " ++ Error e))))
          | None => mret (Continue cloudInit)
          end
      end
  end.

(** Lines 584-616: a key is configured.  [user.Current]'s error is dropped,
    so a nil [usr] panics at [usr.HomeDir]. *)
Definition Create_importKey (d : Driver) (cloudInit : string) : Prog (Flow string) :=
  let sshKey := SSHKey d in
  if strings.HasPrefix sshKey "~/" then
    usr ← call UserCurrent;
    match usr with
    | Some homeDir =>
        Create_importKeyAt d cloudInit (filepath_Join homeDir (strings.drop 2 sshKey))
    | None => Panic
    end
  else
    r ← call (FilepathAbs sshKey);
    match r with
    | inl errA => mret (Return (Some errA))
    | inr sshKey => Create_importKeyAt d cloudInit sshKey
    end.

(** Lines 566-616: the SSH key pair; the driver and the cloud-init. *)
Definition Create_sshKey (d : Driver) (cloudInit : string)
  : Prog (Flow (Driver * string)) :=
  if String.eqb (SSHKey d) "" then
    r ← Create_generateKey d;
    match r with
    | Continue d => mret (Continue (d, cloudInit))
    | Return err => mret (Return err)
    end
  else
    r ← Create_importKey d cloudInit;
    match r with
    | Continue cloudInit => mret (Continue (d, cloudInit))
    | Return err => mret (Return err)
    end.

(** Lines 658-673: the key pair is destroyed once the host answers. *)
Definition Create_destroyKey (d : Driver) : Prog (Driver * option error) :=
  if negb (String.eqb (KeyPair d) "") then
    err ← call (WaitForSSH d);
    match err with
    | Some e => mret (d, Some e)
    | None =>
        err ← call (Delete (DeleteSSHKeyPair (SSHKeyPair_with_Name (KeyPair d))));
        match err with
        | Some e => mret (d, Some e)
        | None => mret (set_KeyPair d "", None)
        end
    end
  else mret (d, None).

(** The [req] of line 626. *)
Definition deployRequest (d : Driver) (zone : option UUID) (template : Template.t)
    (profile : option UUID) (sgs ags : list UUID) : DeployVirtualMachine.t :=
  {| DeployVirtualMachine.Details := {[ "ip6" := "true" ]};
     DeployVirtualMachine.TemplateID := Template.ID template;
     DeployVirtualMachine.ServiceOfferingID := profile;
     DeployVirtualMachine.UserData := EncodeToString (UserData d);
     DeployVirtualMachine.ZoneID := zone;
     DeployVirtualMachine.Name := MachineName d;
     DeployVirtualMachine.KeyPair := KeyPair d;
     DeployVirtualMachine.DisplayName := MachineName d;
     DeployVirtualMachine.RootDiskSize := DiskSize d;
     DeployVirtualMachine.SecurityGroupIDs := sgs;
     DeployVirtualMachine.AffinityGroupIDs := ags |}.

(** Lines 647-656: what [Create] records of the deployed machine. *)
Definition Create_record (d : Driver) (vm : VirtualMachine.t) : Driver :=
  let d := match VirtualMachine.IP vm with
           | Some ip => set_IPAddress d ip
           | None => d
           end in
  let d := set_ID d (VirtualMachine.ID vm) in
  if VirtualMachine.PasswordEnabled vm
  then set_Password d (VirtualMachine.Password vm)
  else d.

(** Lines 618-674: the deployment and what follows it. *)
Definition Create_deploy (d : Driver) (cloudInit : string) (zone : option UUID)
    (template : Template.t) (profile : option UUID) (sgs ags : list UUID)
  : Prog (Driver * option error) :=
  let d := set_UserData d cloudInit in
  resp ← call (RequestDeployVirtualMachine
                 (deployRequest d zone template profile sgs ags));
  match resp with
  | inl err => mret (d, Some err)
  | inr vm => Create_destroyKey (Create_record d vm)
  end.

(** *** [Create]

    [orReturn d p k]: run the block [p]; [Create] returns with the driver
    [d] when the block returns, and goes on with [k] otherwise. *)
Definition orReturn {A : Type} (d : Driver) (p : Prog (Flow A))
    (k : A -> Prog (Driver * option error)) : Prog (Driver * option error) :=
  r ← p;
  match r with
  | Continue a => k a
  | Return err => mret (d, err)
  end.

(** [Create] from line 566 on. *)
Definition Create_from_sshKey (d : Driver) (cloudInit : string)
    (zone : option UUID) (template : Template.t) (profile : option UUID)
    (sgs ags : list UUID) : Prog (Driver * option error) :=
  orReturn d (Create_sshKey d cloudInit) (fun '(d, cloudInit) =>
  Create_deploy d cloudInit zone template profile sgs ags).

(** [Create] from line 544 on; [err] is the value of the variable [err]. *)
Definition Create_from_affinityGroups (d : Driver) (err : option error)
    (cloudInit : string) (zone : option UUID) (template : Template.t)
    (profile : option UUID) (sgs : list UUID) : Prog (Driver * option error) :=
  orReturn d (Create_affinityGroups err (AffinityGroups d) []) (fun ags =>
  Create_from_sshKey d cloudInit zone template profile sgs ags).

(** [Create] from line 520 on. *)
Definition Create_from_securityGroups (d : Driver) (err : option error)
    (cloudInit : string) (zone : option UUID) (template : Template.t)
    (profile : option UUID) : Prog (Driver * option error) :=
  orReturn d (Create_securityGroups (SecurityGroups d) []) (fun sgs =>
  Create_from_affinityGroups d err cloudInit zone template profile sgs).

(** [Create] from line 506 on.  When the profile block falls through, the
    last assignment to [err] (line 507) stored nil. *)
Definition Create_from_profile (d : Driver) (cloudInit : string)
    (zone : option UUID) (template : Template.t) : Prog (Driver * option error) :=
  orReturn d (Create_profile d) (fun profile =>
  let err : option error := None in
  Create_from_securityGroups d err cloudInit zone template profile).

(** [Create] from line 456 on. *)
Definition Create_from_image (d : Driver) (cloudInit : string)
    (zone : option UUID) : Prog (Driver * option error) :=
  orReturn d (Create_image d zone) (fun template =>
  let d := Create_username d template in
  Create_from_profile d cloudInit zone template).

(** [Create] from line 442 on. *)
Definition Create_from_zone (d : Driver) (cloudInit : string)
  : Prog (Driver * option error) :=
  orReturn d (Create_zone d) (fun zone =>
  Create_from_image d cloudInit zone).

(** [Create]: the driver as [Create] leaves it, and the error returned. *)
Definition Create (d : Driver) : Prog (Driver * option error) :=
  '(d, (cloudInit, err)) ← getCloudInit d;
  match err with
  | Some e => mret (d, Some e)
  | None => Create_from_zone d cloudInit
  end.

End Driver.

(** ** Flags and configuration *)

Module mcnflag.
(** [mcnflag.StringFlag], [mcnflag.IntFlag] and [mcnflag.StringSliceFlag];
    a field the source leaves out has Go's zero value. *)
Inductive Flag : Type :=
| StringFlag (EnvVar Name Value Usage : string)
| IntFlag (EnvVar Name : string) (Value : Z) (Usage : string)
| StringSliceFlag (EnvVar Name : string) (Value : list string) (Usage : string).
End mcnflag.

(** [GetCreateFlags] *)
Definition GetCreateFlags : list mcnflag.Flag :=
  [ mcnflag.StringFlag "EXOSCALE_ENDPOINT" "exoscale-url" "" "exoscale API endpoint";
    mcnflag.StringFlag "EXOSCALE_API_KEY" "exoscale-api-key" "" "exoscale API key";
    mcnflag.StringFlag "EXOSCALE_API_SECRET" "exoscale-api-secret-key" ""
      "exoscale API secret key";
    mcnflag.StringFlag "EXOSCALE_INSTANCE_PROFILE" "exoscale-instance-profile"
      defaultInstanceProfile "exoscale instance profile (Small, Medium, Large, ...)";
    mcnflag.IntFlag "EXOSCALE_DISK_SIZE" "exoscale-disk-size" defaultDiskSize
      "exoscale disk size (10, 50, 100, 200, 400)";
    mcnflag.StringFlag "EXOSCALE_IMAGE" "exoscale-image" defaultImage
      "exoscale image template";
    mcnflag.StringSliceFlag "EXOSCALE_SECURITY_GROUP" "exoscale-security-group"
      [defaultSecurityGroup] "exoscale security group";
    mcnflag.StringFlag "EXOSCALE_AVAILABILITY_ZONE" "exoscale-availability-zone"
      defaultAvailabilityZone "exoscale availability zone";
    mcnflag.StringFlag "EXOSCALE_SSH_USER" "exoscale-ssh-user" "" "name of the ssh user";
    mcnflag.StringFlag "EXOSCALE_SSH_KEY" "exoscale-ssh-key" ""
      "path to the SSH user private key";
    mcnflag.StringFlag "EXOSCALE_USERDATA" "exoscale-userdata" ""
      "path to file with cloud-init user-data";
    mcnflag.StringSliceFlag "EXOSCALE_AFFINITY_GROUP" "exoscale-affinity-group" []
      "exoscale affinity group" ].

Module DriverOptions.
(** [drivers.DriverOptions]: the values of the flags, by flag name. *)
Record t : Type := {
  String : string -> string;
  StringSlice : string -> list string;
  Int : string -> Z;
  Bool : string -> bool;
}.
End DriverOptions.

(** The fields of the embedded [BaseDriver] that the record [Driver] keeps:
    all a method of [*BaseDriver] can reach of it. *)
Record BaseDriver : Type := {
  base_MachineName : string;
  base_StorePath : string;
  base_SSHUser : string;
  base_IPAddress : string;
}.

Definition BaseDriver_of (d : Driver) : BaseDriver :=
  {| base_MachineName := MachineName d; base_StorePath := StorePath d;
     base_SSHUser := SSHUser d; base_IPAddress := IPAddress d |}.

Definition set_BaseDriver (d : Driver) (b : BaseDriver) : Driver :=
  {| MachineName := base_MachineName b; StorePath := base_StorePath b;
     SSHUser := base_SSHUser b; IPAddress := base_IPAddress b; URL := URL d;
     APIKey := APIKey d; APISecretKey := APISecretKey d;
     InstanceProfile := InstanceProfile d; DiskSize := DiskSize d; Image := Image d;
     SecurityGroups := SecurityGroups d; AffinityGroups := AffinityGroups d;
     AvailabilityZone := AvailabilityZone d; SSHKey := SSHKey d; KeyPair := KeyPair d;
     Password := Password d; PublicKey := PublicKey d; UserDataFile := UserDataFile d;
     UserData := UserData d; ID := ID d |}.

Definition set_URL (d : Driver) (v : string) : Driver :=
  {| MachineName := MachineName d; StorePath := StorePath d; SSHUser := SSHUser d;
     IPAddress := IPAddress d; URL := v; APIKey := APIKey d;
     APISecretKey := APISecretKey d; InstanceProfile := InstanceProfile d;
     DiskSize := DiskSize d; Image := Image d; SecurityGroups := SecurityGroups d;
     AffinityGroups := AffinityGroups d; AvailabilityZone := AvailabilityZone d;
     SSHKey := SSHKey d; KeyPair := KeyPair d; Password := Password d;
     PublicKey := PublicKey d; UserDataFile := UserDataFile d;
     UserData := UserData d; ID := ID d |}.

Section Configuration.
(** [(d *BaseDriver).SetSwarmConfigFromFlags] of libmachine, whose code is
    not under src/: any function of the flags on the embedded [BaseDriver]. *)
Variable SetSwarmConfigFromFlags : DriverOptions.t -> BaseDriver -> BaseDriver.

(** Lines 217-229 of [SetConfigFromFlags]: the assignments from the flags.
    [int64(flags.Int(...))] keeps the value of a 64-bit [int]. *)
Definition configFromFlags (flags : DriverOptions.t) (d : Driver) : Driver :=
  {| MachineName := MachineName d; StorePath := StorePath d;
     SSHUser := DriverOptions.String flags "exoscale-ssh-user";
     IPAddress := IPAddress d;
     URL := DriverOptions.String flags "exoscale-url";
     APIKey := DriverOptions.String flags "exoscale-api-key";
     APISecretKey := DriverOptions.String flags "exoscale-api-secret-key";
     InstanceProfile := DriverOptions.String flags "exoscale-instance-profile";
     DiskSize := DriverOptions.Int flags "exoscale-disk-size";
     Image := DriverOptions.String flags "exoscale-image";
     SecurityGroups := DriverOptions.StringSlice flags "exoscale-security-group";
     AffinityGroups := DriverOptions.StringSlice flags "exoscale-affinity-group";
     AvailabilityZone := DriverOptions.String flags "exoscale-availability-zone";
     SSHKey := DriverOptions.String flags "exoscale-ssh-key";
     KeyPair := KeyPair d; Password := Password d; PublicKey := PublicKey d;
     UserDataFile := DriverOptions.String flags "exoscale-userdata";
     UserData := defaultCloudInit; ID := ID d |}.

(** [SetConfigFromFlags]: the driver as it leaves it, and the error. *)
Definition SetConfigFromFlags (flags : DriverOptions.t) (d : Driver)
  : Driver * option error :=
  let d := configFromFlags flags d in
  let d := set_BaseDriver d (SetSwarmConfigFromFlags flags (BaseDriver_of d)) in
  let d := if String.eqb (URL d) "" then set_URL d defaultAPIEndpoint else d in
  if (String.eqb (APIKey d) "" || String.eqb (APISecretKey d) "")%bool then
    (d, Some (errorString
       "missing an API key (--exoscale-api-key) or API secret key (--exoscale-api-secret-key)"))
  else (d, None).

End Configuration.

(** ** libmachine's helpers, for the examples *)

(** Modelled from the spec: [drivers.ErrHostIsNotRunning] and
    [drivers.MustBeRunning] of libmachine, which are not under src/.  The
    spec has the URL "only valid once running": the state is queried, a
    failed query is passed on, and any state but [Running] is an error.
    The theorems take these helpers as parameters; the models only run the
    examples. *)
Definition ErrHostIsNotRunning : error := errorString "Host is not running".

(** Modelled from the spec: [drivers.MustBeRunning], as described above. *)
Definition MustBeRunning_model (d : Driver) : Prog (option error) :=
  '(s, err) ← GetState d;
  match err with
  | Some e => mret (Some e)
  | None =>
      match s with
      | state.Running => mret None
      | _ => mret (Some ErrHostIsNotRunning)
      end
  end.

(** Modelled from the spec: [(d *BaseDriver).GetIP] of libmachine, which is
    not under src/.  The address is the one recorded in the host record; a
    record without one has no known address. *)
Definition GetIP_model (d : Driver) : error + string :=
  if String.eqb (IPAddress d) "" then inl (errorString "IP address is not set")
  else inr (IPAddress d).

(** ** Scripted environments

    A world without state that answers every request by a fixed table; the
    examples below run the driver against such worlds. *)
Record Script : Type := {
  on_ListZones : error + list Zone.t;
  on_ListTemplates : error + list Template.t;
  on_ListServiceOfferings : error + list ServiceOffering.t;
  on_GetSecurityGroup : SecurityGroup.t -> error + SecurityGroup.t;
  on_GetAffinityGroup : AffinityGroup.t -> error + AffinityGroup.t;
  on_GetVirtualMachine : error + VirtualMachine.t;
  on_CreateSecurityGroup : CreateSecurityGroup.t -> error + SecurityGroup.t;
  on_Authorize : AuthorizeSecurityGroupIngress.t -> option error;
  on_CreateAffinityGroup : CreateAffinityGroup.t -> error + AffinityGroup.t;
  on_CreateSSHKeyPair : error + SSHKeyPair.t;
  on_Deploy : error + VirtualMachine.t;
  on_Delete : Deletable -> option error;
  on_ReadFile : string -> string * option error;
  on_UserCurrent : option string;
  on_FilepathAbs : string -> error + string;
  on_WaitForSSH : option error;
}.

Definition answer (s : Script) {X : Type} (c : Call X) : X :=
  match c in Call X return X with
  | ListZones _ => on_ListZones s
  | ListTemplates _ => on_ListTemplates s
  | ListServiceOfferings _ => on_ListServiceOfferings s
  | GetSecurityGroup sg => on_GetSecurityGroup s sg
  | GetAffinityGroup ag => on_GetAffinityGroup s ag
  | GetVirtualMachine _ => on_GetVirtualMachine s
  | RequestCreateSecurityGroup req => on_CreateSecurityGroup s req
  | RequestAuthorizeSecurityGroupIngress req => on_Authorize s req
  | RequestCreateAffinityGroup req => on_CreateAffinityGroup s req
  | RequestCreateSSHKeyPair _ => on_CreateSSHKeyPair s
  | RequestDeployVirtualMachine _ => on_Deploy s
  | Delete r => on_Delete s r
  | ReadFile path => on_ReadFile s path
  | MkdirAll _ _ => None
  | WriteFile _ _ _ => None
  | Chmod _ _ => None
  | UserCurrent => on_UserCurrent s
  | FilepathAbs path => on_FilepathAbs s path
  | CopyFile _ _ => None
  | WaitForSSH _ => on_WaitForSSH s
  end.

Definition scripted (s : Script) (X : Type) (c : Call X) (w : unit) : X * unit :=
  (answer s c, w).

(** A runtime for the examples: ASCII lowercasing, paths joined with a slash,
    the payload left as it is, keys stored under the store path, and
    libmachine's helpers as modelled above. *)
Definition exampleRuntime : GoRuntime :=
  {| ToLower := strings.ToLowerASCII;
     filepath_Join := fun a b => a ++ "/" ++ b;
     filepath_Dir := fun p => p ++ "/..";
     EncodeToString := fun data => data;
     GetSSHKeyPath := fun d => StorePath d ++ "/machines/" ++ MachineName d ++ "/id_rsa";
     GetIP := GetIP_model;
     MustBeRunning := MustBeRunning_model |}.

Definition GiB : Z := 2 ^ 30.

(** A provider where every resource asked for exists once and every request
    succeeds. *)
Definition ubuntuTemplate : Template.t :=
  {| Template.ID := Some "tpl-ubuntu"; Template.Name := "Linux Ubuntu 18.04 LTS 64-bit";
     Template.Size := 10 * GiB; Template.Details := {[ "username" := "ubuntu" ]};
     Template.IsFeatured := true; Template.ZoneID := Some "zone-1" |}.

Definition runningMachine : VirtualMachine.t :=
  {| VirtualMachine.ID := Some "vm-1"; VirtualMachine.State := "Running";
     VirtualMachine.IP := Some "203.0.113.7"; VirtualMachine.PasswordEnabled := false;
     VirtualMachine.Password := "" |}.

Definition happy : Script :=
  {| on_ListZones := inr [ {| Zone.ID := Some "zone-1"; Zone.Name := "CH-DK-2" |} ];
     on_ListTemplates := inr [ubuntuTemplate];
     on_ListServiceOfferings :=
       inr [ {| ServiceOffering.ID := Some "so-small"; ServiceOffering.Name := "Small" |} ];
     on_GetSecurityGroup := fun sg =>
       inr {| SecurityGroup.ID := Some ("sg-" ++ SecurityGroup.Name sg);
              SecurityGroup.Name := SecurityGroup.Name sg |};
     on_GetAffinityGroup := fun ag =>
       inr {| AffinityGroup.ID := Some ("ag-" ++ AffinityGroup.Name ag);
              AffinityGroup.Name := AffinityGroup.Name ag |};
     on_GetVirtualMachine := inr runningMachine;
     on_CreateSecurityGroup := fun req =>
       inr {| SecurityGroup.ID := Some ("new-sg-" ++ CreateSecurityGroup.Name req);
              SecurityGroup.Name := CreateSecurityGroup.Name req |};
     on_Authorize := fun _ => None;
     on_CreateAffinityGroup := fun req =>
       inr {| AffinityGroup.ID := Some ("new-ag-" ++ CreateAffinityGroup.Name req);
              AffinityGroup.Name := CreateAffinityGroup.Name req |};
     on_CreateSSHKeyPair :=
       inr {| SSHKeyPair.Name := "docker-machine-host"; SSHKeyPair.PrivateKey := "PRIVATE" |};
     on_Deploy := inr runningMachine;
     on_Delete := fun _ => None;
     on_ReadFile := fun path => ("ssh-rsa AAAA user@host", None);
     on_UserCurrent := Some "/home/user";
     on_FilepathAbs := fun path => inr ("/cwd/" ++ path);
     on_WaitForSSH := None |}.

(** The driver as [NewDriver] and the flags leave it, for the given image,
    groups and key path. *)
Definition exampleDriver (image : string) (securityGroups affinityGroups : list string)
    (sshKey : string) : Driver :=
  let d := NewDriver "host" "/store" in
  {| MachineName := MachineName d; StorePath := StorePath d; SSHUser := SSHUser d;
     IPAddress := IPAddress d; URL := defaultAPIEndpoint; APIKey := "key";
     APISecretKey := "secret"; InstanceProfile := InstanceProfile d;
     DiskSize := DiskSize d; Image := image;
     SecurityGroups := securityGroups; AffinityGroups := affinityGroups;
     AvailabilityZone := AvailabilityZone d; SSHKey := sshKey; KeyPair := KeyPair d;
     Password := Password d; PublicKey := PublicKey d; UserDataFile := "";
     UserData := defaultCloudInit; ID := ID d |}.

Definition host : Driver := exampleDriver defaultImage [defaultSecurityGroup] [] "".

(** ** The vocabulary of the statements

    What the theorems below say of a run: the point a program reaches, the
    requests it makes, and the words of the specification (tables, filters,
    orders) the code is compared with. *)
Section Vocabulary.
Context `{GoRuntime} {W : Type} (handle : forall X, Call X -> W -> X * W).

(** [after tr0 x]: the outcome [x] of a run, with [tr0] before its trace. *)
Definition after {A : Type} (tr0 : list Event) (x : option A * list Event * W)
  : option A * list Event * W :=
  let '(r, tr, w) := x in (r, (tr0 ++ tr)%list, w).

(** [reaches p q w tr0 w1]: started in [w], the program [p] makes the
    requests [tr0], which leave the world in [w1], and from there behaves
    as [q]. *)
Definition reaches {A : Type} (p q : Prog A) (w : W) (tr0 : list Event) (w1 : W)
  : Prop :=
  run handle p w = after tr0 (run handle q w1).

(** The provider states [GetState] names. *)
Definition recognized_states : list string :=
  ["Starting"; "Running"; "Stopping"; "Stopped"; "Destroyed"; "Expunging";
   "Migrating"; "Error"; "Unknown"; "Shutdowned"].

(** The keywords of [GetSSHUsername] with the user each stands for, in the
    order of the source. *)
Definition username_keywords : list (string * string) :=
  [("ubuntu", "ubuntu"); ("centos", "centos"); ("redhat", "cloud-user");
   ("fedora", "fedora"); ("coreos", "core"); ("debian", "debian")].

(** The user of the first keyword that occurs in [name]. *)
Fixpoint first_keyword (name : string) (table : list (string * string)) : string :=
  match table with
  | [] => defaultSSHUser
  | (kw, user) :: table' =>
      if strings.Contains name kw then user else first_keyword name table'
  end.

(** Whether the answer to the state query shows a running host. *)
Definition shows_running (r : error + VirtualMachine.t) : bool :=
  match r with
  | inr vm =>
      match state_of (VirtualMachine.State vm) with
      | state.Running => true
      | _ => false
      end
  | inl _ => false
  end.

(** The two deletions [Remove] can request. *)
Definition keyPairDeletion (d : Driver) : Call (option error) :=
  Delete (DeleteSSHKeyPair (SSHKeyPair_with_Name (KeyPair d))).

Definition machineDeletion (d : Driver) : Call (option error) :=
  Delete (DeleteVirtualMachine (VirtualMachine_with_ID (ID d))).

(** The request deletes a security group or an affinity group. *)
Definition deletes_group (ev : Event) : Prop :=
  match ev with
  | Ev c _ =>
      match c with
      | Delete (DeleteSecurityGroup _) | Delete (DeleteAffinityGroup _) => True
      | _ => False
      end
  end.

(** The two listings that must give exactly one element. *)
Definition zoneQuery (d : Driver) : Call (error + list Zone.t) :=
  ListZones {| Zone.ID := None; Zone.Name := AvailabilityZone d |}.

Definition profileQuery (d : Driver) : Call (error + list ServiceOffering.t) :=
  ListServiceOfferings
    {| ServiceOffering.ID := None; ServiceOffering.Name := InstanceProfile d |}.

Definition zoneError (d : Driver) : error :=
  errorString ("Availability zone " ++ AvailabilityZone d ++ " doesn't exist").

Definition profileError (d : Driver) : error :=
  errorString ("Unable to find the " ++ InstanceProfile d ++ " profile").

(** Every byte of [s] satisfies [P]. *)
Fixpoint all_bytes (P : ascii -> bool) (s : string) : bool :=
  match s with
  | EmptyString => true
  | String c s' => P c && all_bytes P s'
  end.

(** The shorthand of a template name: for a name [Linux <Name> <Version>...],
    the lowercased name with dashes for spaces, a dash, the version. *)
Definition shorthand (name : string) : option string :=
  match regexp.FindStringSubmatch name with
  | [_; n; v] => Some (strings.ReplaceByte (ToLower n) " " "-" ++ "-" ++ v)
  | _ => None
  end.

(** The template answers to the (lowercased) image name: by its lowercased
    full name or by its shorthand. *)
Definition names_image (image : string) (tpl : Template.t) : bool :=
  String.eqb image (ToLower (Template.Name tpl))
  || match shorthand (Template.Name tpl) with
     | Some short => String.eqb image short
     | None => false
     end.

(** The size filter of the source: 10 whole GiB, [size >> 30 == 10]. *)
Definition is_10GiB (tpl : Template.t) : bool :=
  (Z.shiftr (Template.Size tpl) 30 =? 10)%Z.

(** The size filter in the words of the specification: exactly 10 GiB. *)
Definition exactly_10GiB (tpl : Template.t) : bool :=
  (Template.Size tpl =? 10 * 2 ^ 30)%Z.

Definition templateQuery (zone : option UUID) : Call (error + list Template.t) :=
  ListTemplates (featuredTemplate zone).

Definition imageError (d : Driver) : error :=
  errorString ("Unable to find image " ++ Image d).

(** The requests of the security-group block. *)
Definition lookupGroup (group : string) : Call (error + SecurityGroup.t) :=
  GetSecurityGroup {| SecurityGroup.ID := None; SecurityGroup.Name := group |}.

Definition createGroup (group : string) : Call (error + SecurityGroup.t) :=
  RequestCreateSecurityGroup
    {| CreateSecurityGroup.Name := group;
       CreateSecurityGroup.Description := "created by docker-machine" |}.

(** A rule submitted and accepted. *)
Definition accepted (req : AuthorizeSecurityGroupIngress.t) : Event :=
  Ev (RequestAuthorizeSecurityGroupIngress req) None.

(** A rule submitted and refused with [e]. *)
Definition refused (req : AuthorizeSecurityGroupIngress.t) (e : error) : Event :=
  Ev (RequestAuthorizeSecurityGroupIngress req) (Some e).

(** What the rules of a created group say. *)
Record RuleSummary : Type := {
  protocol : string;
  ports : Z * Z;              (* first and last port *)
  icmp : Z * Z;               (* ICMP type and code *)
  fromCIDRs : list CIDR;
  fromGroups : list string;   (* names of the groups the rule admits *)
}.

Definition summary (req : AuthorizeSecurityGroupIngress.t) : RuleSummary :=
  {| protocol := AuthorizeSecurityGroupIngress.Protocol req;
     ports := (AuthorizeSecurityGroupIngress.StartPort req,
               AuthorizeSecurityGroupIngress.EndPort req);
     icmp := (AuthorizeSecurityGroupIngress.IcmpType req,
              AuthorizeSecurityGroupIngress.IcmpCode req);
     fromCIDRs := AuthorizeSecurityGroupIngress.CIDRList req;
     fromGroups := map UserSecurityGroup.Group
                     (AuthorizeSecurityGroupIngress.UserSecurityGroupList req) |}.

(** The default set of the specification, for the group named [self]. *)
Definition defaultRuleSet (self : string) : list RuleSummary :=
  let anywhere := ["0.0.0.0/0"; "::/0"] in
  [ {| protocol := "TCP"; ports := (22, 22); icmp := (0, 0);
       fromCIDRs := anywhere; fromGroups := [] |};
    {| protocol := "ICMP"; ports := (0, 0); icmp := (8, 0);
       fromCIDRs := ["0.0.0.0/0"]; fromGroups := [] |};
    {| protocol := "ICMPv6"; ports := (0, 0); icmp := (128, 0);
       fromCIDRs := ["::/0"]; fromGroups := [] |};
    {| protocol := "TCP"; ports := (2376, 2377); icmp := (0, 0);
       fromCIDRs := anywhere; fromGroups := [] |};
    {| protocol := "TCP"; ports := (3376, 3377); icmp := (0, 0);
       fromCIDRs := anywhere; fromGroups := [] |};
    {| protocol := "TCP"; ports := (7946, 7946); icmp := (0, 0);
       fromCIDRs := []; fromGroups := [self] |};
    {| protocol := "UDP"; ports := (7946, 7946); icmp := (0, 0);
       fromCIDRs := []; fromGroups := [self] |};
    {| protocol := "UDP"; ports := (4789, 4789); icmp := (0, 0);
       fromCIDRs := []; fromGroups := [self] |} ]%Z.

(** How the resolution of one non-empty name ends. *)
Inductive Resolution : Type :=
| Resolved (id : UUID)
| Aborted (err : option error)
| Panicked.

(** The requests made for one non-empty name and how its resolution ends:
    the group is looked up; a lookup that fails in the not-found class
    creates the group and then submits the default rules. *)
Inductive resolves (group : string) : list Event -> Resolution -> Prop :=
| resolves_found sg id :
    SecurityGroup.ID sg = Some id ->
    resolves group [Ev (lookupGroup group) (inr sg)] (Resolved id)
| resolves_found_nil sg :
    SecurityGroup.ID sg = None ->
    resolves group [Ev (lookupGroup group) (inr sg)] Panicked
| resolves_lookup_failed e :
    is_ErrorResponse e = false ->
    resolves group [Ev (lookupGroup group) (inl e)] (Aborted (Some e))
| resolves_create_failed e e' :
    is_ErrorResponse e = true ->
    resolves group
      [Ev (lookupGroup group) (inl e); Ev (createGroup group) (inl e')]
      (Aborted (Some e'))
| resolves_rule_refused e sg before req rest e' :
    is_ErrorResponse e = true ->
    defaultRules sg = (before ++ req :: rest)%list ->
    resolves group
      (Ev (lookupGroup group) (inl e) :: Ev (createGroup group) (inr sg)
         :: map accepted before ++ [refused req e'])%list
      (Aborted (Some e'))
| resolves_created e sg id :
    is_ErrorResponse e = true ->
    SecurityGroup.ID sg = Some id ->
    resolves group
      (Ev (lookupGroup group) (inl e) :: Ev (createGroup group) (inr sg)
         :: map accepted (defaultRules sg))
      (Resolved id)
| resolves_created_nil e sg :
    is_ErrorResponse e = true ->
    SecurityGroup.ID sg = None ->
    resolves group
      (Ev (lookupGroup group) (inl e) :: Ev (createGroup group) (inr sg)
         :: map accepted (defaultRules sg))
      Panicked.

(** The requests made for a list of names, from the ids [sgs] on: empty
    names are passed over, the others are resolved from left to right, each
    id is added at the end, and the first resolution that does not give an
    id ends the block. *)
Inductive resolves_all
  : list string -> list UUID -> list Event -> option (Flow (list UUID)) -> Prop :=
| resolves_all_nil sgs : resolves_all [] sgs [] (Some (Continue sgs))
| resolves_all_empty groups sgs tr r :
    resolves_all groups sgs tr r -> resolves_all ("" :: groups) sgs tr r
| resolves_all_next group groups sgs tr1 id tr r :
    group <> "" ->
    resolves group tr1 (Resolved id) ->
    resolves_all groups (sgs ++ [id]) tr r ->
    resolves_all (group :: groups) sgs (tr1 ++ tr) r
| resolves_all_aborted group groups sgs tr1 err :
    group <> "" ->
    resolves group tr1 (Aborted err) ->
    resolves_all (group :: groups) sgs tr1 (Some (Return err))
| resolves_all_panicked group groups sgs tr1 :
    group <> "" ->
    resolves group tr1 Panicked ->
    resolves_all (group :: groups) sgs tr1 None.

(** The name a request looks up, when it is a security-group lookup. *)
Definition lookup_name (ev : Event) : option string :=
  match ev with
  | Ev c _ =>
      match c with
      | GetSecurityGroup sg => Some (SecurityGroup.Name sg)
      | _ => None
      end
  end.

(** The id a request brings: that of the group a lookup finds or a
    creation makes. *)
Definition resolved_id (ev : Event) : option UUID :=
  match ev with
  | Ev c x =>
      match c in Call X return X -> option UUID with
      | GetSecurityGroup _ | RequestCreateSecurityGroup _ =>
          fun x => match x with
                   | inr sg => SecurityGroup.ID sg
                   | inl _ => None
                   end
      | _ => fun _ => None
      end x
  end.

Definition nonempty (group : string) : bool := negb (String.eqb group "").

(** What [f] reads off the requests of a trace, in order. *)
Fixpoint collect {A : Type} (f : Event -> option A) (tr : list Event) : list A :=
  match tr with
  | [] => []
  | ev :: tr' =>
      match f ev with
      | Some a => a :: collect f tr'
      | None => collect f tr'
      end
  end.

Definition lookupAffinityGroup (group : string) : Call (error + AffinityGroup.t) :=
  GetAffinityGroup {| AffinityGroup.ID := None; AffinityGroup.Name := group |}.

(** The name of a generated key pair. *)
Definition keyPairName (d : Driver) : string := "docker-machine-" ++ MachineName d.

(** The request that deletes the key pair named [name]. *)
Definition keyPairDeletionOf (name : string) : Call (option error) :=
  Delete (DeleteSSHKeyPair (SSHKeyPair_with_Name name)).

(** The steps that follow the deployment of a generated key: the wait for
    SSH and the deletion of the key pair. *)
Definition post_create_step (ev : Event) : Prop :=
  match ev with
  | Ev c _ =>
      match c with
      | WaitForSSH _ | Delete _ => True
      | _ => False
      end
  end.

(** A key pair is requested from the provider. *)
Definition generates_key (ev : Event) : Prop :=
  match ev with
  | Ev c _ =>
      match c with
      | RequestCreateSSHKeyPair _ => True
      | _ => False
      end
  end.

(** The deployment request of [Create_deploy]. *)
Definition deployment (d : Driver) (cloudInit : string) (zone : option UUID)
    (template : Template.t) (profile : option UUID) (sgs ags : list UUID)
  : Call (error + VirtualMachine.t) :=
  RequestDeployVirtualMachine
    (deployRequest (set_UserData d cloudInit) zone template profile sgs ags).

(** Every request a program can make satisfies [P]. *)
Fixpoint calls_only {A : Type} (P : Event -> Prop) (p : Prog A) : Prop :=
  match p with
  | Ret _ => True
  | Panic => True
  | Vis c k => forall x, P (Ev c x) /\ calls_only P (k x)
  end.

(** The import of the key found at [sshKey], from the world [w2] that
    [Create d0] reaches after the requests [tr]: when the public key is
    read, the private key copied and its mode set, [Create] comes to the
    deployment with the public key appended to the cloud-init, and the
    request carries that payload and the key-pair name the driver had. *)
Definition imports_from (d0 : Driver) (w : W) (d : Driver) (cloudInit : string)
    (zone : option UUID) (template : Template.t) (profile : option UUID)
    (sgs ags : list UUID) (sshKey : string) (tr : list Event) (w2 : W) : Prop :=
  forall pubKey w3 w4 w5,
    handle _ (ReadFile (sshKey ++ ".pub")) w2 = ((pubKey, None), w3) ->
    handle _ (CopyFile sshKey (GetSSHKeyPath d)) w3 = (None, w4) ->
    handle _ (Chmod (GetSSHKeyPath d) mode_0600) w4 = (None, w5) ->
    let cloudInit' := cloudInit ++ "
ssh_authorized_keys:
- " ++ pubKey in
    let req := deployRequest (set_UserData d cloudInit') zone template profile sgs ags in
    reaches (Create d0)
      (Create_deploy d cloudInit' zone template profile sgs ags) w
      (tr ++ [Ev (ReadFile (sshKey ++ ".pub")) (pubKey, None);
              Ev (CopyFile sshKey (GetSSHKeyPath d)) None;
              Ev (Chmod (GetSSHKeyPath d) mode_0600) None])%list w5
    /\ DeployVirtualMachine.UserData req = EncodeToString cloudInit'
    /\ DeployVirtualMachine.KeyPair req = KeyPair d.

(** Every value a program can return satisfies [Q]. *)
Fixpoint returns_only {A : Type} (Q : A -> Prop) (p : Prog A) : Prop :=
  match p with
  | Ret a => Q a
  | Panic => True
  | Vis c k => forall x, returns_only Q (k x)
  end.

(** A request of the resolution phase of [Create]: it deploys nothing,
    deletes nothing, waits for no host and fetches no machine. *)
Definition resolving (ev : Event) : Prop :=
  match ev with
  | Ev c _ =>
      match c with
      | RequestDeployVirtualMachine _ | Delete _ | WaitForSSH _
      | GetVirtualMachine _ => False
      | _ => True
      end
  end.

(** The request deploys a machine. *)
Definition deploys (ev : Event) : Prop :=
  match ev with
  | Ev c _ =>
      match c with
      | RequestDeployVirtualMachine _ => True
      | _ => False
      end
  end.

(** The request deletes something other than an SSH key pair. *)
Definition destroys (ev : Event) : Prop :=
  match ev with
  | Ev c _ =>
      match c with
      | Delete (DeleteSSHKeyPair _) => False
      | Delete _ => True
      | _ => False
      end
  end.

(** What [Create] takes from the configuration and never writes. *)
Definition config (d : Driver) :=
  (MachineName d, StorePath d, URL d, APIKey d, APISecretKey d, InstanceProfile d,
   DiskSize d, Image d, SecurityGroups d, AffinityGroups d, AvailabilityZone d,
   SSHKey d, PublicKey d, UserDataFile d).

(** Whatever the answers, the requests [tr] a program makes and the value [a]
    it returns satisfy [S tr a]. *)
Fixpoint ensures {A : Type} (S : list Event -> A -> Prop) (p : Prog A) : Prop :=
  match p with
  | Ret a => S [] a
  | Panic => True
  | Vis c k => forall x, ensures (fun tr a => S (Ev c x :: tr) a) (k x)
  end.

(** A block that makes [Create] return gives it an error to return. *)
Definition aborts_with_error {A : Type} (r : Flow A) : Prop :=
  match r with
  | Continue _ => True
  | Return err => is_Some err
  end.

(** The run [tr] of [Create d], which left the driver [d'], deployed a
    machine: after requests of the resolution phase one deployment, for the
    name of the machine, was answered with [vm]; only the wait for SSH and
    the deletion of the key pair followed; the driver records the id of [vm]
    and no key pair. *)
Definition deployed (d : Driver) (tr : list Event) (d' : Driver) : Prop :=
  exists pre req vm post,
    tr = (pre ++ Ev (RequestDeployVirtualMachine req) (inr vm) :: post)%list
    /\ Forall resolving pre
    /\ Forall post_create_step post
    /\ DeployVirtualMachine.Name req = MachineName d
    /\ DeployVirtualMachine.DisplayName req = MachineName d
    /\ ID d' = VirtualMachine.ID vm
    /\ KeyPair d' = "".

(** The run [tr] ended at the lookup of an affinity group that failed
    outside the not-found class; nothing was deployed. *)
Definition lookup_error_dropped (tr : list Event) : Prop :=
  exists pre group e,
    tr = (pre ++ [Ev (lookupAffinityGroup group) (inl e)])%list
    /\ is_ErrorResponse e = false
    /\ Forall resolving tr.

(** The affinity-group block returns an error, or the variable [err] right
    after a lookup that failed outside the not-found class. *)
Definition affinity_block (err : option error) (tr : list Event)
    (r : Flow (list UUID)) : Prop :=
  Forall resolving tr
  /\ match r with
     | Continue _ => True
     | Return e => is_Some e \/ (e = err /\ lookup_error_dropped tr)
     end.

(** [Create] returns nil only after a deployment, or right after the failed
    lookup of an affinity group. *)
Definition nil_means (d : Driver) (tr : list Event) (r : Driver * option error)
  : Prop :=
  r.2 = None -> deployed d tr r.1 \/ lookup_error_dropped tr.

(** A block of [Create] falls through with a value satisfying [Q], or makes
    [Create] return an error. *)
Definition continues_with {A : Type} (Q : A -> Prop) (r : Flow A) : Prop :=
  match r with
  | Continue a => Q a
  | Return err => is_Some err
  end.

(** The creation request of [createDefaultAffinityGroup]. *)
Definition createAffinityGroup (group : string) : Call (error + AffinityGroup.t) :=
  RequestCreateAffinityGroup
    {| CreateAffinityGroup.Name := group;
       CreateAffinityGroup.Type_ := defaultAffinityGroupType;
       CreateAffinityGroup.Description := "created by docker-machine" |}.

(** The name a request looks up, when it is an affinity-group lookup. *)
Definition affinity_name (ev : Event) : option string :=
  match ev with
  | Ev c _ =>
      match c with
      | GetAffinityGroup ag => Some (AffinityGroup.Name ag)
      | _ => None
      end
  end.

(** The id a request brings: that of the affinity group a lookup finds or a
    creation makes. *)
Definition affinity_id (ev : Event) : option UUID :=
  match ev with
  | Ev c x =>
      match c in Call X return X -> option UUID with
      | GetAffinityGroup _ | RequestCreateAffinityGroup _ =>
          fun x => match x with
                   | inr ag => AffinityGroup.ID ag
                   | inl _ => None
                   end
      | _ => fun _ => None
      end x
  end.

(** A request of the affinity-group block: the lookup of one of the names
    [groups], or its creation as [createDefaultAffinityGroup] asks for it. *)
Definition affinity_step (groups : list string) (ev : Event) : Prop :=
  exists group,
    In group groups /\ group <> ""
    /\ ((exists x, ev = Ev (lookupAffinityGroup group) x)
        \/ (exists x, ev = Ev (createAffinityGroup group) x)).

(** What the affinity-group block, entered with the ids [ags], leaves when
    it falls through: the non-empty names were looked up in order, and each
    id found or created was added in that order. *)
Definition resolves_affinity (groups : list string) (ags : list UUID)
    (tr : list Event) (r : Flow (list UUID)) : Prop :=
  forall ags',
    r = Continue ags' ->
    collect affinity_name tr = List.filter nonempty groups
    /\ ags' = (ags ++ collect affinity_id tr)%list.

(** A request of the SSH key block: the key pair, the current user, and the
    local files. *)
Definition key_step (ev : Event) : Prop :=
  match ev with
  | Ev c _ =>
      match c with
      | RequestCreateSSHKeyPair _ | MkdirAll _ _ | WriteFile _ _ _ | UserCurrent
      | FilepathAbs _ | ReadFile _ | CopyFile _ _ | Chmod _ _ => True
      | _ => False
      end
  end.

(** A request that is about no security group and no affinity group. *)
Definition group_free (ev : Event) : Prop :=
  lookup_name ev = None /\ resolved_id ev = None
  /\ affinity_name ev = None /\ affinity_id ev = None.

(** The deployment request of an event and its answer. *)
Definition deploy_request (ev : Event) : option DeployVirtualMachine.t :=
  match ev with
  | Ev c _ =>
      match c with
      | RequestDeployVirtualMachine req => Some req
      | _ => None
      end
  end.

Definition deploy_answer (ev : Event) : option (error + VirtualMachine.t) :=
  match ev with
  | Ev c x =>
      match c in Call X return X -> option (error + VirtualMachine.t) with
      | RequestDeployVirtualMachine _ => fun x => Some x
      | _ => fun _ => None
      end x
  end.

(** How [Create d] comes by its cloud-init: with the requests [tr0] it
    leaves the driver [d0], whose [UserData] is the payload. *)
Definition loads_cloud_init (d : Driver) (tr0 : list Event) (d0 : Driver) : Prop :=
  (UserDataFile d = "" /\ tr0 = [] /\ d0 = d)
  \/ (UserDataFile d <> ""
      /\ exists data,
          tr0 = [Ev (ReadFile (UserDataFile d)) (data, None)]
          /\ d0 = set_UserData d data).

(** How the SSH key block, entered with the driver [d] and the payload
    [cloudInit], falls through: with a generated key pair recorded, or with
    the public key that was read appended to the payload. *)
Definition prepares_key (d : Driver) (cloudInit : string) (tr : list Event)
    (d1 : Driver) (cloudInit1 : string) : Prop :=
  (SSHKey d = "" /\ d1 = set_KeyPair d (keyPairName d) /\ cloudInit1 = cloudInit)
  \/ (SSHKey d <> "" /\ d1 = d
      /\ exists path pubKey,
          In (Ev (ReadFile (path ++ ".pub")) (pubKey, None)) tr
          /\ cloudInit1 = cloudInit ++ sshAuthorizedKeys ++ pubKey).

(** The requests [pre] of [Create d] up to its deployment request [req]:
    the cloud-init, the zone, the template, the profile, the security
    groups, the affinity groups and the key, in this order; [d2] is the
    driver when the request is sent. *)
Definition assembled (d : Driver) (pre : list Event) (req : DeployVirtualMachine.t)
    (d2 : Driver) : Prop :=
  exists tr0 d0 z templates tpl p tr_sg sgs tr_ag ags tr_key d1 cloudInit1,
    pre = (tr0 ++ Ev (zoneQuery d) (inr [z])
               :: Ev (templateQuery (Zone.ID z)) (inr templates)
               :: Ev (profileQuery d) (inr [p])
               :: tr_sg ++ tr_ag ++ tr_key)%list
    /\ loads_cloud_init d tr0 d0
    /\ List.find (names_image (ToLower (Image d))) (List.filter is_10GiB templates)
       = Some tpl
    /\ resolves_all (SecurityGroups d) [] tr_sg (Some (Continue sgs))
    /\ Forall (fun ev => affinity_name ev = None /\ affinity_id ev = None) tr_sg
    /\ Forall (affinity_step (AffinityGroups d)) tr_ag
    /\ collect affinity_name tr_ag = List.filter nonempty (AffinityGroups d)
    /\ ags = collect affinity_id tr_ag
    /\ Forall key_step tr_key
    /\ prepares_key (Create_username d0 tpl) (UserData d0) tr_key d1 cloudInit1
    /\ d2 = set_UserData d1 cloudInit1
    /\ req = deployRequest d2 (Zone.ID z) tpl (ServiceOffering.ID p) sgs ags.

(** How [Create] ends after the deployment request, sent with the driver
    [d2], was answered with [x]: the requests [post] and what it returns. *)
Definition concludes (d2 : Driver) (x : error + VirtualMachine.t)
    (post : list Event) (r : option (Driver * option error)) : Prop :=
  match x with
  | inl e => post = [] /\ r = Some (d2, Some e)
  | inr vm =>
      let d3 := Create_record d2 vm in
      if String.eqb (KeyPair d2) "" then post = [] /\ r = Some (d3, None)
      else
        (exists e, post = [Ev (WaitForSSH d3) (Some e)] /\ r = Some (d3, Some e))
        \/ (exists e,
              post = [Ev (WaitForSSH d3) None;
                      Ev (keyPairDeletionOf (KeyPair d2)) (Some e)]
              /\ r = Some (d3, Some e))
        \/ (post = [Ev (WaitForSSH d3) None; Ev (keyPairDeletionOf (KeyPair d2)) None]
            /\ r = Some (set_KeyPair d3 "", None))
  end.

(** The requests of [Remove] for a driver that tracks the key pair
    [keyPair] and the machine [id], at a provider that deletes what it is
    asked to. *)
Definition teardown (keyPair : string) (id : option UUID) : list Event :=
  ((if String.eqb keyPair "" then []
    else [Ev (keyPairDeletionOf keyPair) None])
   ++ match id with
      | Some _ => [Ev (Delete (DeleteVirtualMachine (VirtualMachine_with_ID id))) None]
      | None => []
      end)%list.

(** The provider [h] deletes whatever it is asked to. *)
Definition accepts_deletions (h : forall X, Call X -> W -> X * W) : Prop :=
  forall r w, (h _ (Delete r) w).1 = None.

(** A request that creates a group creates one the configuration of [d]
    names, described as created by docker-machine; an affinity group has
    the anti-affinity type. *)
Definition creates_configured (d : Driver) (ev : Event) : Prop :=
  match ev with
  | Ev c _ =>
      match c with
      | RequestCreateSecurityGroup req =>
          In (CreateSecurityGroup.Name req) (SecurityGroups d)
          /\ CreateSecurityGroup.Name req <> ""
          /\ CreateSecurityGroup.Description req = "created by docker-machine"
      | RequestCreateAffinityGroup req =>
          In (CreateAffinityGroup.Name req) (AffinityGroups d)
          /\ CreateAffinityGroup.Name req <> ""
          /\ CreateAffinityGroup.Type_ req = "host anti-affinity"
          /\ CreateAffinityGroup.Description req = "created by docker-machine"
      | _ => True
      end
  end.

(** A template name the pattern reads as it is written: no newline, and no
    space before a digit or a dot, so that the version is the first thing
    after a space that looks like one. *)
Fixpoint plain_name (n : string) : bool :=
  match n with
  | EmptyString => true
  | String c n' =>
      negb (Ascii.eqb c "010")
      && (if Ascii.eqb c " " then
            match n' with
            | String c' _ => negb (regexp.is_version_byte c')
            | EmptyString => true
            end
          else true)
      && plain_name n'
  end.

(** The last byte of [v] is a digit. *)
Fixpoint ends_with_digit (v : string) : bool :=
  match v with
  | EmptyString => false
  | String c EmptyString => regexp.is_digit c
  | String _ v' => ends_with_digit v'
  end.

(** What may follow a version: nothing, or a byte that is neither of a word
    nor of a version. *)
Definition ends_version (rest : string) : bool :=
  match rest with
  | EmptyString => true
  | String c _ => negb (regexp.is_word_byte c) && negb (regexp.is_version_byte c)
  end.

(** Two sets of flag values agree on every flag [GetCreateFlags] registers,
    read as the kind it is registered with. *)
Definition reads_alike (flags1 flags2 : DriverOptions.t) : Prop :=
  forall f,
    In f GetCreateFlags ->
    match f with
    | mcnflag.StringFlag _ name _ _ =>
        DriverOptions.String flags1 name = DriverOptions.String flags2 name
    | mcnflag.IntFlag _ name _ _ =>
        DriverOptions.Int flags1 name = DriverOptions.Int flags2 name
    | mcnflag.StringSliceFlag _ name _ _ =>
        DriverOptions.StringSlice flags1 name = DriverOptions.StringSlice flags2 name
    end.

End Vocabulary.

(** ** Concrete hosts and providers for the examples *)

(** A scripted world that answers some requests in a special way. *)
Definition scriptedWith (special : forall X, Call X -> option X) (s : Script)
    (X : Type) (c : Call X) (w : unit) : X * unit :=
  (match special X c with
   | Some x => x
   | None => answer s c
   end, w).

Definition zone1 : Zone.t := {| Zone.ID := Some "zone-1"; Zone.Name := "CH-DK-2" |}.
Definition zone2 : Zone.t := {| Zone.ID := Some "zone-2"; Zone.Name := "CH-DK-2" |}.
Definition small : ServiceOffering.t :=
  {| ServiceOffering.ID := Some "so-small"; ServiceOffering.Name := "Small" |}.

(** [host] once the template gave its user name. *)
Definition hostUbuntu : Driver := set_SSHUser host "ubuntu".

(** The requests of [Create host] up to the security groups, at the [happy]
    provider. *)
Definition zoneListed : Event := Ev (zoneQuery host) (inr [zone1]).
Definition templatesListed : Event :=
  Ev (templateQuery (Some "zone-1")) (inr [ubuntuTemplate]).
Definition profilesListed : Event := Ev (profileQuery hostUbuntu) (inr [small]).

(** The provider lists two zones, respectively none, under the name. *)
Definition twoZones (X : Type) (c : Call X) : option X :=
  match c in Call X return option X with
  | ListZones _ => Some (inr [zone1; zone2])
  | _ => None
  end.

Definition noZone (X : Type) (c : Call X) : option X :=
  match c in Call X return option X with
  | ListZones _ => Some (inr [])
  | _ => None
  end.

(** The two kinds of failed lookup the specification tells apart. *)
Inductive LookupFailure : Type := NotFound | Ambiguous.

(** A template one byte larger than 10 GiB, the only one listed. *)
Definition oversizedTemplate : Template.t :=
  {| Template.ID := Some "tpl-ubuntu"; Template.Name := "Linux Ubuntu 18.04 LTS 64-bit";
     Template.Size := 10 * GiB + 1; Template.Details := ∅;
     Template.IsFeatured := true; Template.ZoneID := Some "zone-1" |}.

Definition oversizedListing (X : Type) (c : Call X) : option X :=
  match c in Call X return option X with
  | ListTemplates _ => Some (inr [oversizedTemplate])
  | _ => None
  end.

(** No security group exists yet: every lookup answers in the not-found
    class. *)
Definition noGroups (X : Type) (c : Call X) : option X :=
  match c in Call X return option X with
  | GetSecurityGroup _ => Some (inl (ErrorResponse "not found"))
  | _ => None
  end.

(** The lookup of an affinity group fails in transport. *)
Definition transportError : error := errorString "dial tcp: connection refused".

Definition brokenAffinityLookup (X : Type) (c : Call X) : option X :=
  match c in Call X return option X with
  | GetAffinityGroup _ => Some (inl transportError)
  | _ => None
  end.

Definition spreadHost : Driver :=
  exampleDriver defaultImage [defaultSecurityGroup] ["spread"] "".

(** The provider refuses to delete anything. *)
Definition deletionError : error := ErrorResponse "key pair in use".

Definition noDeletion (X : Type) (c : Call X) : option X :=
  match c in Call X return option X with
  | Delete _ => Some (Some deletionError)
  | _ => None
  end.

(** A host left with a key pair and a machine. *)
Definition deployedHost : Driver := set_ID (set_KeyPair host "docker-machine-host") (Some "vm-1").

(** A host whose key is imported from the home directory. *)
Definition importingHost : Driver :=
  exampleDriver defaultImage [defaultSecurityGroup] [] "~/.ssh/id_rsa".

(** A running host with an IPv6 address. *)
Definition host6 : Driver := set_IPAddress (set_ID host (Some "vm-1")) "2001:db8::1".

(** A host whose image name has two of the keywords. *)
Definition centosOnUbuntu : Driver :=
  exampleDriver "CentOS 7 on Ubuntu" [defaultSecurityGroup] [] "".

Definition host4 : Driver := set_IPAddress (set_ID host (Some "vm-1")) "203.0.113.7".

Definition centosHost : Driver :=
  exampleDriver "Linux CentOS 7.4 64-bit" [defaultSecurityGroup] [] "".

(** The group [docker-machine] as the provider creates it. *)
Definition createdGroup : SecurityGroup.t :=
  {| SecurityGroup.ID := Some "new-sg-docker-machine";
     SecurityGroup.Name := "docker-machine" |}.

Definition foundGroup : Event :=
  Ev (lookupGroup "docker-machine")
     (inr {| SecurityGroup.ID := Some "sg-docker-machine";
             SecurityGroup.Name := "docker-machine" |}).

Definition generatedKeyPair : SSHKeyPair.t :=
  {| SSHKeyPair.Name := "docker-machine-host"; SSHKeyPair.PrivateKey := "PRIVATE" |}.

(** ** Runs of [Create] at the example providers *)

(** What [Create host] requests for the key pair it generates. *)
Definition keyStored : list Event :=
  [Ev (RequestCreateSSHKeyPair "docker-machine-host") (inr generatedKeyPair);
   Ev (MkdirAll "/store/machines/host/id_rsa/.." mode_0750) None;
   Ev (WriteFile "/store/machines/host/id_rsa" "PRIVATE" mode_0600) None].

(** The requests of [Create host] before the deployment. *)
Definition resolved : list Event :=
  ([zoneListed; templatesListed; profilesListed; foundGroup] ++ keyStored)%list.

(** [host] when its deployment request is sent, and the request. *)
Definition hostWithKey : Driver :=
  set_UserData (set_KeyPair hostUbuntu "docker-machine-host") defaultCloudInit.

Definition hostRequest : DeployVirtualMachine.t :=
  @deployRequest exampleRuntime hostWithKey (Some "zone-1") ubuntuTemplate
    (Some "so-small") ["sg-docker-machine"] [].

(** [host] once deployed, with and without the name of its key pair. *)
Definition hostDeployed : Driver := Create_record hostWithKey runningMachine.
Definition hostCreated : Driver := set_KeyPair hostDeployed "".

(** The host never answers on SSH. *)
Definition sshTimeout : error := errorString "Too many retries waiting for SSH".

Definition sshUnreachable (X : Type) (c : Call X) : option X :=
  match c in Call X return option X with
  | WaitForSSH _ => Some (Some sshTimeout)
  | _ => None
  end.

(** The provider refuses to deploy. *)
Definition noCapacity : error := ErrorResponse "insufficient capacity".

Definition deploymentRefused (X : Type) (c : Call X) : option X :=
  match c in Call X return option X with
  | RequestDeployVirtualMachine _ => Some (inl noCapacity)
  | _ => None
  end.

(** A host with a user-data file that cannot be read. *)
Definition fileHost : Driver :=
  {| MachineName := MachineName host; StorePath := StorePath host;
     SSHUser := SSHUser host; IPAddress := IPAddress host; URL := URL host;
     APIKey := APIKey host; APISecretKey := APISecretKey host;
     InstanceProfile := InstanceProfile host; DiskSize := DiskSize host;
     Image := Image host; SecurityGroups := SecurityGroups host;
     AffinityGroups := AffinityGroups host; AvailabilityZone := AvailabilityZone host;
     SSHKey := SSHKey host; KeyPair := KeyPair host; Password := Password host;
     PublicKey := PublicKey host; UserDataFile := "/etc/cloud-init.yml";
     UserData := UserData host; ID := ID host |}.

Definition permissionDenied : error := errorString "permission denied".

Definition unreadable (X : Type) (c : Call X) : option X :=
  match c in Call X return option X with
  | ReadFile _ => Some ("", Some permissionDenied)
  | _ => None
  end.

(** A host placed in the affinity group [spread] of the [happy] provider. *)
Definition spreadRequest : DeployVirtualMachine.t :=
  @deployRequest exampleRuntime
    (set_UserData (set_KeyPair (set_SSHUser spreadHost "ubuntu") "docker-machine-host")
       defaultCloudInit)
    (Some "zone-1") ubuntuTemplate (Some "so-small") ["sg-docker-machine"]
    ["ag-spread"].

Definition spreadResolved : list Event :=
  ([Ev (zoneQuery spreadHost) (inr [zone1]); templatesListed;
    Ev (profileQuery spreadHost) (inr [small]); foundGroup;
    Ev (lookupAffinityGroup "spread")
       (inr {| AffinityGroup.ID := Some "ag-spread"; AffinityGroup.Name := "spread" |})]
   ++ keyStored)%list.

(** Flag values with the two keys, and the same with another boolean
    flag set. *)
Definition keyFlags (other : bool) : DriverOptions.t :=
  {| DriverOptions.String := fun name =>
       if String.eqb name "exoscale-api-key" then "key"
       else if String.eqb name "exoscale-api-secret-key" then "secret"
       else if String.eqb name "exoscale-image" then defaultImage
       else "";
     DriverOptions.StringSlice := fun name =>
       if String.eqb name "exoscale-security-group" then [defaultSecurityGroup] else [];
     DriverOptions.Int := fun _ => defaultDiskSize;
     DriverOptions.Bool := fun _ => other |}.

(** ** The pattern at some template names *)

Example FindStringSubmatch_default :
  regexp.FindStringSubmatch "Linux Ubuntu 18.04 LTS 64-bit"
  = ["Linux Ubuntu 18.04"; "Ubuntu"; "18.04"].
Proof. reflexivity. Qed.

Example FindStringSubmatch_two_words :
  regexp.FindStringSubmatch "Linux Red Hat 7.5 64-bit"
  = ["Linux Red Hat 7.5"; "Red Hat"; "7.5"].
Proof. reflexivity. Qed.

Example FindStringSubmatch_no_version :
  regexp.FindStringSubmatch "Linux CoreOS stable" = [].
Proof. reflexivity. Qed.

Example FindStringSubmatch_boundary :
  regexp.FindStringSubmatch "Linux Foo 12a" = [].
Proof. reflexivity. Qed.

(** ** Running programs: basic facts *)
Section RunFacts.
Context {W : Type} (handle : forall X, Call X -> W -> X * W).

Lemma after_nil {A : Type} (x : option A * list Event * W) : after [] x = x.
Proof. by destruct x as [[r tr] w]. Qed.

Lemma after_after {A : Type} tr0 tr1 (x : option A * list Event * W) :
  after tr0 (after tr1 x) = after (tr0 ++ tr1)%list x.
Proof. destruct x as [[r tr] w]; simpl. by rewrite app_assoc. Qed.

Lemma run_Vis {A X : Type} (c : Call X) (k : X -> Prog A) w x w1 :
  handle X c w = (x, w1) ->
  run handle (Vis c k) w = after [Ev c x] (run handle (k x) w1).
Proof. intros Hc; simpl. rewrite Hc. by destruct (run handle (k x) w1) as [[r tr] w2]. Qed.

Lemma run_bind {A B : Type} (p : Prog A) (f : A -> Prog B) w :
  run handle (p ≫= f) w =
    match run handle p w with
    | (Some a, tr, w1) => after tr (run handle (f a) w1)
    | (None, tr, w1) => (None, tr, w1)
    end.
Proof.
  revert w; induction p as [a| |X c k IH]; intros w.
  - simpl. by rewrite after_nil.
  - reflexivity.
  - change (Vis c k ≫= f) with (Vis c (fun x => k x ≫= f)).
    simpl. destruct (handle X c w) as [x w1]. rewrite IH.
    destruct (run handle (k x) w1) as [[[a|] tr] w2]; [|done].
    by destruct (run handle (f a) w2) as [[r tr'] w3].
Qed.

Lemma reaches_refl {A : Type} (p : Prog A) w : reaches handle p p w [] w.
Proof. unfold reaches. by rewrite after_nil. Qed.

Lemma reaches_trans {A : Type} (p q r : Prog A) w tr0 w1 tr1 w2 :
  reaches handle p q w tr0 w1 -> reaches handle q r w1 tr1 w2 ->
  reaches handle p r w (tr0 ++ tr1)%list w2.
Proof. unfold reaches. intros -> ->. apply after_after. Qed.

Lemma reaches_Vis {A X : Type} (c : Call X) (k : X -> Prog A) w x w1 :
  handle X c w = (x, w1) -> reaches handle (Vis c k) (k x) w [Ev c x] w1.
Proof. apply run_Vis. Qed.

(** A program that reaches a point where it returns [a] has [a] for result. *)
Lemma reaches_Ret {A : Type} (p : Prog A) a w tr w1 :
  reaches handle p (Ret a) w tr w1 <-> run handle p w = (Some a, tr, w1).
Proof. unfold reaches; simpl. by rewrite app_nil_r. Qed.

Lemma reaches_bind {A B : Type} (p : Prog A) (f : A -> Prog B) a w tr w1 :
  run handle p w = (Some a, tr, w1) -> reaches handle (p ≫= f) (f a) w tr w1.
Proof. intros Hp. unfold reaches. by rewrite run_bind, Hp. Qed.

End RunFacts.

(** ** State query, user name, URL and removal *)
Section Queries.
Context `{GoRuntime} {W : Type} (handle : forall X, Call X -> W -> X * W).

Lemma state_of_unrecognized (s : string) :
  s ∉ recognized_states -> state_of s = state.None.
Proof.
  intros Hs. unfold state_of.
  repeat match goal with
         | |- context [String.eqb s ?x] =>
             destruct (String.eqb_spec s x) as [Heq|_];
             [exfalso; apply Hs, list_elem_of_In; rewrite Heq; simpl; tauto|]
         end.
  reflexivity.
Qed.

Lemma run_GetState d w r w1 :
  handle _ (GetVirtualMachine (VirtualMachine_with_ID (ID d))) w = (r, w1) ->
  run handle (GetState d) w =
    (Some (match r with
           | inl err => (state.Error, Some err)
           | inr vm => (state_of (VirtualMachine.State vm), None)
           end),
     [Ev (GetVirtualMachine (VirtualMachine_with_ID (ID d))) r], w1).
Proof.
  intros Hvm. unfold GetState, virtualMachine, call.
  rewrite run_bind. simpl. rewrite Hvm. by destruct r.
Qed.

(** C6: once the machine is fetched, [GetState] returns no error and the
    state given by a fixed total table: "Stopping" is Running; "Destroyed",
    "Expunging" and "Shutdowned" are Stopped; "Migrating" is Paused;
    "Error" and "Unknown" are Error; "Starting", "Running" and "Stopped"
    are themselves; every other string is None. *)
Theorem GetState_fixed_table d w vm w1 :
  handle _ (GetVirtualMachine (VirtualMachine_with_ID (ID d))) w = (inr vm, w1) ->
  let s := VirtualMachine.State vm in
  exists st : state.State,
    run handle (GetState d) w
    = (Some (st, None),
       [Ev (GetVirtualMachine (VirtualMachine_with_ID (ID d))) (inr vm)], w1)
    /\ (s = "Starting" -> st = state.Starting)
    /\ (s = "Running" \/ s = "Stopping" -> st = state.Running)
    /\ (s = "Stopped" \/ s = "Destroyed" \/ s = "Expunging" \/ s = "Shutdowned"
        -> st = state.Stopped)
    /\ (s = "Migrating" -> st = state.Paused)
    /\ (s = "Error" \/ s = "Unknown" -> st = state.Error)
    /\ (s ∉ recognized_states -> st = state.None).
Proof.
  intros Hvm s. exists (state_of s). split.
  - by rewrite (run_GetState d w _ w1 Hvm).
  - repeat split.
    + by intros ->.
    + by intros [-> | ->].
    + by intros [-> | [-> | [-> | ->]]].
    + by intros ->.
    + by intros [-> | ->].
    + apply state_of_unrecognized.
Qed.

Lemma GetSSHUsername_first_keyword d :
  SSHUser d = "" ->
  GetSSHUsername d = first_keyword (ToLower (Image d)) username_keywords.
Proof. intros Hu. unfold GetSSHUsername. by rewrite Hu. Qed.

Lemma first_keyword_split name table before kw user rest :
  table = (before ++ (kw, user) :: rest)%list ->
  Forall (fun p => strings.Contains name p.1 = false) before ->
  strings.Contains name kw = true ->
  first_keyword name table = user.
Proof.
  intros -> Hbefore Hkw.
  induction Hbefore as [|[kw' user'] before Hno _ IH]; simpl in *.
  - by rewrite Hkw.
  - by rewrite Hno.
Qed.

Lemma first_keyword_none name table :
  Forall (fun p => strings.Contains name p.1 = false) table ->
  first_keyword name table = defaultSSHUser.
Proof.
  induction 1 as [|[kw user] table Hno _ IH]; simpl in *; [done|]. by rewrite Hno.
Qed.

(** C10 (amended): a configured SSH user is returned unchanged; without
    one, the keywords ubuntu, centos, redhat, fedora, coreos, debian are
    looked for in the lowercased image name in that order, the first one it
    contains decides the user (ubuntu, centos, cloud-user, fedora, core,
    debian), and a name with none of them gives root. *)
Theorem GetSSHUsername_first_match d :
  (SSHUser d <> "" -> GetSSHUsername d = SSHUser d)
  /\ (SSHUser d = "" ->
      let name := ToLower (Image d) in
      (forall before kw user rest,
          username_keywords = (before ++ (kw, user) :: rest)%list ->
          Forall (fun p => strings.Contains name p.1 = false) before ->
          strings.Contains name kw = true ->
          GetSSHUsername d = user)
      /\ (Forall (fun p => strings.Contains name p.1 = false) username_keywords ->
          GetSSHUsername d = "root")).
Proof.
  split.
  - intros Hu. unfold GetSSHUsername.
    by destruct (String.eqb_spec (SSHUser d) "").
  - intros Hu name. split.
    + intros before kw user rest Htable Hbefore Hkw.
      rewrite GetSSHUsername_first_keyword by done.
      by eapply first_keyword_split.
    + intros Hnone. rewrite GetSSHUsername_first_keyword by done.
      by apply first_keyword_none.
Qed.

Lemma run_MustBeRunning_model d w r w1 :
  handle _ (GetVirtualMachine (VirtualMachine_with_ID (ID d))) w = (r, w1) ->
  exists err,
    run handle (MustBeRunning_model d) w
    = (Some err, [Ev (GetVirtualMachine (VirtualMachine_with_ID (ID d))) r], w1)
    /\ (shows_running r = true -> err = None)
    /\ (shows_running r = false -> is_Some err).
Proof.
  intros Hvm. unfold MustBeRunning_model. rewrite run_bind.
  rewrite (run_GetState d w r w1 Hvm).
  destruct r as [e|vm]; simpl.
  - exists (Some e). by repeat split.
  - destruct (state_of (VirtualMachine.State vm)); simpl;
      eexists; repeat split; try done; by eauto.
Qed.

(** C9 (amended): [GetURL] returns the error of libmachine's running check
    whenever that check fails; when it passes and the host has an address,
    the URL is [tcp://<ip>:2376] for an address without a colon and
    [tcp://[<ip>]:2376], the address in brackets, for one with a colon. *)
Theorem GetURL_running_only d w err tr w1 :
  run handle (MustBeRunning d) w = (Some err, tr, w1) ->
  (forall e, err = Some e -> run handle (GetURL d) w = (Some ("", Some e), tr, w1))
  /\ (err = None -> forall e, GetIP d = inl e ->
      run handle (GetURL d) w = (Some ("", Some e), tr, w1))
  /\ (err = None -> forall ip, GetIP d = inr ip -> strings.Contains ip ":" = false ->
      run handle (GetURL d) w = (Some ("tcp://" ++ ip ++ ":2376", None), tr, w1))
  /\ (err = None -> forall ip, GetIP d = inr ip -> strings.Contains ip ":" = true ->
      run handle (GetURL d) w = (Some ("tcp://[" ++ ip ++ "]:2376", None), tr, w1)).
Proof.
  intros Hrun.
  assert (Hurl : run handle (GetURL d) w
                 = after tr
                     (run handle
                        (match err with
                         | Some e => mret ("", Some e)
                         | None =>
                             match GetIP d with
                             | inl e => mret ("", Some e)
                             | inr ip => mret ("tcp://" ++ net.JoinHostPort ip "2376", None)
                             end
                         end) w1)).
  { unfold GetURL. by rewrite run_bind, Hrun. }
  rewrite Hurl. repeat split.
  - intros e ->. cbn. by rewrite app_nil_r.
  - intros -> e ->. cbn. by rewrite app_nil_r.
  - intros -> ip -> Hcolon. unfold net.JoinHostPort. rewrite Hcolon.
    cbn. by rewrite app_nil_r.
  - intros -> ip -> Hcolon. unfold net.JoinHostPort. rewrite Hcolon.
    cbn. by rewrite app_nil_r.
Qed.

(** C5: [Remove] first deletes the tracked key pair, then the machine when
    it has an id.  When the deletion of the key pair fails, its error is
    returned and nothing else is requested; no group is ever deleted. *)
Theorem Remove_key_pair_then_machine d w :
  (forall e w1,
      KeyPair d <> "" ->
      handle _ (keyPairDeletion d) w = (Some e, w1) ->
      run handle (Remove d) w = (Some (Some e), [Ev (keyPairDeletion d) (Some e)], w1))
  /\ (forall w1 r w2,
      KeyPair d <> "" -> is_Some (ID d) ->
      handle _ (keyPairDeletion d) w = (None, w1) ->
      handle _ (machineDeletion d) w1 = (r, w2) ->
      run handle (Remove d) w
      = (Some r, [Ev (keyPairDeletion d) None; Ev (machineDeletion d) r], w2))
  /\ (forall w1,
      KeyPair d <> "" -> ID d = None ->
      handle _ (keyPairDeletion d) w = (None, w1) ->
      run handle (Remove d) w = (Some None, [Ev (keyPairDeletion d) None], w1))
  /\ (forall r w1,
      KeyPair d = "" -> is_Some (ID d) ->
      handle _ (machineDeletion d) w = (r, w1) ->
      run handle (Remove d) w = (Some r, [Ev (machineDeletion d) r], w1))
  /\ (KeyPair d = "" -> ID d = None -> run handle (Remove d) w = (Some None, [], w))
  /\ Forall (fun ev => ~ deletes_group ev) (trace handle (Remove d) w).
Proof.
  unfold trace, Remove, keyPairDeletion, machineDeletion, call.
  repeat split.
  - intros e w1 Hkey Hdel.
    destruct (String.eqb_spec (KeyPair d) ""); [done|]. simpl. by rewrite Hdel.
  - intros w1 r w2 Hkey [id Hid] Hdel Hvm.
    destruct (String.eqb_spec (KeyPair d) ""); [done|]. simpl. rewrite Hdel.
    rewrite Hid in *. simpl. rewrite Hvm. by destruct r.
  - intros w1 Hkey Hid Hdel.
    destruct (String.eqb_spec (KeyPair d) ""); [done|]. simpl. rewrite Hdel.
    by rewrite Hid.
  - intros r w1 Hkey [id Hid] Hvm.
    destruct (String.eqb_spec (KeyPair d) ""); [|done]. simpl.
    rewrite Hid in *. simpl. rewrite Hvm. by destruct r.
  - intros Hkey Hid.
    destruct (String.eqb_spec (KeyPair d) ""); [|done]. simpl. by rewrite Hid.
  - destruct (String.eqb (KeyPair d) ""); simpl.
    + destruct (ID d); simpl; [|by constructor].
      destruct (handle _ _ w) as [[e|] w1]; simpl;
        by repeat (constructor; [tauto|]).
    + destruct (handle _ _ w) as [[e|] w1]; simpl;
        [by repeat (constructor; [tauto|])|].
      destruct (ID d); simpl; [|by repeat (constructor; [tauto|])].
      destruct (handle _ _ w1) as [[e|] w2]; simpl;
        by repeat (constructor; [tauto|]).
Qed.

End Queries.

(** ** [Create]: how its blocks follow one another *)
Section CreateFlow.
Context `{GoRuntime} {W : Type} (handle : forall X, Call X -> W -> X * W).

Lemma reaches_orReturn {A : Type} d (p : Prog (Flow A)) k a w tr w1 :
  run handle p w = (Some (Continue a), tr, w1) ->
  reaches handle (orReturn d p k) (k a) w tr w1.
Proof. intros Hp. unfold orReturn, reaches. by rewrite run_bind, Hp. Qed.

Lemma run_orReturn_Return {A : Type} d (p : Prog (Flow A)) k err w tr w1 :
  run handle p w = (Some (Return err), tr, w1) ->
  run handle (orReturn d p k) w = (Some (d, err), tr, w1).
Proof.
  intros Hp. unfold orReturn. rewrite run_bind, Hp. simpl. by rewrite app_nil_r.
Qed.

Lemma run_orReturn_Panic {A : Type} d (p : Prog (Flow A)) k w tr w1 :
  run handle p w = (None, tr, w1) ->
  run handle (orReturn d p k) w = (None, tr, w1).
Proof. intros Hp. unfold orReturn. by rewrite run_bind, Hp. Qed.

(** When [p] reaches a point that returns, [p] returns there. *)
Lemma reaches_run {A : Type} (p q : Prog A) w tr0 w1 r tr w2 :
  reaches handle p q w tr0 w1 ->
  run handle q w1 = (r, tr, w2) ->
  run handle p w = (r, (tr0 ++ tr)%list, w2).
Proof. unfold reaches. by intros -> ->. Qed.

Lemma run_Create_zone d w zones w1 :
  handle _ (zoneQuery d) w = (inr zones, w1) ->
  run handle (Create_zone d) w
  = (Some (match zones with
           | [z] => Continue (Zone.ID z)
           | _ => Return (Some (zoneError d))
           end),
     [Ev (zoneQuery d) (inr zones)], w1).
Proof.
  intros Hq. unfold Create_zone, call. rewrite run_bind. simpl.
  unfold zoneQuery in Hq. rewrite Hq.
  by destruct zones as [|z [|z' zones]].
Qed.

Lemma run_Create_profile d w profiles w1 :
  handle _ (profileQuery d) w = (inr profiles, w1) ->
  run handle (Create_profile d) w
  = (Some (match profiles with
           | [p] => Continue (ServiceOffering.ID p)
           | _ => Return (Some (profileError d))
           end),
     [Ev (profileQuery d) (inr profiles)], w1).
Proof.
  intros Hq. unfold Create_profile, call. rewrite run_bind. simpl.
  unfold profileQuery in Hq. rewrite Hq.
  by destruct profiles as [|p [|p' profiles]].
Qed.

(** C3 (amended): when [Create] comes to the zone lookup, respectively the
    profile lookup, and the listing answers with a list, [Create] goes on
    with the id of its element exactly when the list has one element; with
    no element or with several it fails, both times with the same error
    ("Availability zone ... doesn't exist", "Unable to find the ...
    profile"), and requests nothing more. *)
Theorem Create_lookup_exactly_one d0 w :
  (forall d cloudInit tr0 w1 zones w2,
      reaches handle (Create d0) (Create_from_zone d cloudInit) w tr0 w1 ->
      handle _ (zoneQuery d) w1 = (inr zones, w2) ->
      let tr := (tr0 ++ [Ev (zoneQuery d) (inr zones)])%list in
      (length zones <> 1 ->
         run handle (Create d0) w = (Some (d, Some (zoneError d)), tr, w2))
      /\ (forall z, zones = [z] ->
            reaches handle (Create d0)
              (Create_from_image d cloudInit (Zone.ID z)) w tr w2))
  /\ (forall d cloudInit zone template tr0 w1 profiles w2,
      reaches handle (Create d0)
        (Create_from_profile d cloudInit zone template) w tr0 w1 ->
      handle _ (profileQuery d) w1 = (inr profiles, w2) ->
      let tr := (tr0 ++ [Ev (profileQuery d) (inr profiles)])%list in
      (length profiles <> 1 ->
         run handle (Create d0) w = (Some (d, Some (profileError d)), tr, w2))
      /\ (forall p, profiles = [p] ->
            reaches handle (Create d0)
              (Create_from_securityGroups d None cloudInit zone template
                 (ServiceOffering.ID p)) w tr w2)).
Proof.
  split.
  - intros d cloudInit tr0 w1 zones w2 Hreach Hq tr.
    pose proof (run_Create_zone d w1 zones w2 Hq) as Hzone. split.
    + intros Hlen. eapply reaches_run; [exact Hreach|].
      apply run_orReturn_Return. rewrite Hzone.
      by destruct zones as [|z [|z' zones]].
    + intros z ->. eapply reaches_trans; [exact Hreach|].
      unfold Create_from_zone. by apply reaches_orReturn.
  - intros d cloudInit zone template tr0 w1 profiles w2 Hreach Hq tr.
    pose proof (run_Create_profile d w1 profiles w2 Hq) as Hprofile. split.
    + intros Hlen. eapply reaches_run; [exact Hreach|].
      apply run_orReturn_Return. rewrite Hprofile.
      by destruct profiles as [|p [|p' profiles]].
    + intros p ->. eapply reaches_trans; [exact Hreach|].
      unfold Create_from_profile. by apply reaches_orReturn.
Qed.

End CreateFlow.

(** ** Image resolution *)
Section Image.
Context `{GoRuntime} {W : Type} (handle : forall X, Call X -> W -> X * W).

(** What the pattern finds is a prefix [Linux <name> <version>] of the
    text, with a non-empty name and a non-empty version. *)
Lemma match_version_sound s v rest :
  regexp.match_version s = Some (v, rest) ->
  s = v ++ rest /\ v <> "" /\ all_bytes regexp.is_version_byte v = true.
Proof.
  revert v rest; induction s as [|c s IH]; intros v rest; simpl; [done|].
  destruct (regexp.is_version_byte c) eqn:Hc; [|done].
  destruct (regexp.match_version s) as [[v' rest']|].
  - intros [= <- <-]. destruct (IH v' rest' eq_refl) as (-> & _ & Hv').
    repeat split; [done|]. simpl. by rewrite Hc.
  - destruct (regexp.word_boundary c s); [|done]. intros [= <- <-].
    repeat split; [done|]. simpl. by rewrite Hc.
Qed.

Lemma match_name_version_sound s n v rest :
  regexp.match_name_version s = Some (n, v, rest) ->
  s = n ++ " " ++ v ++ rest /\ n <> "" /\ v <> ""
  /\ all_bytes regexp.is_version_byte v = true.
Proof.
  revert n v rest; induction s as [|c s IH]; intros n v rest; simpl; [done|].
  destruct (Ascii.eqb c "010"); [done|].
  destruct (regexp.match_space_version s) as [[v' rest']|] eqn:Hsv.
  - intros [= <- <- <-]. unfold regexp.match_space_version in Hsv.
    destruct s as [|c' s']; [done|].
    destruct (Ascii.eqb_spec c' " ") as [->|Hc'].
    + destruct (match_version_sound _ _ _ Hsv) as (-> & Hv & Hbytes). by repeat split.
    + exfalso. revert Hsv.
      destruct c' as [[] [] [] [] [] [] [] []]; try done.
  - destruct (regexp.match_name_version s) as [[[n' v'] rest']|]; [|done].
    intros [= <- <- <-]. destruct (IH n' v' rest' eq_refl) as (-> & _ & Hv & Hbytes).
    by repeat split.
Qed.

Lemma HasPrefix_drop s p :
  strings.HasPrefix s p = true -> s = p ++ strings.drop (String.length p) s.
Proof.
  unfold strings.HasPrefix.
  revert p; induction s as [|a s IH]; intros [|b p]; simpl; try done.
  destruct (Ascii.ascii_dec b a) as [->|]; [|done].
  intros Hp.
  change (String a s = String a (p ++ strings.drop (String.length p) s)).
  f_equal. by apply IH.
Qed.

Lemma FindStringSubmatch_shape s :
  regexp.FindStringSubmatch s = []
  \/ exists n v rest,
      regexp.FindStringSubmatch s = ["Linux " ++ n ++ " " ++ v; n; v]
      /\ s = "Linux " ++ n ++ " " ++ v ++ rest /\ n <> "" /\ v <> ""
      /\ all_bytes regexp.is_version_byte v = true.
Proof.
  unfold regexp.FindStringSubmatch, strings.HasPrefix.
  destruct (String.prefix "Linux " s) eqn:Hprefix; [|by left].
  destruct (regexp.match_name_version (strings.drop 6 s))
    as [[[n v] rest]|] eqn:Hmatch; [|by left].
  right. exists n, v, rest. split; [done|].
  destruct (match_name_version_sound _ _ _ _ Hmatch) as (Hs & Hn & Hv & Hbytes).
  repeat split; [|done|done|done].
  rewrite (HasPrefix_drop s "Linux " Hprefix). simpl String.length.
  by rewrite Hs.
Qed.

Lemma is_10GiB_range tpl :
  is_10GiB tpl = true <-> (10 * 2 ^ 30 <= Template.Size tpl < 11 * 2 ^ 30)%Z.
Proof.
  unfold is_10GiB. rewrite Z.eqb_eq, Z.shiftr_div_pow2 by lia.
  split.
  - intros Hdiv.
    pose proof (Z.div_mod (Template.Size tpl) (2 ^ 30) ltac:(lia)) as Hdm.
    pose proof (Z.mod_pos_bound (Template.Size tpl) (2 ^ 30) ltac:(lia)). lia.
  - intros Hrange. symmetry. apply (Z.div_unique _ _ _ (Template.Size tpl - 10 * 2 ^ 30)); lia.
Qed.

Lemma selectTemplate_first_match image templates template :
  selectTemplate image templates template
  = default template (List.find (names_image image) (List.filter is_10GiB templates)).
Proof.
  induction templates as [|tpl templates IH]; [done|].
  cbn [selectTemplate List.filter].
  unfold is_10GiB at 1.
  destruct (Z.shiftr (Template.Size tpl) 30 =? 10)%Z; cbn [negb]; [|done].
  cbn [List.find]. unfold names_image at 1, shorthand.
  destruct (String.eqb image (ToLower (Template.Name tpl))); cbn [orb]; [done|].
  destruct (FindStringSubmatch_shape (Template.Name tpl))
    as [-> | (n & v & rest & -> & _)]; [done|].
  cbn [length Nat.ltb Nat.leb nth].
  by destruct (String.eqb image _).
Qed.

(** A shorthand comes from a name that starts with [Linux <name> <version>],
    the version made of digits and dots. *)
Lemma shorthand_pattern name short :
  shorthand name = Some short ->
  exists n v rest,
    name = "Linux " ++ n ++ " " ++ v ++ rest
    /\ n <> "" /\ v <> "" /\ all_bytes regexp.is_version_byte v = true
    /\ short = strings.ReplaceByte (ToLower n) " " "-" ++ "-" ++ v.
Proof.
  unfold shorthand.
  destruct (FindStringSubmatch_shape name)
    as [-> | (n & v & rest & -> & Hname & Hn & Hv & Hbytes)]; [done|].
  intros [= <-]. by exists n, v, rest.
Qed.

Lemma run_Create_image d zone w templates w1 :
  handle _ (templateQuery zone) w = (inr templates, w1) ->
  run handle (Create_image d zone) w
  = (Some (match List.find (names_image (ToLower (Image d)))
                   (List.filter is_10GiB templates) with
           | Some tpl =>
               match Template.ID tpl with
               | Some _ => Continue tpl
               | None => Return (Some (imageError d))
               end
           | None => Return (Some (imageError d))
           end),
     [Ev (templateQuery zone) (inr templates)], w1).
Proof.
  intros Hq. unfold Create_image, call. rewrite run_bind.
  cbn [run]. unfold templateQuery in Hq. rewrite Hq.
  rewrite selectTemplate_first_match.
  destruct (List.find _ _) as [tpl|]; cbn [from_option id].
  - by destruct (Template.ID tpl).
  - done.
Qed.

(** C1 (amended): when [Create] comes to the image, it lists the featured
    templates of the resolved zone, keeps those whose size is 10 in whole
    GiB ([size >> 30 = 10]), and takes the first one that answers to the
    lowercased image name, by its lowercased full name or by its shorthand.
    With no such template (or with one that has no id) [Create] fails with
    "Unable to find image ..."; otherwise it goes on with that template. *)
Theorem Create_image_first_match d0 w d cloudInit zone tr0 w1 templates w2 :
  reaches handle (Create d0) (Create_from_image d cloudInit zone) w tr0 w1 ->
  handle _ (templateQuery zone) w1 = (inr templates, w2) ->
  let tr := (tr0 ++ [Ev (templateQuery zone) (inr templates)])%list in
  let found :=
    List.find (names_image (ToLower (Image d))) (List.filter is_10GiB templates) in
  Template.IsFeatured (featuredTemplate zone) = true
  /\ Template.ZoneID (featuredTemplate zone) = zone
  /\ (forall name short,
        shorthand name = Some short ->
        exists n v rest,
          name = "Linux " ++ n ++ " " ++ v ++ rest
          /\ n <> "" /\ v <> "" /\ all_bytes regexp.is_version_byte v = true
          /\ short = strings.ReplaceByte (ToLower n) " " "-" ++ "-" ++ v)
  /\ (found = None ->
      run handle (Create d0) w = (Some (d, Some (imageError d)), tr, w2))
  /\ (forall tpl, found = Some tpl -> Template.ID tpl = None ->
      run handle (Create d0) w = (Some (d, Some (imageError d)), tr, w2))
  /\ (forall tpl, found = Some tpl -> is_Some (Template.ID tpl) ->
      reaches handle (Create d0)
        (Create_from_profile (Create_username d tpl) cloudInit zone tpl) w tr w2).
Proof.
  intros Hreach Hq tr found.
  pose proof (run_Create_image d zone w1 templates w2 Hq) as Himage.
  fold found in Himage.
  split; [done|]. split; [done|]. split; [apply shorthand_pattern|]. split; [|split].
  - intros Hfound. eapply reaches_run; [exact Hreach|].
    apply run_orReturn_Return. by rewrite Himage, Hfound.
  - intros tpl Hfound Hid. eapply reaches_run; [exact Hreach|].
    apply run_orReturn_Return. by rewrite Himage, Hfound, Hid.
  - intros tpl Hfound [id Hid]. eapply reaches_trans; [exact Hreach|].
    unfold Create_from_image.
    apply (reaches_orReturn handle d (Create_image d zone)
             (fun template =>
                Create_from_profile (Create_username d template) cloudInit zone template)).
    by rewrite Himage, Hfound, Hid.
Qed.

End Image.

(** ** Security groups *)
Section SecurityGroups.
Context `{GoRuntime} {W : Type} (handle : forall X, Call X -> W -> X * W).

(** The rules are submitted one by one, in order, up to the first one that
    is refused. *)
Lemma run_authorizeAll requests w :
  (exists w1,
      run handle (authorizeAll requests) w = (Some None, map accepted requests, w1))
  \/ (exists before req rest e w1,
      requests = (before ++ req :: rest)%list
      /\ run handle (authorizeAll requests) w
         = (Some (Some e), (map accepted before ++ [refused req e])%list, w1)).
Proof.
  revert w; induction requests as [|req requests IH]; intros w.
  - left. by exists w.
  - cbn [authorizeAll]. unfold call. rewrite run_bind. cbn [run].
    destruct (handle _ (RequestAuthorizeSecurityGroupIngress req) w) as [[e|] w1].
    + right. by exists [], req, requests, e, w1.
    + destruct (IH w1) as [[w2 Hrun] | (before & req' & rest & e & w2 & -> & Hrun)].
      * left. exists w2. by rewrite Hrun.
      * right. exists (req :: before), req', rest, e, w2. by rewrite Hrun.
Qed.

Lemma defaultRules_summary sg :
  map summary (defaultRules sg) = defaultRuleSet (SecurityGroup.Name sg)
  /\ Forall (fun req =>
               AuthorizeSecurityGroupIngress.SecurityGroupID req = SecurityGroup.ID sg)
       (defaultRules sg).
Proof. split; [reflexivity|]. unfold defaultRules. by repeat constructor. Qed.

Lemma run_createDefaultSecurityGroup group w :
  exists r tr w1,
    run handle (createDefaultSecurityGroup group) w = (Some r, tr, w1)
    /\ ((exists e, r = inl e /\ tr = [Ev (createGroup group) (inl e)])
        \/ (exists sg before req rest e,
              r = inl e
              /\ defaultRules sg = (before ++ req :: rest)%list
              /\ tr = (Ev (createGroup group) (inr sg)
                         :: map accepted before ++ [refused req e])%list)
        \/ (exists sg,
              r = inr sg
              /\ tr = Ev (createGroup group) (inr sg)
                        :: map accepted (defaultRules sg))).
Proof.
  unfold createDefaultSecurityGroup, call. rewrite run_bind. cbn [run].
  fold (createGroup group).
  destruct (handle _ (createGroup group) w) as [[e|sg] w1].
  - eexists _, _, _. split; [reflexivity|]. left. by exists e.
  - cbn [after]. rewrite run_bind.
    destruct (run_authorizeAll (defaultRules sg) w1)
      as [[w2 Hrun] | (before & req & rest & e & w2 & Hrules & Hrun)];
      rewrite Hrun.
    + eexists _, _, _. split; [reflexivity|]. right; right. exists sg.
      split; [done|]. by rewrite app_nil_r.
    + eexists _, _, _. split; [reflexivity|]. right; left.
      exists sg, before, req, rest, e. repeat split; [done|].
      by rewrite app_nil_r.
Qed.

Lemma Create_securityGroups_resolves_all groups sgs w r tr w1 :
  run handle (Create_securityGroups groups sgs) w = (r, tr, w1) ->
  resolves_all groups sgs tr r.
Proof.
  revert sgs w r tr w1.
  induction groups as [|group groups IH]; intros sgs w r tr w1.
  { intros [= <- <- <-]. constructor. }
  cbn [Create_securityGroups].
  destruct (String.eqb_spec group "") as [->|Hgroup].
  { intros Hrun. constructor. by eapply IH. }
  unfold call. rewrite run_bind. cbn [run]. fold (lookupGroup group).
  destruct (handle _ (lookupGroup group) w) as [[e|sg] w2]; cbn [after].
  - destruct (is_ErrorResponse e) eqn:He; cbn [negb].
    + rewrite run_bind.
      destruct (run_createDefaultSecurityGroup group w2)
        as (r' & tr' & w3 & Hrun
            & [(e' & -> & ->)
              | [(sg & before & req & rest & e' & -> & Hrules & ->)
                | (sg & -> & ->)]]);
        rewrite Hrun.
      * intros [= <- <- <-]. apply resolves_all_aborted; [done|].
        by apply resolves_create_failed.
      * intros [= <- <- <-]. apply resolves_all_aborted; [done|].
        rewrite ?app_nil_r. by eapply resolves_rule_refused.
      * destruct (SecurityGroup.ID sg) as [id|] eqn:Hid.
        -- destruct (run handle (Create_securityGroups groups (sgs ++ [id])) w3)
             as [[r2 tr2] w4] eqn:Hrest.
           intros [= <- <- <-].
           change (resolves_all (group :: groups) sgs
                     ((Ev (lookupGroup group) (inl e)
                         :: Ev (createGroup group) (inr sg)
                         :: map accepted (defaultRules sg)) ++ tr2)%list r2).
           eapply resolves_all_next; [done| |by eapply IH].
           by apply resolves_created.
        -- intros [= <- <- <-]. apply resolves_all_panicked; [done|].
           rewrite ?app_nil_r. by apply resolves_created_nil.
    + intros [= <- <- <-]. apply resolves_all_aborted; [done|].
      by apply resolves_lookup_failed.
  - destruct (SecurityGroup.ID sg) as [id|] eqn:Hid.
    + destruct (run handle (Create_securityGroups groups (sgs ++ [id])) w2)
        as [[r2 tr2] w3] eqn:Hrest.
      intros [= <- <- <-].
      change (resolves_all (group :: groups) sgs
                ([Ev (lookupGroup group) (inr sg)] ++ tr2)%list r2).
      eapply resolves_all_next; [done| |by eapply IH].
      by apply resolves_found.
    + intros [= <- <- <-]. apply resolves_all_panicked; [done|].
      by apply resolves_found_nil.
Qed.

Lemma collect_app {A : Type} (f : Event -> option A) tr1 tr2 :
  collect f (tr1 ++ tr2) = (collect f tr1 ++ collect f tr2)%list.
Proof.
  induction tr1 as [|ev tr1 IH]; [done|]. cbn [app collect].
  destruct (f ev); [|done]. by rewrite IH.
Qed.

Lemma collect_accepted {A : Type} (f : Event -> option A) requests :
  (forall req, f (accepted req) = None) -> collect f (map accepted requests) = [].
Proof.
  intros Hf. induction requests as [|req requests IH]; [done|].
  cbn [map collect]. by rewrite Hf.
Qed.

Lemma resolves_lookups group tr res :
  resolves group tr res -> collect lookup_name tr = [group].
Proof.
  destruct 1; try done;
    cbn [collect lookup_name lookupGroup createGroup SecurityGroup.Name];
    rewrite ?collect_app, ?collect_accepted; done.
Qed.

Lemma resolves_resolved_id group tr id :
  resolves group tr (Resolved id) -> collect resolved_id tr = [id].
Proof.
  inversion 1 as [sg id' Hid| | | | |e sg id' He Hid|]; subst.
  - cbn. by rewrite Hid.
  - cbn [collect resolved_id lookupGroup createGroup]. rewrite Hid.
    by rewrite collect_accepted.
Qed.

Lemma resolves_all_nonempty groups sgs tr r :
  resolves_all groups sgs tr r ->
  resolves_all (List.filter nonempty groups) sgs tr r.
Proof.
  induction 1 as [sgs|groups sgs tr r _ IH|group groups sgs tr1 id tr r Hg Hres _ IH
                 |group groups sgs tr1 err Hg Hres|group groups sgs tr1 Hg Hres];
    cbn [List.filter].
  - constructor.
  - done.
  - unfold nonempty at 1. destruct (String.eqb_spec group ""); [done|].
    by eapply resolves_all_next.
  - unfold nonempty at 1. destruct (String.eqb_spec group ""); [done|].
    by eapply resolves_all_aborted.
  - unfold nonempty at 1. destruct (String.eqb_spec group ""); [done|].
    by eapply resolves_all_panicked.
Qed.

Lemma resolves_all_lookups groups sgs tr r :
  resolves_all groups sgs tr r ->
  collect lookup_name tr `prefix_of` List.filter nonempty groups.
Proof.
  induction 1 as [sgs|groups sgs tr r _ IH|group groups sgs tr1 id tr r Hg Hres _ IH
                 |group groups sgs tr1 err Hg Hres|group groups sgs tr1 Hg Hres];
    cbn [List.filter]; try done;
    unfold nonempty at 1; destruct (String.eqb_spec group ""); try done;
    cbn [negb].
  - rewrite collect_app, (resolves_lookups _ _ _ Hres). by apply prefix_cons.
  - rewrite (resolves_lookups _ _ _ Hres). apply prefix_cons, prefix_nil.
  - rewrite (resolves_lookups _ _ _ Hres). apply prefix_cons, prefix_nil.
Qed.

Lemma resolves_all_ids groups sgs tr sgs' :
  resolves_all groups sgs tr (Some (Continue sgs')) ->
  collect lookup_name tr = List.filter nonempty groups
  /\ sgs' = (sgs ++ collect resolved_id tr)%list.
Proof.
  remember (Some (Continue sgs')) as r eqn:Hr.
  induction 1 as [sgs|groups sgs tr r _ IH|group groups sgs tr1 id tr r Hg Hres _ IH
                 |group groups sgs tr1 err Hg Hres|group groups sgs tr1 Hg Hres];
    cbn [List.filter]; try done.
  - injection Hr as ->. by rewrite app_nil_r.
  - by apply IH.
  - unfold nonempty at 1. destruct (String.eqb_spec group ""); [done|]. cbn [negb].
    destruct (IH Hr) as [Hnames ->].
    rewrite !collect_app, (resolves_lookups _ _ _ Hres),
      (resolves_resolved_id _ _ _ Hres), Hnames.
    split; [done|]. by rewrite <- app_assoc.
Qed.

(** C4: when [Create] comes to the security groups, the configured names
    are resolved from left to right and the empty ones are passed over
    without a request or an error: the requests are those of resolving the
    non-empty names in order, and the ids come out in that order.  A name
    whose lookup fails in the not-found class is created and given the
    eight default rules, one request per rule, in order; the first refusal
    ends the rules and makes [Create] return that error. *)
Theorem Create_securityGroups_in_order
    d0 w d err cloudInit zone template profile tr0 w1 r tr w2 :
  reaches handle (Create d0)
    (Create_from_securityGroups d err cloudInit zone template profile) w tr0 w1 ->
  run handle (Create_securityGroups (SecurityGroups d) []) w1 = (r, tr, w2) ->
  let names := List.filter nonempty (SecurityGroups d) in
  resolves_all names [] tr r
  /\ collect lookup_name tr `prefix_of` names
  /\ (forall sgs, r = Some (Continue sgs) ->
        collect lookup_name tr = names
        /\ sgs = collect resolved_id tr
        /\ reaches handle (Create d0)
             (Create_from_affinityGroups d err cloudInit zone template profile sgs)
             w (tr0 ++ tr)%list w2)
  /\ (forall e, r = Some (Return e) ->
        run handle (Create d0) w = (Some (d, e), (tr0 ++ tr)%list, w2))
  /\ (forall sg,
        map summary (defaultRules sg) = defaultRuleSet (SecurityGroup.Name sg)
        /\ length (defaultRules sg) = 8
        /\ Forall (fun req => AuthorizeSecurityGroupIngress.SecurityGroupID req
                              = SecurityGroup.ID sg) (defaultRules sg)).
Proof.
  intros Hreach Hrun names.
  pose proof (Create_securityGroups_resolves_all _ _ _ _ _ _ Hrun) as Hall.
  split; [by apply resolves_all_nonempty|].
  split; [by eapply resolves_all_lookups|].
  split; [|split].
  - intros sgs ->. destruct (resolves_all_ids _ _ _ _ Hall) as [Hnames Hsgs].
    repeat split; [done|done|].
    eapply reaches_trans; [exact Hreach|].
    unfold Create_from_securityGroups. by apply reaches_orReturn.
  - intros e ->. eapply reaches_run; [exact Hreach|].
    unfold Create_from_securityGroups. by apply run_orReturn_Return.
  - intros sg. destruct (defaultRules_summary sg) as [Hsummary Hids].
    by repeat split.
Qed.

End SecurityGroups.

(** ** Affinity groups *)
Section AffinityGroups.
Context `{GoRuntime} {W : Type} (handle : forall X, Call X -> W -> X * W).

(** A lookup of the first name that fails outside the not-found class
    makes the block return the variable [err], not the error of the
    lookup. *)
Lemma run_Create_affinityGroups_lookup_error err group groups ags w e w1 :
  group <> "" ->
  handle _ (lookupAffinityGroup group) w = (inl e, w1) ->
  is_ErrorResponse e = false ->
  run handle (Create_affinityGroups err (group :: groups) ags) w
  = (Some (Return err), [Ev (lookupAffinityGroup group) (inl e)], w1).
Proof.
  intros Hgroup Hlookup He. cbn [Create_affinityGroups].
  destruct (String.eqb_spec group ""); [done|].
  unfold call. rewrite run_bind. cbn [run]. fold (lookupAffinityGroup group).
  by rewrite Hlookup, He.
Qed.

(** So [Create], which comes to the affinity groups with [err] nil, returns
    nil there. *)
Lemma Create_affinity_lookup_error_returns_nil
    d0 w d cloudInit zone template tr0 w1 p w2 r tr w3 group groups e w4 :
  reaches handle (Create d0) (Create_from_profile d cloudInit zone template) w tr0 w1 ->
  handle _ (profileQuery d) w1 = (inr [p], w2) ->
  run handle (Create_securityGroups (SecurityGroups d) []) w2 = (Some (Continue r), tr, w3) ->
  AffinityGroups d = group :: groups ->
  group <> "" ->
  handle _ (lookupAffinityGroup group) w3 = (inl e, w4) ->
  is_ErrorResponse e = false ->
  run handle (Create d0) w
  = (Some (d, None),
     (tr0 ++ [Ev (profileQuery d) (inr [p])] ++ tr
        ++ [Ev (lookupAffinityGroup group) (inl e)])%list, w4).
Proof.
  intros Hreach Hprofile Hsgs Hags Hgroup Hlookup He.
  eapply reaches_run; [exact Hreach|].
  unfold Create_from_profile, orReturn. rewrite run_bind.
  rewrite (run_Create_profile handle d w1 [p] w2 Hprofile). cbn [after].
  unfold Create_from_securityGroups, orReturn. rewrite run_bind, Hsgs. cbn [after].
  unfold Create_from_affinityGroups, orReturn. rewrite run_bind, Hags.
  rewrite (run_Create_affinityGroups_lookup_error _ _ _ _ _ _ _ Hgroup Hlookup He).
  cbn [after run mret Prog_ret]. by rewrite !app_nil_r.
Qed.

End AffinityGroups.

(** ** The SSH key *)
Section SSHKey.
Context `{GoRuntime} {W : Type} (handle : forall X, Call X -> W -> X * W).

Lemma KeyPair_Create_record d vm : KeyPair (Create_record d vm) = KeyPair d.
Proof.
  unfold Create_record.
  by destruct (VirtualMachine.IP vm), (VirtualMachine.PasswordEnabled vm).
Qed.

(** [Create_destroyKey] with a key pair to destroy. *)
Lemma run_Create_destroyKey d w x w1 :
  KeyPair d <> "" ->
  handle _ (WaitForSSH d) w = (x, w1) ->
  run handle (Create_destroyKey d) w
  = after [Ev (WaitForSSH d) x]
      (match x with
       | Some e => (Some (d, Some e), [], w1)
       | None =>
           let '(y, w2) := handle _ (keyPairDeletionOf (KeyPair d)) w1 in
           (Some (match y with
                  | Some e => (d, Some e)
                  | None => (set_KeyPair d "", None)
                  end),
            [Ev (keyPairDeletionOf (KeyPair d)) y], w2)
       end).
Proof.
  intros Hkey Hwait. unfold Create_destroyKey, call.
  destruct (String.eqb_spec (KeyPair d) ""); [done|]. cbn [negb].
  rewrite run_bind. cbn [run]. rewrite Hwait. cbn [after app].
  destruct x as [e|]; [done|].
  rewrite run_bind. cbn [run]. unfold keyPairDeletionOf.
  destruct (handle _ _ w1) as [[e|] w2]; done.
Qed.

Lemma run_Create_destroyKey_none d w :
  KeyPair d = "" -> run handle (Create_destroyKey d) w = (Some (d, None), [], w).
Proof. intros Hkey. unfold Create_destroyKey. by rewrite Hkey. Qed.

(** Every way [Create_destroyKey] ends. *)
Lemma Create_destroyKey_result d w d' err tr w1 :
  run handle (Create_destroyKey d) w = (Some (d', err), tr, w1) ->
  (err = None -> KeyPair d' = "")
  /\ (KeyPair d' = KeyPair d \/ KeyPair d' = "")
  /\ (KeyPair d = "" -> tr = [])
  /\ Forall (fun ev => ~ generates_key ev) tr.
Proof.
  destruct (String.eqb_spec (KeyPair d) "") as [Hkey|Hkey].
  - rewrite run_Create_destroyKey_none by done. intros [= <- <- <- <-].
    repeat split; auto.
  - destruct (handle _ (WaitForSSH d) w) as [x w2] eqn:Hwait.
    rewrite (run_Create_destroyKey d w x w2 Hkey Hwait).
    destruct x as [e|].
    + intros [= <- <- <- <-]. repeat split; auto; try done;
        try (by repeat (constructor; [tauto|])).
    + destruct (handle _ (keyPairDeletionOf (KeyPair d)) w2) as [[e|] w3];
        intros [= <- <- <- <-]; repeat split; auto; try done;
        try (by repeat (constructor; [tauto|])).
Qed.

Lemma run_Create_deploy d cloudInit zone template profile sgs ags w x w1 :
  handle _ (deployment d cloudInit zone template profile sgs ags) w = (x, w1) ->
  run handle (Create_deploy d cloudInit zone template profile sgs ags) w
  = after [Ev (deployment d cloudInit zone template profile sgs ags) x]
      (match x with
       | inl e => (Some (set_UserData d cloudInit, Some e), [], w1)
       | inr vm =>
           run handle (Create_destroyKey (Create_record (set_UserData d cloudInit) vm)) w1
       end).
Proof.
  intros Hdeploy. unfold Create_deploy, call. rewrite run_bind. cbn [run].
  unfold deployment in Hdeploy. rewrite Hdeploy. by destruct x.
Qed.

(** Every way [Create_deploy] ends. *)
Lemma Create_deploy_result d cloudInit zone template profile sgs ags w d' err tr w1 :
  run handle (Create_deploy d cloudInit zone template profile sgs ags) w
  = (Some (d', err), tr, w1) ->
  (err = None -> KeyPair d' = "")
  /\ (KeyPair d' = KeyPair d \/ KeyPair d' = "")
  /\ (KeyPair d = "" -> Forall (fun ev => ~ post_create_step ev) tr)
  /\ Forall (fun ev => ~ generates_key ev) tr.
Proof.
  destruct (handle _ (deployment d cloudInit zone template profile sgs ags) w)
    as [x w2] eqn:Hdeploy.
  rewrite (run_Create_deploy _ _ _ _ _ _ _ _ _ _ Hdeploy).
  destruct x as [e|vm].
  - intros [= <- <- <- <-]. repeat split; auto; try done;
      try (by repeat (constructor; [tauto|])).
  - destruct (run handle (Create_destroyKey _) w2) as [[[[d2 err2]|] tr2] w3] eqn:Hdestroy;
      [|done].
    intros [= <- <- <- <-].
    destruct (Create_destroyKey_result _ _ _ _ _ _ Hdestroy)
      as (Hnil & Hkey & Hnone & Hgen).
    rewrite KeyPair_Create_record in Hkey, Hnone. cbn [KeyPair set_UserData] in Hkey, Hnone.
    split; [done|]. split; [done|]. split.
    + intros Hempty. rewrite (Hnone Hempty). by repeat (constructor; [tauto|]).
    + constructor; [tauto|done].
Qed.

Lemma calls_only_bind {A B : Type} P (p : Prog A) (f : A -> Prog B) :
  calls_only P p -> (forall a, calls_only P (f a)) -> calls_only P (p ≫= f).
Proof.
  intros Hp Hf. induction p as [a| |X c k IH]; [apply Hf|done|].
  change (Vis c k ≫= f) with (Vis c (fun x => k x ≫= f)).
  intros x. destruct (Hp x) as [Hc Hk]. split; [done|]. by apply IH.
Qed.

Lemma calls_only_run {A : Type} P (p : Prog A) w r tr w1 :
  calls_only P p -> run handle p w = (r, tr, w1) -> Forall P tr.
Proof.
  revert w r tr w1. induction p as [a| |X c k IH]; intros w r tr w1 Hp.
  - intros [= <- <- <-]. constructor.
  - intros [= <- <- <-]. constructor.
  - cbn [run]. destruct (handle X c w) as [x w2].
    destruct (run handle (k x) w2) as [[r2 tr2] w3] eqn:Hk.
    intros [= <- <- <-]. destruct (Hp x) as [Hc Hkx].
    constructor; [done|]. by eapply IH.
Qed.

(** Importing a key asks for no key pair, no wait and no deletion. *)
Lemma Create_importKey_calls d cloudInit :
  calls_only (fun ev => ~ post_create_step ev /\ ~ generates_key ev)
    (Create_importKey d cloudInit).
Proof.
  assert (Hat : forall sshKey,
             calls_only (fun ev => ~ post_create_step ev /\ ~ generates_key ev)
               (Create_importKeyAt d cloudInit sshKey)).
  { intros sshKey [pubKey [e|]]; (split; [cbn; tauto|]); [done|].
    intros [e|]; (split; [cbn; tauto|]); [done|].
    intros [e|]; (split; [cbn; tauto|]); done. }
  unfold Create_importKey. destruct (strings.HasPrefix (SSHKey d) "~/").
  - intros [home|]; (split; [cbn; tauto|]); [apply Hat|done].
  - intros [e|abs]; (split; [cbn; tauto|]); [done|apply Hat].
Qed.

Lemma run_Create_from_sshKey_import d cloudInit zone template profile sgs ags w :
  SSHKey d <> "" ->
  run handle (Create_from_sshKey d cloudInit zone template profile sgs ags) w
  = match run handle (Create_importKey d cloudInit) w with
    | (Some (Continue cloudInit'), tr, w1) =>
        after tr (run handle (Create_deploy d cloudInit' zone template profile sgs ags) w1)
    | (Some (Return err), tr, w1) => (Some (d, err), tr, w1)
    | (None, tr, w1) => (None, tr, w1)
    end.
Proof.
  intros Hkey. unfold Create_from_sshKey, orReturn, Create_sshKey.
  destruct (String.eqb_spec (SSHKey d) ""); [done|].
  rewrite !run_bind.
  destruct (run handle (Create_importKey d cloudInit) w)
    as [[[[cloudInit'|err]|] tr] w1]; cbn [after run mret Prog_ret]; try done.
  - destruct (run handle (Create_deploy _ _ _ _ _ _ _) w1) as [[r2 tr2] w2].
    cbn [after]. by rewrite app_nil_r.
  - by rewrite !app_nil_r.
Qed.


Lemma run_Create_importKeyAt d cloudInit sshKey w pubKey w1 w2 w3 :
  handle _ (ReadFile (sshKey ++ ".pub")) w = ((pubKey, None), w1) ->
  handle _ (CopyFile sshKey (GetSSHKeyPath d)) w1 = (None, w2) ->
  handle _ (Chmod (GetSSHKeyPath d) mode_0600) w2 = (None, w3) ->
  run handle (Create_importKeyAt d cloudInit sshKey) w
  = (Some (Continue (cloudInit ++ sshAuthorizedKeys ++ pubKey)),
     [Ev (ReadFile (sshKey ++ ".pub")) (pubKey, None);
      Ev (CopyFile sshKey (GetSSHKeyPath d)) None;
      Ev (Chmod (GetSSHKeyPath d) mode_0600) None], w3).
Proof.
  intros Hread Hcopy Hchmod. unfold Create_importKeyAt, call.
  rewrite run_bind. cbn [run]. rewrite Hread. cbn [after app].
  rewrite run_bind. cbn [run]. rewrite Hcopy. cbn [after app].
  rewrite run_bind. cbn [run]. by rewrite Hchmod.
Qed.


(** Every way [Create_generateKey] ends leaves a name for the key pair. *)
Lemma Create_generateKey_result d w d1 tr w1 :
  run handle (Create_generateKey d) w = (Some (Continue d1), tr, w1) ->
  d1 = set_KeyPair d (keyPairName d).
Proof.
  unfold Create_generateKey, call. fold (keyPairName d).
  rewrite run_bind. cbn [run].
  destruct (handle _ (RequestCreateSSHKeyPair (keyPairName d)) w) as [[e|keyPair] w2];
    cbn [after app]; [done|].
  rewrite run_bind. cbn [run].
  destruct (handle _ (MkdirAll _ _) w2) as [[e|] w3]; cbn [after app]; [done|].
  rewrite run_bind. cbn [run].
  destruct (handle _ (WriteFile _ _ _) w3) as [[e|] w4]; cbn [after app]; [done|].
  by intros [= <- _ _].
Qed.

(** C7: with an SSH key path configured, a leading [~/] is replaced by the
    home directory of the current user and any other path is made
    absolute; the [.pub] file next to it is read and appended to the
    cloud-init after an [ssh_authorized_keys] list entry; the private key is
    copied to the key path of the host and set to mode 0600; and no
    key-pair name is recorded: no key pair is requested, and a driver that
    had no name has none whenever [Create] returns. *)
Theorem Create_imports_key d0 w d cloudInit zone template profile sgs ags tr0 w1 :
  reaches handle (Create d0)
    (Create_from_sshKey d cloudInit zone template profile sgs ags) w tr0 w1 ->
  SSHKey d <> "" ->
  (strings.HasPrefix (SSHKey d) "~/" = true ->
   forall home w2,
     handle _ UserCurrent w1 = (Some home, w2) ->
     imports_from handle d0 w d cloudInit zone template profile sgs ags
       (filepath_Join home (strings.drop 2 (SSHKey d)))
       (tr0 ++ [Ev UserCurrent (Some home)])%list w2)
  /\ (strings.HasPrefix (SSHKey d) "~/" = false ->
      forall abs w2,
        handle _ (FilepathAbs (SSHKey d)) w1 = (inr abs, w2) ->
        imports_from handle d0 w d cloudInit zone template profile sgs ags abs
          (tr0 ++ [Ev (FilepathAbs (SSHKey d)) (inr abs)])%list w2)
  /\ (forall r tr w2,
        run handle (Create d0) w = (r, tr, w2) ->
        Forall (fun ev => ~ generates_key ev) (drop (length tr0) tr)
        /\ forall d' err, r = Some (d', err) ->
             (KeyPair d' = KeyPair d \/ KeyPair d' = "")
             /\ (KeyPair d = "" -> KeyPair d' = ""))
  /\ (N.land mode_0600 (7 * 8 + 7) = 0 /\ N.shiftr mode_0600 6 = 6)%N.
Proof.
  intros Hreach Hkey.
  assert (Himport : forall sshKey ev w2,
             run handle (Create_importKey d cloudInit) w1
             = after [ev] (run handle (Create_importKeyAt d cloudInit sshKey) w2) ->
             imports_from handle d0 w d cloudInit zone template profile sgs ags sshKey
               (tr0 ++ [ev])%list w2).
  { intros sshKey ev w2 Hpath pubKey w3 w4 w5 Hread Hcopy Hchmod cloudInit' req.
    split; [|done].
    rewrite <- app_assoc. eapply reaches_trans; [exact Hreach|].
    unfold reaches. rewrite run_Create_from_sshKey_import by done.
    rewrite Hpath, (run_Create_importKeyAt _ _ _ _ _ _ _ _ Hread Hcopy Hchmod).
    done. }
  split; [|split; [|split]].
  - intros Hprefix home w2 Hhome. apply Himport.
    unfold Create_importKey, call. rewrite Hprefix, run_bind. cbn [run].
    rewrite Hhome. cbn [after app].
    by destruct (run handle (Create_importKeyAt _ _ _) w2) as [[r tr] w3].
  - intros Hprefix abs w2 Habs. apply Himport.
    unfold Create_importKey, call. rewrite Hprefix, run_bind. cbn [run].
    rewrite Habs. cbn [after app].
    by destruct (run handle (Create_importKeyAt _ _ _) w2) as [[r tr] w3].
  - intros r tr w2. unfold reaches in Hreach. rewrite Hreach.
    rewrite run_Create_from_sshKey_import by done.
    destruct (run handle (Create_importKey d cloudInit) w1)
      as [[r1 tr1] w3] eqn:Hrun1.
    pose proof (calls_only_run _ _ _ _ _ _ (Create_importKey_calls d cloudInit) Hrun1)
      as Hcalls.
    assert (Hgen1 : Forall (fun ev => ~ generates_key ev) tr1).
    { eapply Forall_impl; [exact Hcalls|]. by intros ev [_ Hev]. }
    destruct r1 as [[cloudInit'|err1]|].
    + destruct (run handle (Create_deploy d cloudInit' zone template profile sgs ags) w3)
        as [[r2 tr2] w4] eqn:Hrun2.
      cbn [after]. intros [= <- <- <-]. rewrite drop_app_length. split.
      * apply Forall_app. split; [done|].
        destruct r2 as [[d2 err2]|].
        -- by destruct (Create_deploy_result _ _ _ _ _ _ _ _ _ _ _ _ Hrun2)
             as (_ & _ & _ & Hgen2).
        -- clear -Hrun2. revert Hrun2. unfold Create_deploy, Create_destroyKey, call.
           rewrite run_bind. cbn [run].
           destruct (handle _ _ w3) as [[e|vm] w5]; cbn [after app]; [done|].
           destruct (negb _); [|done].
           rewrite run_bind. cbn [run].
           destruct (handle _ _ w5) as [[e|] w6]; cbn [after app]; [done|].
           rewrite run_bind. cbn [run].
           by destruct (handle _ _ w6) as [[e|] w7].
      * intros d' err ->.
        destruct (Create_deploy_result _ _ _ _ _ _ _ _ _ _ _ _ Hrun2)
          as (_ & Hkeep & _ & _).
        split; [done|]. intros Hnone. rewrite Hnone in Hkeep. by destruct Hkeep.
    + intros [= <- <- <-]. rewrite drop_app_length. split; [done|].
      intros d' err [= <- <-]. split; [by left|done].
    + intros [= <- <- <-]. rewrite drop_app_length. by split.
  - by vm_compute.
Qed.




End SSHKey.

(** ** Examples: the theorems at concrete hosts and providers *)

Section Examples.
Existing Instance exampleRuntime.

(** C6 at a running machine. *)
Lemma GetState_fixed_table_witness :
  scripted happy _ (GetVirtualMachine (VirtualMachine_with_ID (ID host))) tt
  = (inr runningMachine, tt)
  /\ result (scripted happy) (GetState host) tt = Some (state.Running, None).
Proof.
  split; [reflexivity|].
  destruct (GetState_fixed_table (scripted happy) host tt runningMachine tt eq_refl)
    as (st & Hrun & _ & Hrunning & _).
  unfold result. rewrite Hrun. simpl.
  rewrite Hrunning; [reflexivity|]. left; reflexivity.
Defined.

(** C10 at an image with one keyword. *)
Lemma GetSSHUsername_first_match_witness :
  SSHUser centosHost = "" /\ GetSSHUsername centosHost = "centos".
Proof.
  split; [reflexivity|].
  destruct (GetSSHUsername_first_match centosHost) as [_ Hempty].
  destruct (Hempty eq_refl) as [Hfirst _].
  apply (Hfirst [("ubuntu", "ubuntu")] "centos" "centos"
           [("redhat", "cloud-user"); ("fedora", "fedora"); ("coreos", "core");
            ("debian", "debian")]).
  - reflexivity.
  - repeat constructor.
  - reflexivity.
Defined.

(** C10 as stated fails: the image name contains "centos" and the user is
    "ubuntu", the keyword looked for first. *)
Lemma GetSSHUsername_two_keywords_counterexample :
  SSHUser centosOnUbuntu = ""
  /\ strings.Contains (ToLower (Image centosOnUbuntu)) "centos" = true
  /\ GetSSHUsername centosOnUbuntu = "ubuntu"
  /\ GetSSHUsername centosOnUbuntu <> "centos".
Proof. repeat split; try reflexivity. discriminate. Qed.

(** C9 at a running host with an IPv4 address. *)
Lemma GetURL_running_only_witness :
  run (scripted happy) (MustBeRunning host4) tt
  = (Some None, [Ev (GetVirtualMachine (VirtualMachine_with_ID (ID host4)))
                    (inr runningMachine)], tt)
  /\ result (scripted happy) (GetURL host4) tt = Some ("tcp://203.0.113.7:2376", None).
Proof.
  assert (Hrun : run (scripted happy) (MustBeRunning host4) tt
                 = (Some None,
                    [Ev (GetVirtualMachine (VirtualMachine_with_ID (ID host4)))
                        (inr runningMachine)], tt)) by reflexivity.
  split; [exact Hrun|].
  destruct (GetURL_running_only (scripted happy) host4 tt None _ tt Hrun)
    as (_ & _ & Hv4 & _).
  unfold result. rewrite (Hv4 eq_refl "203.0.113.7" eq_refl eq_refl). reflexivity.
Defined.

(** C9 as stated fails: for a running host with the address 2001:db8::1
    the URL is not [tcp://2001:db8::1:2376]. *)
Lemma GetURL_IPv6_counterexample :
  result (scripted happy) (MustBeRunning host6) tt = Some None
  /\ GetIP host6 = inr "2001:db8::1"
  /\ result (scripted happy) (GetURL host6) tt
     = Some ("tcp://[2001:db8::1]:2376", None)
  /\ result (scripted happy) (GetURL host6) tt
     <> Some ("tcp://" ++ "2001:db8::1" ++ ":2376", None).
Proof. repeat split; try reflexivity. discriminate. Qed.

(** C5 at a host with a key pair and a machine, when the key pair cannot
    be deleted: the machine is not touched. *)
Lemma Remove_key_pair_then_machine_witness :
  KeyPair deployedHost <> ""
  /\ is_Some (ID deployedHost)
  /\ scriptedWith noDeletion happy _ (keyPairDeletion deployedHost) tt
     = (Some deletionError, tt)
  /\ run (scriptedWith noDeletion happy) (Remove deployedHost) tt
     = (Some (Some deletionError),
        [Ev (keyPairDeletion deployedHost) (Some deletionError)], tt).
Proof.
  split; [discriminate|]. split; [by eexists|]. split; [reflexivity|].
  destruct (Remove_key_pair_then_machine (scriptedWith noDeletion happy) deployedHost tt)
    as (Hfails & _).
  apply Hfails; [discriminate|reflexivity].
Defined.

(** C3 at a provider that lists two zones. *)
Lemma Create_lookup_exactly_one_witness :
  reaches (scriptedWith twoZones happy) (Create host)
    (Create_from_zone host defaultCloudInit) tt [] tt
  /\ scriptedWith twoZones happy _ (zoneQuery host) tt = (inr [zone1; zone2], tt)
  /\ run (scriptedWith twoZones happy) (Create host) tt
     = (Some (host, Some (zoneError host)),
        [Ev (zoneQuery host) (inr [zone1; zone2])], tt).
Proof.
  assert (Hreach : reaches (scriptedWith twoZones happy) (Create host)
                     (Create_from_zone host defaultCloudInit) tt [] tt)
    by (vm_compute; reflexivity).
  split; [exact Hreach|]. split; [reflexivity|].
  destruct (Create_lookup_exactly_one (scriptedWith twoZones happy) host tt)
    as (Hzone & _).
  destruct (Hzone host defaultCloudInit [] tt [zone1; zone2] tt Hreach eq_refl)
    as (Hmany & _).
  apply Hmany. discriminate.
Defined.

(** C3 as stated fails: with two zones [Create] returns the very error it
    returns with none, so no reading of the errors makes the first
    "ambiguous" and the second "not found". *)
Lemma Create_lookup_ambiguous_counterexample :
  result (scriptedWith twoZones happy) (Create host) tt
  = Some (host, Some (errorString "Availability zone CH-DK-2 doesn't exist"))
  /\ result (scriptedWith noZone happy) (Create host) tt
     = Some (host, Some (errorString "Availability zone CH-DK-2 doesn't exist"))
  /\ ~ (exists kind : error -> LookupFailure,
          (forall d e,
              result (scriptedWith twoZones happy) (Create host) tt = Some (d, Some e) ->
              kind e = Ambiguous)
          /\ (forall d e,
              result (scriptedWith noZone happy) (Create host) tt = Some (d, Some e) ->
              kind e = NotFound)).
Proof.
  split; [reflexivity|]. split; [reflexivity|].
  intros (kind & Htwo & Hnone).
  pose proof (Htwo host _ eq_refl) as Hambiguous.
  pose proof (Hnone host _ eq_refl) as Hnotfound.
  congruence.
Qed.

(** C1 at the default image and a provider that lists it. *)
Lemma Create_image_first_match_witness :
  reaches (scripted happy) (Create host)
    (Create_from_image host defaultCloudInit (Some "zone-1")) tt [zoneListed] tt
  /\ scripted happy _ (templateQuery (Some "zone-1")) tt = (inr [ubuntuTemplate], tt)
  /\ reaches (scripted happy) (Create host)
       (Create_from_profile hostUbuntu defaultCloudInit (Some "zone-1") ubuntuTemplate)
       tt [zoneListed; templatesListed] tt.
Proof.
  assert (Hreach : reaches (scripted happy) (Create host)
                     (Create_from_image host defaultCloudInit (Some "zone-1"))
                     tt [zoneListed] tt)
    by (vm_compute; reflexivity).
  split; [exact Hreach|]. split; [reflexivity|].
  destruct (Create_image_first_match (scripted happy) host tt host defaultCloudInit
              (Some "zone-1") [zoneListed] tt [ubuntuTemplate] tt Hreach eq_refl)
    as (_ & _ & _ & _ & _ & Hfound).
  apply (Hfound ubuntuTemplate); [reflexivity|by eexists].
Defined.

(** C1 as stated fails: the only template listed is one byte larger than
    10 GiB, so none has exactly 10 GiB, yet it is the one selected and
    [Create] succeeds with it. *)
Lemma Create_image_size_counterexample :
  List.filter exactly_10GiB [oversizedTemplate] = []
  /\ selectTemplate (ToLower (Image host)) [oversizedTemplate]
       (featuredTemplate (Some "zone-1")) = oversizedTemplate
  /\ option_map snd (result (scriptedWith oversizedListing happy) (Create host) tt)
     = Some None
  /\ result (scriptedWith oversizedListing happy) (Create host) tt
     <> Some (host, Some (imageError host)).
Proof. repeat split; try reflexivity. discriminate. Qed.

(** C2 fails on the code: the lookup of the affinity group "spread" fails
    in transport, outside the not-found class, and [Create] returns nil,
    not that error, after the lookup and without deploying anything. *)
Theorem Create_affinity_lookup_error_dropped :
  is_ErrorResponse transportError = false
  /\ run (scriptedWith brokenAffinityLookup happy) (Create spreadHost) tt
     = (Some (set_SSHUser spreadHost "ubuntu", None),
        [Ev (zoneQuery spreadHost) (inr [zone1]);
         templatesListed;
         Ev (profileQuery spreadHost) (inr [small]);
         foundGroup;
         Ev (lookupAffinityGroup "spread") (inl transportError)], tt).
Proof. split; reflexivity. Qed.

(** C4 at a provider without the group [docker-machine]: it is created
    with the eight rules, and its id is the one [Create] goes on with. *)
Lemma Create_securityGroups_in_order_witness :
  reaches (scriptedWith noGroups happy) (Create host)
    (Create_from_securityGroups hostUbuntu None defaultCloudInit (Some "zone-1")
       ubuntuTemplate (Some "so-small"))
    tt [zoneListed; templatesListed; profilesListed] tt
  /\ run (scriptedWith noGroups happy)
       (Create_securityGroups (SecurityGroups hostUbuntu) []) tt
     = (Some (Continue ["new-sg-docker-machine"]),
        Ev (lookupGroup "docker-machine") (inl (ErrorResponse "not found"))
          :: Ev (createGroup "docker-machine") (inr createdGroup)
          :: map accepted (defaultRules createdGroup), tt)
  /\ reaches (scriptedWith noGroups happy) (Create host)
       (Create_from_affinityGroups hostUbuntu None defaultCloudInit (Some "zone-1")
          ubuntuTemplate (Some "so-small") ["new-sg-docker-machine"])
       tt
       ([zoneListed; templatesListed; profilesListed]
          ++ Ev (lookupGroup "docker-machine") (inl (ErrorResponse "not found"))
          :: Ev (createGroup "docker-machine") (inr createdGroup)
          :: map accepted (defaultRules createdGroup))%list tt.
Proof.
  assert (Hreach : reaches (scriptedWith noGroups happy) (Create host)
                     (Create_from_securityGroups hostUbuntu None defaultCloudInit
                        (Some "zone-1") ubuntuTemplate (Some "so-small"))
                     tt [zoneListed; templatesListed; profilesListed] tt)
    by (vm_compute; reflexivity).
  assert (Hrun : run (scriptedWith noGroups happy)
                   (Create_securityGroups (SecurityGroups hostUbuntu) []) tt
                 = (Some (Continue ["new-sg-docker-machine"]),
                    Ev (lookupGroup "docker-machine") (inl (ErrorResponse "not found"))
                      :: Ev (createGroup "docker-machine") (inr createdGroup)
                      :: map accepted (defaultRules createdGroup), tt))
    by reflexivity.
  split; [exact Hreach|]. split; [exact Hrun|].
  destruct (Create_securityGroups_in_order (scriptedWith noGroups happy) host tt
              hostUbuntu None defaultCloudInit (Some "zone-1") ubuntuTemplate
              (Some "so-small") _ tt _ _ tt Hreach Hrun)
    as (_ & _ & Hcontinue & _).
  destruct (Hcontinue _ eq_refl) as (_ & _ & Hgoes).
  exact Hgoes.
Defined.

(** C7 at a host with the key [~/.ssh/id_rsa]. *)
Lemma Create_imports_key_witness :
  let d := set_SSHUser importingHost "ubuntu" in
  let tr0 := [Ev (zoneQuery importingHost) (inr [zone1]); templatesListed;
              Ev (profileQuery d) (inr [small]); foundGroup] in
  (reaches (scripted happy) (Create importingHost)
     (Create_from_sshKey d defaultCloudInit (Some "zone-1") ubuntuTemplate
        (Some "so-small") ["sg-docker-machine"] []) tt tr0 tt
   /\ SSHKey d <> ""
   /\ strings.HasPrefix (SSHKey d) "~/" = true
   /\ scripted happy _ UserCurrent tt = (Some "/home/user", tt))
  /\ imports_from (scripted happy) importingHost tt d defaultCloudInit (Some "zone-1")
       ubuntuTemplate (Some "so-small") ["sg-docker-machine"] []
       "/home/user/.ssh/id_rsa" (tr0 ++ [Ev UserCurrent (Some "/home/user")])%list tt.
Proof.
  cbv zeta.
  assert (Hreach : reaches (scripted happy) (Create importingHost)
                     (Create_from_sshKey (set_SSHUser importingHost "ubuntu")
                        defaultCloudInit (Some "zone-1") ubuntuTemplate
                        (Some "so-small") ["sg-docker-machine"] []) tt
                     [Ev (zoneQuery importingHost) (inr [zone1]); templatesListed;
                      Ev (profileQuery (set_SSHUser importingHost "ubuntu"))
                         (inr [small]);
                      foundGroup] tt)
    by (vm_compute; reflexivity).
  assert (Hkey : SSHKey (set_SSHUser importingHost "ubuntu") <> "") by discriminate.
  split; [by repeat split|].
  destruct (Create_imports_key (scripted happy) importingHost tt _ _ _ _ _ _ _ _ tt
              Hreach Hkey) as (Hhome & _).
  exact (Hhome eq_refl "/home/user" tt eq_refl).
Defined.


End Examples.

(** ** Programs: what they can request and return *)
Section ProgramFacts.
Context `{GoRuntime} {W : Type} (handle : forall X, Call X -> W -> X * W).

Lemma calls_only_weaken {A : Type} (P P' : Event -> Prop) (p : Prog A) :
  (forall ev, P ev -> P' ev) -> calls_only P p -> calls_only P' p.
Proof.
  intros HP. induction p as [a| |X c k IH]; [done|done|].
  intros Hp x. destruct (Hp x) as [Hc Hk]. split; [by apply HP|by apply IH].
Qed.

Lemma returns_only_bind {A B : Type} (Q : B -> Prop) (p : Prog A) (f : A -> Prog B) :
  returns_only (fun a => returns_only Q (f a)) p -> returns_only Q (p ≫= f).
Proof.
  induction p as [a| |X c k IH]; [done|done|].
  change (Vis c k ≫= f) with (Vis c (fun x => k x ≫= f)).
  intros Hp x. by apply IH.
Qed.

Lemma returns_only_weaken {A : Type} (Q Q' : A -> Prop) (p : Prog A) :
  (forall a, Q a -> Q' a) -> returns_only Q p -> returns_only Q' p.
Proof.
  intros HQ. induction p as [a| |X c k IH]; [apply HQ|done|].
  intros Hp x. by apply IH.
Qed.

Lemma returns_only_run {A : Type} (Q : A -> Prop) (p : Prog A) w a tr w1 :
  returns_only Q p -> run handle p w = (Some a, tr, w1) -> Q a.
Proof.
  revert w tr w1. induction p as [a'| |X c k IH]; intros w tr w1 Hp.
  - by intros [= <- _ _].
  - done.
  - cbn [run]. destruct (handle X c w) as [x w2].
    destruct (run handle (k x) w2) as [[r2 tr2] w3] eqn:Hk.
    intros [= -> _ _]. by eapply IH.
Qed.

Lemma ensures_weaken {A : Type} (S S' : list Event -> A -> Prop) (p : Prog A) :
  (forall tr a, S tr a -> S' tr a) -> ensures S p -> ensures S' p.
Proof.
  revert S S'. induction p as [a| |X c k IH]; intros S S' HS; [apply HS|done|].
  intros Hp x. eapply IH; [|apply Hp]. intros tr a. apply HS.
Qed.

Lemma ensures_bind {A B : Type} (S : list Event -> B -> Prop) (p : Prog A)
    (f : A -> Prog B) :
  ensures (fun tr1 a => ensures (fun tr2 b => S (tr1 ++ tr2)%list b) (f a)) p ->
  ensures S (p ≫= f).
Proof.
  revert S. induction p as [a| |X c k IH]; intros S; [done|done|].
  change (Vis c k ≫= f) with (Vis c (fun x => k x ≫= f)).
  intros Hp x. apply IH. exact (Hp x).
Qed.

Lemma ensures_run {A : Type} (S : list Event -> A -> Prop) (p : Prog A) w a tr w1 :
  ensures S p -> run handle p w = (Some a, tr, w1) -> S tr a.
Proof.
  revert S w tr w1. induction p as [a'| |X c k IH]; intros S w tr w1 Hp.
  - by intros [= <- <- _].
  - done.
  - cbn [run]. destruct (handle X c w) as [x w2].
    destruct (run handle (k x) w2) as [[r2 tr2] w3] eqn:Hk.
    intros [= -> <- _]. by eapply (IH x _ _ _ _ (Hp x)).
Qed.

Lemma ensures_calls_returns {A : Type} (P : Event -> Prop) (Q : A -> Prop) (p : Prog A) :
  calls_only P p -> returns_only Q p -> ensures (fun tr a => Forall P tr /\ Q a) p.
Proof.
  induction p as [a| |X c k IH]; intros Hc Hr; [by split|done|].
  intros x. destruct (Hc x) as [Hx Hk].
  eapply ensures_weaken; [|apply (IH x Hk (Hr x))].
  intros tr a [Htr Ha]. split; [by constructor|done].
Qed.

Lemma ensures_orReturn {A : Type} (S : list Event -> Driver * option error -> Prop)
    d (p : Prog (Flow A)) k :
  ensures (fun tr1 r =>
             match r with
             | Return err => S tr1 (d, err)
             | Continue a => ensures (fun tr2 b => S (tr1 ++ tr2)%list b) (k a)
             end) p ->
  ensures S (orReturn d p k).
Proof.
  intros Hp. unfold orReturn. apply ensures_bind.
  eapply ensures_weaken; [|exact Hp].
  intros tr [a|err]; [done|]. cbn. by rewrite app_nil_r.
Qed.

End ProgramFacts.

(** ** [Create]: the requests of the resolution phase *)
Section Resolution.
Context `{GoRuntime} {W : Type} (handle : forall X, Call X -> W -> X * W).

(** Steps through a straight-line program, one request at a time. *)
Ltac calls :=
  repeat first
    [ exact I
    | progress cbn [mbind Prog_bind bind call mret Prog_ret calls_only]
    | match goal with
      | |- forall x, _ /\ _ => intros ?
      | |- _ /\ calls_only _ _ => split; [cbn; tauto|]
      | |- calls_only _ (match ?x with _ => _ end) => destruct x
      | |- calls_only _ (if ?b then _ else _) => destruct b
      end ].

Lemma getCloudInit_calls d : calls_only resolving (getCloudInit d).
Proof. unfold getCloudInit. calls. Qed.

Lemma Create_zone_calls d : calls_only resolving (Create_zone d).
Proof. unfold Create_zone. calls. Qed.

Lemma Create_image_calls d zone : calls_only resolving (Create_image d zone).
Proof. unfold Create_image. calls. Qed.

Lemma Create_profile_calls d : calls_only resolving (Create_profile d).
Proof. unfold Create_profile. calls. Qed.

Lemma authorizeAll_calls requests : calls_only resolving (authorizeAll requests).
Proof.
  induction requests as [|req requests IH]; [done|].
  cbn [authorizeAll]. calls. exact IH.
Qed.

Lemma createDefaultSecurityGroup_calls group :
  calls_only resolving (createDefaultSecurityGroup group).
Proof.
  unfold createDefaultSecurityGroup. calls.
  apply calls_only_bind; [apply authorizeAll_calls|]. intros err. calls.
Qed.

Lemma Create_securityGroups_calls groups sgs :
  calls_only resolving (Create_securityGroups groups sgs).
Proof.
  revert sgs. induction groups as [|group groups IH]; intros sgs; [done|].
  cbn [Create_securityGroups]. destruct (String.eqb group ""); [apply IH|].
  calls; try apply IH.
  apply calls_only_bind; [apply createDefaultSecurityGroup_calls|].
  intros r. calls; apply IH.
Qed.

Lemma Create_affinityGroups_calls err groups ags :
  calls_only resolving (Create_affinityGroups err groups ags).
Proof.
  revert ags. induction groups as [|group groups IH]; intros ags; [done|].
  cbn [Create_affinityGroups]. destruct (String.eqb group ""); [apply IH|].
  unfold createDefaultAffinityGroup. calls; apply IH.
Qed.

Lemma Create_generateKey_calls d : calls_only resolving (Create_generateKey d).
Proof. unfold Create_generateKey. calls. Qed.

Lemma Create_importKey_resolving d cloudInit :
  calls_only resolving (Create_importKey d cloudInit).
Proof. unfold Create_importKey, Create_importKeyAt. calls. Qed.

Lemma Create_sshKey_calls d cloudInit : calls_only resolving (Create_sshKey d cloudInit).
Proof.
  unfold Create_sshKey. destruct (String.eqb (SSHKey d) "").
  - apply calls_only_bind; [apply Create_generateKey_calls|]. intros r. calls.
  - apply calls_only_bind; [apply Create_importKey_resolving|]. intros r. calls.
Qed.

End Resolution.

(** ** [Create]: when it returns nil *)
Section Success.
Context `{GoRuntime} {W : Type} (handle : forall X, Call X -> W -> X * W).

(** Steps through what a straight-line program can return. *)
Ltac returns :=
  repeat first
    [ exact I
    | progress cbn [mbind Prog_bind bind call mret Prog_ret returns_only
                    aborts_with_error]
    | match goal with
      | |- is_Some (Some _) => eexists; reflexivity
      | |- returns_only _ (match ?x with _ => _ end) => destruct x
      | |- returns_only _ (if ?b then _ else _) => destruct b
      | |- forall x, _ => intros ?
      end ].

Lemma returns_only_True {A : Type} (p : Prog A) : returns_only (fun _ => True) p.
Proof. induction p as [a| |X c k IH]; [done|done|]. intros x. apply IH. Qed.

Lemma Create_zone_returns d : returns_only aborts_with_error (Create_zone d).
Proof. unfold Create_zone. returns. Qed.

Lemma Create_image_returns d zone : returns_only aborts_with_error (Create_image d zone).
Proof. unfold Create_image. returns. Qed.

Lemma Create_profile_returns d : returns_only aborts_with_error (Create_profile d).
Proof. unfold Create_profile. returns. Qed.

Lemma Create_securityGroups_returns groups sgs :
  returns_only aborts_with_error (Create_securityGroups groups sgs).
Proof.
  revert sgs. induction groups as [|group groups IH]; intros sgs; [done|].
  cbn [Create_securityGroups]. destruct (String.eqb group ""); [apply IH|].
  returns; try apply IH.
  apply returns_only_bind.
  eapply returns_only_weaken; [|apply returns_only_True].
  intros r _. returns; apply IH.
Qed.

Lemma Create_generateKey_returns d :
  returns_only (fun r => match r with
                         | Continue d1 =>
                             MachineName d1 = MachineName d /\ config d1 = config d
                         | Return err => is_Some err
                         end)
    (Create_generateKey d).
Proof. unfold Create_generateKey. returns. by split. Qed.

Lemma Create_importKey_returns d cloudInit :
  returns_only aborts_with_error (Create_importKey d cloudInit).
Proof. unfold Create_importKey, Create_importKeyAt. returns. Qed.

Lemma Create_sshKey_returns d cloudInit :
  returns_only (fun r => match r with
                         | Continue (d1, _) =>
                             MachineName d1 = MachineName d /\ config d1 = config d
                         | Return err => is_Some err
                         end)
    (Create_sshKey d cloudInit).
Proof.
  unfold Create_sshKey. destruct (String.eqb (SSHKey d) "").
  - apply returns_only_bind.
    eapply returns_only_weaken; [|apply Create_generateKey_returns].
    by intros [d1|err] Hr.
  - apply returns_only_bind.
    eapply returns_only_weaken; [|apply Create_importKey_returns].
    by intros [ci|err] Hr.
Qed.

Lemma lookup_error_dropped_app tr1 tr :
  Forall resolving tr1 -> lookup_error_dropped tr -> lookup_error_dropped (tr1 ++ tr).
Proof.
  intros H1 (pre & group & e & -> & He & Htr).
  exists (tr1 ++ pre)%list, group, e. split; [by rewrite <- app_assoc|].
  split; [done|]. by apply Forall_app.
Qed.

Lemma affinity_block_cons err ev tr r :
  resolving ev -> affinity_block err tr r -> affinity_block err (ev :: tr) r.
Proof.
  intros Hev [Htr Hr]. split; [by constructor|].
  destruct r as [a|e]; [done|]. destruct Hr as [He|[-> Hd]]; [by left|].
  right. split; [done|]. apply (lookup_error_dropped_app [ev]); [|done].
  by repeat constructor.
Qed.

Lemma Create_affinityGroups_ensures err groups ags :
  ensures (affinity_block err) (Create_affinityGroups err groups ags).
Proof.
  revert ags. induction groups as [|group groups IH]; intros ags; [by split|].
  cbn [Create_affinityGroups]. destruct (String.eqb group ""); [apply IH|].
  unfold createDefaultAffinityGroup.
  cbn [mbind Prog_bind bind call ensures]. intros [errGet|ag].
  - destruct (is_ErrorResponse errGet) eqn:Hclass; cbn [negb].
    + cbn [ensures]. intros [errCreate|affinityGroup].
      * cbn. split; [by repeat constructor|]. left. by eexists.
      * destruct (AffinityGroup.ID affinityGroup); [|done].
        eapply ensures_weaken; [|apply IH].
        intros tr r Hr. by do 2 (apply affinity_block_cons; [exact I|]).
    + cbn. split; [by repeat constructor|]. right. split; [done|].
      exists [], group, errGet. split; [done|]. split; [done|].
      by repeat constructor.
  - destruct (AffinityGroup.ID ag); [|done].
    eapply ensures_weaken; [|apply IH].
    intros tr r Hr. by apply affinity_block_cons.
Qed.

Lemma deployed_app d tr1 tr d' :
  Forall resolving tr1 -> deployed d tr d' -> deployed d (tr1 ++ tr) d'.
Proof.
  intros H1 (pre & req & vm & post & -> & Hpre & Hpost & Hrest).
  exists (tr1 ++ pre)%list, req, vm, post. split; [by rewrite <- app_assoc|].
  split; [by apply Forall_app|]. by split.
Qed.

Lemma nil_means_app d d1 tr1 tr r :
  Forall resolving tr1 -> MachineName d1 = MachineName d ->
  nil_means d1 tr r -> nil_means d (tr1 ++ tr) r.
Proof.
  intros H1 Hname Hr Hnil. destruct (Hr Hnil) as [Hd|Hl].
  - left. apply deployed_app; [done|].
    destruct Hd as (pre & req & vm & post & Htr & Hpre & Hpost & Hn & Hdn & Hrest).
    exists pre, req, vm, post. rewrite <- Hname. by repeat (split; [done|]).
  - right. by apply lookup_error_dropped_app.
Qed.

(** A block that only resolves, and returns nothing but errors, keeps
    [nil_means] when what follows it does. *)
Lemma nil_means_block {A : Type} d d0 (Q : A -> Prop) (p : Prog (Flow A)) k :
  calls_only resolving p -> returns_only (continues_with Q) p ->
  (forall a, Q a -> exists d1, MachineName d1 = MachineName d
                               /\ ensures (nil_means d1) (k a)) ->
  ensures (nil_means d) (orReturn d0 p k).
Proof.
  intros Hc Hr Hk. apply ensures_orReturn.
  eapply ensures_weaken; [|by apply ensures_calls_returns].
  intros tr [a|e] [Htr Hq].
  - destruct (Hk a Hq) as (d1 & Hname & Hka).
    eapply ensures_weaken; [|apply Hka].
    intros tr2 b. by apply nil_means_app.
  - intros Hnil. cbn in Hnil, Hq. subst e. by destruct Hq.
Qed.

Lemma returns_only_continues {A : Type} (p : Prog (Flow A)) :
  returns_only aborts_with_error p -> returns_only (continues_with (fun _ => True)) p.
Proof. apply returns_only_weaken. by intros [a|e]. Qed.

Lemma Create_destroyKey_ensures d :
  ensures (fun tr r =>
             Forall post_create_step tr
             /\ (r.2 = None -> ID r.1 = ID d /\ KeyPair r.1 = ""))
    (Create_destroyKey d).
Proof.
  unfold Create_destroyKey. destruct (String.eqb_spec (KeyPair d) ""); cbn [negb].
  - by split.
  - cbn [mbind Prog_bind bind call ensures]. intros [e|].
    + by split; [repeat constructor|].
    + cbn [ensures]. intros [e|]; by split; [repeat constructor|].
Qed.

Lemma ID_Create_record d vm : ID (Create_record d vm) = VirtualMachine.ID vm.
Proof.
  unfold Create_record.
  by destruct (VirtualMachine.IP vm), (VirtualMachine.PasswordEnabled vm).
Qed.

Lemma Create_deploy_ensures d cloudInit zone template profile sgs ags :
  ensures (nil_means d) (Create_deploy d cloudInit zone template profile sgs ags).
Proof.
  unfold Create_deploy. cbn [mbind Prog_bind bind call ensures].
  intros [e|vm]; [done|].
  eapply ensures_weaken; [|apply Create_destroyKey_ensures].
  intros tr r [Htr Hr] Hnil. destruct (Hr Hnil) as [Hid Hkey]. left.
  exists [], (deployRequest (set_UserData d cloudInit) zone template profile sgs ags),
    vm, tr.
  rewrite Hid, ID_Create_record. by repeat (split; [done|]).
Qed.

Lemma Create_from_sshKey_ensures d cloudInit zone template profile sgs ags :
  ensures (nil_means d) (Create_from_sshKey d cloudInit zone template profile sgs ags).
Proof.
  apply (nil_means_block d d (fun a => MachineName a.1 = MachineName d));
    [apply Create_sshKey_calls| |].
  - eapply returns_only_weaken; [|apply Create_sshKey_returns].
    intros [[d1 ci]|e] Hr; [exact (proj1 Hr)|exact Hr].
  - intros [d1 ci] Hname. exists d1. split; [done|]. apply Create_deploy_ensures.
Qed.

Lemma Create_from_affinityGroups_ensures d cloudInit zone template profile sgs :
  ensures (nil_means d)
    (Create_from_affinityGroups d None cloudInit zone template profile sgs).
Proof.
  apply ensures_orReturn.
  eapply ensures_weaken; [|apply Create_affinityGroups_ensures].
  intros tr [ags|e] [Htr Hr].
  - eapply ensures_weaken; [|apply Create_from_sshKey_ensures].
    intros tr2 b. by apply nil_means_app.
  - intros Hnil. cbn in Hnil. subst e.
    destruct Hr as [[? [=]]|[_ Hd]]. by right.
Qed.

Lemma Create_from_zone_ensures d cloudInit :
  ensures (nil_means d) (Create_from_zone d cloudInit).
Proof.
  eapply nil_means_block;
    [apply Create_zone_calls
    |apply returns_only_continues, Create_zone_returns|].
  intros zone _. exists d. split; [done|].
  eapply nil_means_block;
    [apply Create_image_calls
    |apply returns_only_continues, Create_image_returns|].
  intros template _. exists (Create_username d template). split.
  { unfold Create_username. by destruct (_ !! _). }
  eapply nil_means_block;
    [apply Create_profile_calls
    |apply returns_only_continues, Create_profile_returns|].
  intros profile _. eexists. split; [done|].
  eapply nil_means_block;
    [apply Create_securityGroups_calls
    |apply returns_only_continues, Create_securityGroups_returns|].
  intros sgs _. eexists. split; [done|].
  apply Create_from_affinityGroups_ensures.
Qed.

Lemma Create_ensures d : ensures (nil_means d) (Create d).
Proof.
  unfold Create, getCloudInit. destruct (negb _).
  - cbn [mbind Prog_bind bind call ensures mret Prog_ret]. intros [data [e|]]; [done|].
    eapply ensures_weaken; [|apply Create_from_zone_ensures].
    intros tr r. apply (nil_means_app d _ [_]); [by repeat constructor|done].
  - apply Create_from_zone_ensures.
Qed.

End Success.

(** ** [Create]: what it deploys *)
Section Deployment.
Context `{GoRuntime} {W : Type} (handle : forall X, Call X -> W -> X * W).

Lemma resolving_no_deployment tr pre req x post :
  Forall resolving tr ->
  tr <> (pre ++ Ev (RequestDeployVirtualMachine req) x :: post)%list.
Proof.
  intros Htr ->. apply Forall_app in Htr as [_ Htr].
  by apply Forall_cons in Htr as [Hev _].
Qed.

Lemma resolving_prefix tr1 tr2 pre req x post :
  Forall resolving tr1 ->
  (tr1 ++ tr2 = pre ++ Ev (RequestDeployVirtualMachine req) x :: post)%list ->
  exists pre2,
    pre = (tr1 ++ pre2)%list
    /\ tr2 = (pre2 ++ Ev (RequestDeployVirtualMachine req) x :: post)%list.
Proof.
  revert pre. induction tr1 as [|ev tr1 IH]; intros pre Htr1 Heq.
  { by exists pre. }
  apply Forall_cons in Htr1 as [Hev Htr1].
  destruct pre as [|ev' pre]; cbn [app] in Heq.
  - injection Heq as -> _. destruct Hev.
  - injection Heq as -> Heq. destruct (IH pre Htr1 Heq) as (pre2 & -> & ->).
    by exists pre2.
Qed.

Lemma deployment_first req0 x0 post0 pre req x post :
  Forall post_create_step post0 ->
  (Ev (RequestDeployVirtualMachine req0) x0 :: post0
   = pre ++ Ev (RequestDeployVirtualMachine req) x :: post)%list ->
  pre = [] /\ req0 = req /\ x0 = x /\ post0 = post.
Proof.
  intros Hpost Heq. destruct pre as [|ev pre]; cbn [app] in Heq.
  - assert (Hev : Ev (RequestDeployVirtualMachine req0) x0
                  = Ev (RequestDeployVirtualMachine req) x) by congruence.
    assert (Hpost0 : post0 = post) by congruence.
    pose proof (f_equal deploy_request Hev) as Hreq.
    pose proof (f_equal deploy_answer Hev) as Hx.
    cbn in Hreq, Hx. by simplify_eq.
  - injection Heq as _ ->. apply Forall_app in Hpost as [_ Hpost].
    by apply Forall_cons in Hpost as [Hev _].
Qed.

Lemma run_orReturn_deployment {A : Type} d (p : Prog (Flow A)) k w r pre req x post w' :
  calls_only resolving p ->
  run handle (orReturn d p k) w
  = (r, (pre ++ Ev (RequestDeployVirtualMachine req) x :: post)%list, w') ->
  exists a tr1 w1 pre2,
    run handle p w = (Some (Continue a), tr1, w1)
    /\ pre = (tr1 ++ pre2)%list
    /\ run handle (k a) w1
       = (r, (pre2 ++ Ev (RequestDeployVirtualMachine req) x :: post)%list, w').
Proof.
  intros Hcalls. unfold orReturn. rewrite run_bind.
  destruct (run handle p w) as [[[[a|e]|] tr1] w1] eqn:Hp;
    pose proof (calls_only_run handle _ _ _ _ _ _ Hcalls Hp) as Htr1.
  - destruct (run handle (k a) w1) as [[r2 tr2] w2] eqn:Hk. cbn [after].
    intros [= <- Htr <-].
    destruct (resolving_prefix _ _ _ _ _ _ Htr1 Htr) as (pre2 & -> & ->).
    by exists a, tr1, w1, pre2.
  - cbn [after run mret Prog_ret]. rewrite app_nil_r. intros [= _ Htr _].
    by destruct (resolving_no_deployment _ _ _ _ _ Htr1 Htr).
  - intros [= _ Htr _]. by destruct (resolving_no_deployment _ _ _ _ _ Htr1 Htr).
Qed.

Lemma Create_zone_Continue d w zone tr w1 :
  run handle (Create_zone d) w = (Some (Continue zone), tr, w1) ->
  exists z, tr = [Ev (zoneQuery d) (inr [z])] /\ zone = Zone.ID z.
Proof.
  destruct (handle _ (zoneQuery d) w) as [[e|zones] w2] eqn:Hq.
  - unfold Create_zone, call. rewrite run_bind. cbn [run]. fold (zoneQuery d).
    by rewrite Hq.
  - rewrite (run_Create_zone handle d w zones w2 Hq).
    destruct zones as [|z [|z' zones]]; intros [= <- <- <-]. by exists z.
Qed.

Lemma Create_profile_Continue d w profile tr w1 :
  run handle (Create_profile d) w = (Some (Continue profile), tr, w1) ->
  exists p, tr = [Ev (profileQuery d) (inr [p])] /\ profile = ServiceOffering.ID p.
Proof.
  destruct (handle _ (profileQuery d) w) as [[e|profiles] w2] eqn:Hq.
  - unfold Create_profile, call. rewrite run_bind. cbn [run]. fold (profileQuery d).
    by rewrite Hq.
  - rewrite (run_Create_profile handle d w profiles w2 Hq).
    destruct profiles as [|p [|p' profiles]]; intros [= <- <- <-]. by exists p.
Qed.

Lemma Create_image_Continue d zone w template tr w1 :
  run handle (Create_image d zone) w = (Some (Continue template), tr, w1) ->
  exists templates,
    tr = [Ev (templateQuery zone) (inr templates)]
    /\ List.find (names_image (ToLower (Image d))) (List.filter is_10GiB templates)
       = Some template.
Proof.
  destruct (handle _ (templateQuery zone) w) as [[e|templates] w2] eqn:Hq.
  - unfold Create_image, call. rewrite run_bind. cbn [run]. fold (templateQuery zone).
    by rewrite Hq.
  - rewrite (run_Create_image handle d zone w templates w2 Hq).
    destruct (List.find _ _) as [tpl|] eqn:Hfind; [|done].
    destruct (Template.ID tpl); intros [= <- <- <-]. by exists templates.
Qed.

Lemma Create_affinityGroups_resolves err groups ags :
  ensures (resolves_affinity groups ags) (Create_affinityGroups err groups ags).
Proof.
  revert ags. induction groups as [|group groups IH]; intros ags.
  { intros ags' [= <-]. by rewrite app_nil_r. }
  cbn [Create_affinityGroups].
  destruct (String.eqb_spec group "") as [->|Hgroup]; [apply IH|].
  assert (Hnonempty : List.filter nonempty (group :: groups)
                      = group :: List.filter nonempty groups).
  { cbn [List.filter]. unfold nonempty at 1. by destruct (String.eqb_spec group ""). }
  unfold createDefaultAffinityGroup.
  cbn [mbind Prog_bind bind call ensures]. intros [errGet|ag].
  - destruct (is_ErrorResponse errGet); cbn [negb]; [|done].
    cbn [ensures]. intros [errCreate|affinityGroup]; [done|].
    destruct (AffinityGroup.ID affinityGroup) as [id|] eqn:Hid; [|done].
    eapply ensures_weaken; [|apply IH].
    intros tr r Hr ags' ->. destruct (Hr ags' eq_refl) as [Hnames ->].
    cbn [collect affinity_name affinity_id AffinityGroup.Name].
    rewrite Hid, Hnames, Hnonempty. by rewrite <- app_assoc.
  - destruct (AffinityGroup.ID ag) as [id|] eqn:Hid; [|done].
    eapply ensures_weaken; [|apply IH].
    intros tr r Hr ags' ->. destruct (Hr ags' eq_refl) as [Hnames ->].
    cbn [collect affinity_name affinity_id AffinityGroup.Name].
    rewrite Hid, Hnames, Hnonempty. by rewrite <- app_assoc.
Qed.

Lemma Create_affinityGroups_steps err groups0 groups ags :
  (forall group, In group groups -> In group groups0) ->
  calls_only (fun ev => affinity_step groups0 ev
                        /\ lookup_name ev = None /\ resolved_id ev = None)
    (Create_affinityGroups err groups ags).
Proof.
  revert ags. induction groups as [|group groups IH]; intros ags Hin; [done|].
  assert (Hin' : forall g, In g groups -> In g groups0).
  { intros g Hg. apply Hin. by right. }
  cbn [Create_affinityGroups].
  destruct (String.eqb_spec group "") as [->|Hgroup]; [by apply IH|].
  assert (Hstep : forall x, affinity_step groups0 (Ev (lookupAffinityGroup group) x)).
  { intros x. exists group. split; [apply Hin; by left|]. split; [done|].
    left. by exists x. }
  assert (Hcreate : forall x, affinity_step groups0 (Ev (createAffinityGroup group) x)).
  { intros x. exists group. split; [apply Hin; by left|]. split; [done|].
    right. by exists x. }
  unfold createDefaultAffinityGroup.
  cbn [mbind Prog_bind bind call calls_only]. intros [errGet|ag].
  - split; [by split; [apply Hstep|]|].
    destruct (is_ErrorResponse errGet); cbn [negb]; [|done].
    cbn [calls_only]. intros [errCreate|affinityGroup].
    + split; [by split; [apply Hcreate|]|done].
    + split; [by split; [apply Hcreate|]|].
      destruct (AffinityGroup.ID affinityGroup); [by apply IH|done].
  - split; [by split; [apply Hstep|]|].
    destruct (AffinityGroup.ID ag); [by apply IH|done].
Qed.

Lemma Create_securityGroups_steps groups sgs :
  calls_only (fun ev => affinity_name ev = None /\ affinity_id ev = None)
    (Create_securityGroups groups sgs).
Proof.
  revert sgs. induction groups as [|group groups IH]; intros sgs; [done|].
  cbn [Create_securityGroups]. destruct (String.eqb group ""); [apply IH|].
  cbn [mbind Prog_bind bind call calls_only]. intros [errGet|sg].
  - split; [done|]. destruct (is_ErrorResponse errGet); cbn [negb]; [|done].
    apply calls_only_bind.
    + unfold createDefaultSecurityGroup.
      cbn [mbind Prog_bind bind call calls_only]. intros [e|sg].
      * by split.
      * split; [done|]. apply calls_only_bind; [|by intros [e|]].
        induction (defaultRules sg) as [|req requests IHr]; [done|].
        cbn [authorizeAll mbind Prog_bind bind call calls_only].
        intros [e|]; by split.
    + intros [errCreate|securityGroup]; [done|].
      destruct (SecurityGroup.ID securityGroup); [apply IH|done].
  - split; [done|]. destruct (SecurityGroup.ID sg); [apply IH|done].
Qed.

Lemma key_step_group_free ev : key_step ev -> group_free ev.
Proof. destruct ev as [X c x]. by destruct c. Qed.

Lemma key_step_resolving ev : key_step ev -> resolving ev.
Proof. destruct ev as [X c x]. by destruct c. Qed.

Lemma Create_sshKey_steps d cloudInit : calls_only key_step (Create_sshKey d cloudInit).
Proof.
  unfold Create_sshKey. destruct (String.eqb (SSHKey d) "").
  - apply calls_only_bind; [|by intros [d1|e]].
    unfold Create_generateKey. cbn [mbind Prog_bind bind call calls_only].
    intros [e|keyPair]; (split; [done|]); [done|].
    cbn [calls_only]. intros [e|]; (split; [done|]); [done|].
    cbn [calls_only]. by intros [e|].
  - apply calls_only_bind; [|by intros [ci|e]].
    assert (Hat : forall sshKey, calls_only key_step (Create_importKeyAt d cloudInit sshKey)).
    { intros sshKey. unfold Create_importKeyAt.
      cbn [mbind Prog_bind bind call calls_only].
      intros [pubKey [e|]]; (split; [done|]); [done|].
      cbn [calls_only]. intros [e|]; (split; [done|]); [done|].
      cbn [calls_only]. by intros [e|]. }
    unfold Create_importKey. destruct (strings.HasPrefix _ _).
    + cbn [mbind Prog_bind bind call calls_only].
      intros [home|]; (split; [done|]); [apply Hat|done].
    + cbn [mbind Prog_bind bind call calls_only].
      intros [e|sshKey]; (split; [done|]); [done|apply Hat].
Qed.

Lemma Create_importKey_appends d cloudInit :
  ensures (fun tr r =>
             forall cloudInit1,
               r = Continue cloudInit1 ->
               exists path pubKey,
                 In (Ev (ReadFile (path ++ ".pub")) (pubKey, None)) tr
                 /\ cloudInit1 = cloudInit ++ sshAuthorizedKeys ++ pubKey)
    (Create_importKey d cloudInit).
Proof.
  assert (Hat : forall sshKey,
             ensures (fun tr r =>
                        forall cloudInit1,
                          r = Continue cloudInit1 ->
                          exists path pubKey,
                            In (Ev (ReadFile (path ++ ".pub")) (pubKey, None)) tr
                            /\ cloudInit1 = cloudInit ++ sshAuthorizedKeys ++ pubKey)
               (Create_importKeyAt d cloudInit sshKey)).
  { intros sshKey. unfold Create_importKeyAt.
    cbn [mbind Prog_bind bind call ensures].
    intros [pubKey [e|]]; [done|].
    cbn [ensures]. intros [e|]; [done|].
    cbn [ensures]. intros [e|]; [done|].
    intros ci1 [= <-]. exists sshKey, pubKey. split; [by left|done]. }
  unfold Create_importKey. destruct (strings.HasPrefix _ _).
  - cbn [mbind Prog_bind bind call ensures]. intros [home|]; [|done].
    eapply ensures_weaken; [|apply Hat].
    intros tr r Hr ci1 Hci. destruct (Hr ci1 Hci) as (path & pubKey & Hin & ->).
    exists path, pubKey. split; [by right|done].
  - cbn [mbind Prog_bind bind call ensures]. intros [e|sshKey]; [done|].
    eapply ensures_weaken; [|apply Hat].
    intros tr r Hr ci1 Hci. destruct (Hr ci1 Hci) as (path & pubKey & Hin & ->).
    exists path, pubKey. split; [by right|done].
Qed.

Lemma Create_sshKey_Continue d cloudInit w d1 cloudInit1 tr w1 :
  run handle (Create_sshKey d cloudInit) w = (Some (Continue (d1, cloudInit1)), tr, w1) ->
  prepares_key d cloudInit tr d1 cloudInit1.
Proof.
  unfold Create_sshKey, prepares_key.
  destruct (String.eqb_spec (SSHKey d) "") as [Hkey|Hkey]; rewrite run_bind.
  - destruct (run handle (Create_generateKey d) w) as [[[[d2|e]|] tr2] w2] eqn:Hgen;
      cbn [after run mret Prog_ret]; intros [= <- <- <- <-].
    left. by rewrite (Create_generateKey_result handle _ _ _ _ _ Hgen).
  - destruct (run handle (Create_importKey d cloudInit) w)
      as [[[[ci2|e]|] tr2] w2] eqn:Himp;
      cbn [after run mret Prog_ret]; intros [= <- <- <- <-].
    right. split; [done|]. split; [done|]. rewrite app_nil_r.
    by apply (ensures_run handle _ _ _ _ _ _ (Create_importKey_appends d cloudInit) Himp).
Qed.

Lemma Create_deploy_deployment d cloudInit zone template profile sgs ags
    w r pre req x post w1 :
  run handle (Create_deploy d cloudInit zone template profile sgs ags) w
  = (r, (pre ++ Ev (RequestDeployVirtualMachine req) x :: post)%list, w1) ->
  pre = []
  /\ req = deployRequest (set_UserData d cloudInit) zone template profile sgs ags
  /\ concludes (set_UserData d cloudInit) x post r.
Proof.
  destruct (handle _ (deployment d cloudInit zone template profile sgs ags) w)
    as [x0 w2] eqn:Hdeploy.
  rewrite (run_Create_deploy handle _ _ _ _ _ _ _ _ _ _ Hdeploy).
  unfold deployment, concludes.
  set (d2 := set_UserData d cloudInit). destruct x0 as [e|vm].
  - cbn [after app]. intros [= <- Htr <-].
    destruct (deployment_first _ _ _ _ _ _ _ (List.Forall_nil _) Htr) as (-> & <- & <- & <-).
    done.
  - set (d3 := Create_record d2 vm).
    assert (Hkey : KeyPair d3 = KeyPair d2) by apply KeyPair_Create_record.
    destruct (String.eqb_spec (KeyPair d2) "") as [Hnone|Hsome].
    + rewrite (run_Create_destroyKey_none handle d3 w2) by congruence.
      cbn [after app]. intros [= <- Htr <-].
      destruct (deployment_first _ _ _ _ _ _ _ (List.Forall_nil _) Htr) as (-> & <- & <- & <-).
      done.
    + destruct (handle _ (WaitForSSH d3) w2) as [y w3] eqn:Hwait.
      rewrite (run_Create_destroyKey handle d3 w2 y w3) by congruence.
      rewrite Hkey. destruct y as [e|].
      * cbn [after app]. intros [= <- Htr <-].
        apply deployment_first in Htr as (-> & <- & <- & <-);
          [|by repeat constructor].
        repeat split; try done. left. by exists e.
      * destruct (handle _ (keyPairDeletionOf (KeyPair d2)) w3) as [[e|] w4];
          cbn [after app]; intros [= <- Htr <-];
          (apply deployment_first in Htr as (-> & <- & <- & <-);
           [|by repeat constructor]).
        -- repeat split; try done. right; left. by exists e.
        -- repeat split; try done. by right; right.
Qed.

(** From the zone on: [d0] is the driver [getCloudInit] left. *)
Lemma Create_from_zone_assembles d tr0 d0 w r pre req x post w1 :
  loads_cloud_init d tr0 d0 ->
  run handle (Create_from_zone d0 (UserData d0)) w
  = (r, (pre ++ Ev (RequestDeployVirtualMachine req) x :: post)%list, w1) ->
  exists d2, assembled d (tr0 ++ pre) req d2 /\ concludes d2 x post r.
Proof.
  intros Hload Hrun.
  assert (Hsame : AvailabilityZone d0 = AvailabilityZone d
                  /\ InstanceProfile d0 = InstanceProfile d
                  /\ Image d0 = Image d
                  /\ SecurityGroups d0 = SecurityGroups d
                  /\ AffinityGroups d0 = AffinityGroups d).
  { by destruct Hload as [(_ & _ & ->)|(_ & data & _ & ->)]. }
  destruct Hsame as (Hzone & Hprofile & Himage & Hsgs & Hags).
  apply run_orReturn_deployment in Hrun
    as (zone & tr1 & w2 & pre1 & Hz & -> & Hrun); [|apply Create_zone_calls].
  apply Create_zone_Continue in Hz as (z & -> & ->).
  apply run_orReturn_deployment in Hrun
    as (tpl & tr2 & w3 & pre2 & Ht & -> & Hrun); [|apply Create_image_calls].
  apply Create_image_Continue in Ht as (templates & -> & Hfind).
  cbv zeta in Hrun. set (d1 := Create_username d0 tpl) in *.
  assert (Hd1 : InstanceProfile d1 = InstanceProfile d0
                /\ SecurityGroups d1 = SecurityGroups d0
                /\ AffinityGroups d1 = AffinityGroups d0).
  { unfold d1, Create_username. by destruct (_ !! _). }
  destruct Hd1 as (Hprofile1 & Hsgs1 & Hags1).
  apply run_orReturn_deployment in Hrun
    as (profile & tr3 & w4 & pre3 & Hp & -> & Hrun); [|apply Create_profile_calls].
  apply Create_profile_Continue in Hp as (p & -> & ->).
  cbv zeta in Hrun.
  apply run_orReturn_deployment in Hrun
    as (sgs & tr_sg & w5 & pre4 & Hsg & -> & Hrun);
    [|apply Create_securityGroups_calls].
  apply run_orReturn_deployment in Hrun
    as (ags & tr_ag & w6 & pre5 & Hag & -> & Hrun);
    [|apply Create_affinityGroups_calls].
  apply run_orReturn_deployment in Hrun
    as ([d3 cloudInit1] & tr_key & w7 & pre6 & Hkey & -> & Hrun);
    [|apply Create_sshKey_calls].
  apply Create_deploy_deployment in Hrun as (-> & -> & Hend).
  exists (set_UserData d3 cloudInit1). split; [|done].
  exists tr0, d0, z, templates, tpl, p, tr_sg, sgs, tr_ag, ags, tr_key, d3, cloudInit1.
  rewrite app_nil_r.
  split.
  { unfold zoneQuery, profileQuery. by rewrite <- Hzone, <- Hprofile, <- Hprofile1. }
  split; [done|].
  split; [by rewrite <- Himage|].
  split.
  { rewrite <- Hsgs, <- Hsgs1.
    by apply (Create_securityGroups_resolves_all handle _ _ _ _ _ _ Hsg). }
  split.
  { by apply (calls_only_run handle _ _ _ _ _ _ (Create_securityGroups_steps _ _) Hsg). }
  pose proof (calls_only_run handle _ _ _ _ _ _
                (Create_affinityGroups_steps None (AffinityGroups d1) _ []
                   (fun _ Hin => Hin)) Hag) as Hsteps.
  pose proof (ensures_run handle _ _ _ _ _ _
                (Create_affinityGroups_resolves None (AffinityGroups d1) []) Hag
                ags eq_refl) as [Hnames Hids].
  rewrite Hags1, Hags in Hsteps, Hnames.
  split; [eapply Forall_impl; [exact Hsteps|]; by intros ev [Hev _]|].
  split; [done|]. split; [done|].
  split; [by apply (calls_only_run handle _ _ _ _ _ _ (Create_sshKey_steps _ _) Hkey)|].
  split; [by apply Create_sshKey_Continue in Hkey|].
  done.
Qed.

(** Whenever a run of [Create] makes a deployment request, the requests
    before it assembled it, and the run concludes after its answer. *)
Lemma Create_assembles d w r pre req x post w1 :
  run handle (Create d) w
  = (r, (pre ++ Ev (RequestDeployVirtualMachine req) x :: post)%list, w1) ->
  exists d2, assembled d pre req d2 /\ concludes d2 x post r.
Proof.
  unfold Create, getCloudInit.
  destruct (String.eqb_spec (UserDataFile d) "") as [Hfile|Hfile]; cbn [negb].
  - cbn [mbind Prog_bind bind mret Prog_ret]. intros Hrun.
    apply (Create_from_zone_assembles d [] d w r pre req x post w1); [|done]. by left.
  - cbn [mbind Prog_bind bind call mret Prog_ret run].
    destruct (handle _ (ReadFile (UserDataFile d)) w) as [[data [e|]] w2].
    + cbn [run]. intros [= _ Htr _].
      exfalso. eapply resolving_no_deployment; [|exact Htr]. by repeat constructor.
    + change (bind (mret ?a) ?f) with (f a). cbv beta iota.
      destruct (run handle (Create_from_zone _ _) w2) as [[r2 tr2] w3] eqn:Hrun.
      intros [= <- Htr <-].
      change (([Ev (ReadFile (UserDataFile d)) (data, None)] ++ tr2)%list
              = (pre ++ Ev (RequestDeployVirtualMachine req) x :: post)%list) in Htr.
      apply resolving_prefix in Htr as (pre2 & -> & ->); [|by repeat constructor].
      apply (Create_from_zone_assembles d _ (set_UserData d data) w2 r2 pre2 req x
               post w3); [|done].
      right. split; [done|]. by exists data.
Qed.

End Deployment.

(** ** [Create] as a whole *)
Section Whole.
Context `{GoRuntime} {W : Type} (handle : forall X, Call X -> W -> X * W).

Lemma calls_only_orReturn {A : Type} P d (p : Prog (Flow A)) k :
  calls_only P p -> (forall a, calls_only P (k a)) -> calls_only P (orReturn d p k).
Proof.
  intros Hp Hk. unfold orReturn. apply calls_only_bind; [done|].
  intros [a|e]; [apply Hk|done].
Qed.

Lemma returns_only_orReturn {A : Type} (R : A -> Prop) Q d (p : Prog (Flow A)) k :
  returns_only (fun r => match r with
                         | Continue a => R a
                         | Return _ => True
                         end) p ->
  (forall e, Q (d, e)) ->
  (forall a, R a -> returns_only Q (k a)) ->
  returns_only Q (orReturn d p k).
Proof.
  intros Hp Hd Hk. unfold orReturn. apply returns_only_bind.
  eapply returns_only_weaken; [|exact Hp].
  intros [a|e] Hr; [by apply Hk|apply Hd].
Qed.

Lemma returns_only_any {A : Type} (p : Prog (Flow A)) :
  returns_only (fun r => match r with
                         | Continue _ => True
                         | Return _ => True
                         end) p.
Proof. eapply returns_only_weaken; [|apply returns_only_True]. by intros [a|e]. Qed.

Lemma resolving_not_destroys ev : resolving ev -> ~ destroys ev.
Proof. destruct ev as [X c x]. destruct c; cbn; tauto. Qed.

Lemma Create_deploy_never_destroys d cloudInit zone template profile sgs ags :
  calls_only (fun ev => ~ destroys ev)
    (Create_deploy d cloudInit zone template profile sgs ags).
Proof.
  unfold Create_deploy. cbn [mbind Prog_bind bind call calls_only].
  intros [e|vm]; (split; [by intros []|]); [done|].
  unfold Create_destroyKey. destruct (negb _); [|done].
  cbn [mbind Prog_bind bind call calls_only].
  intros [e|]; (split; [by intros []|]); [done|].
  cbn [calls_only]. intros [e|]; by split; [intros []|].
Qed.

Lemma Create_calls_never_destroy d : calls_only (fun ev => ~ destroys ev) (Create d).
Proof.
  assert (Hblock : forall A (p : Prog A),
             calls_only resolving p -> calls_only (fun ev => ~ destroys ev) p).
  { intros A p. apply calls_only_weaken, resolving_not_destroys. }
  unfold Create. apply calls_only_bind; [apply Hblock, getCloudInit_calls|].
  intros [d0 [cloudInit [e|]]]; [done|].
  apply calls_only_orReturn; [apply Hblock, Create_zone_calls|]. intros zone.
  apply calls_only_orReturn; [apply Hblock, Create_image_calls|]. intros template.
  apply calls_only_orReturn; [apply Hblock, Create_profile_calls|]. intros profile.
  apply calls_only_orReturn; [apply Hblock, Create_securityGroups_calls|]. intros sgs.
  apply calls_only_orReturn; [apply Hblock, Create_affinityGroups_calls|]. intros ags.
  apply calls_only_orReturn; [apply Hblock, Create_sshKey_calls|]. intros [d1 ci1].
  apply Create_deploy_never_destroys.
Qed.

Lemma config_Create_record d vm : config (Create_record d vm) = config d.
Proof.
  unfold Create_record.
  by destruct (VirtualMachine.IP vm), (VirtualMachine.PasswordEnabled vm).
Qed.

Lemma Create_deploy_returns_config d cloudInit zone template profile sgs ags :
  returns_only (fun r => config r.1 = config d)
    (Create_deploy d cloudInit zone template profile sgs ags).
Proof.
  unfold Create_deploy. cbn [mbind Prog_bind bind call returns_only].
  intros [e|vm]; [done|].
  assert (Hrecord : config (Create_record (set_UserData d cloudInit) vm) = config d)
    by (by rewrite config_Create_record).
  unfold Create_destroyKey. destruct (negb _).
  - cbn [mbind Prog_bind bind call returns_only].
    intros [e|]; [exact Hrecord|].
    cbn [returns_only]. intros [e|]; exact Hrecord.
  - exact Hrecord.
Qed.

Lemma Create_returns_config d : returns_only (fun r => config r.1 = config d) (Create d).
Proof.
  assert (Hfrom : forall d0 cloudInit,
             config d0 = config d ->
             returns_only (fun r => config r.1 = config d)
               (Create_from_zone d0 cloudInit)).
  { intros d0 cloudInit Hd0.
    apply (returns_only_orReturn (fun _ => True)); [apply returns_only_any|done|].
    intros zone _.
    apply (returns_only_orReturn (fun _ => True)); [apply returns_only_any|done|].
    intros template _. cbv zeta.
    assert (Hd1 : config (Create_username d0 template) = config d).
    { rewrite <- Hd0. unfold Create_username. by destruct (_ !! _). }
    apply (returns_only_orReturn (fun _ => True)); [apply returns_only_any|done|].
    intros profile _. cbv zeta.
    apply (returns_only_orReturn (fun _ => True)); [apply returns_only_any|done|].
    intros sgs _.
    apply (returns_only_orReturn (fun _ => True)); [apply returns_only_any|done|].
    intros ags _.
    apply (returns_only_orReturn
             (fun a => config a.1 = config (Create_username d0 template)));
      [|done|].
    - eapply returns_only_weaken; [|apply Create_sshKey_returns].
      intros [[d1 ci1]|e] Hr; [exact (proj2 Hr)|done].
    - intros [d1 ci1] Hd2. cbn [fst] in Hd2.
      eapply returns_only_weaken; [|apply Create_deploy_returns_config].
      intros r Hr. cbv beta in Hr. congruence. }
  unfold Create, getCloudInit. destruct (negb _).
  - cbn [mbind Prog_bind bind call returns_only mret Prog_ret].
    intros [data [e|]]; [done|]. by apply Hfrom.
  - by apply Hfrom.
Qed.

(** Steps through the requests of a straight-line program. *)
Ltac steps :=
  repeat first
    [ exact I
    | progress cbn [mbind Prog_bind bind call mret Prog_ret calls_only]
    | match goal with
      | |- forall x, _ /\ _ => intros ?
      | |- _ /\ calls_only _ _ => split; [exact I|]
      | |- calls_only _ (match ?x with _ => _ end) => destruct x
      | |- calls_only _ (if ?b then _ else _) => destruct b
      end ].

Lemma Create_securityGroups_created d groups sgs :
  (forall group, In group groups -> In group (SecurityGroups d)) ->
  calls_only (creates_configured d) (Create_securityGroups groups sgs).
Proof.
  revert sgs. induction groups as [|group groups IH]; intros sgs Hin; [done|].
  assert (Hin' : forall g, In g groups -> In g (SecurityGroups d)).
  { intros g Hg. apply Hin. by right. }
  cbn [Create_securityGroups].
  destruct (String.eqb_spec group "") as [->|Hgroup]; [by apply IH|].
  cbn [mbind Prog_bind bind call calls_only]. intros [errGet|sg].
  - split; [done|]. destruct (is_ErrorResponse errGet); cbn [negb]; [|done].
    apply calls_only_bind.
    + unfold createDefaultSecurityGroup.
      cbn [mbind Prog_bind bind call calls_only]. intros [e|sg].
      * split; [|done]. split; [apply Hin; by left|done].
      * split; [split; [apply Hin; by left|done]|].
        apply calls_only_bind; [|by intros [e|]].
        induction (defaultRules sg) as [|req requests IHr]; [done|].
        cbn [authorizeAll mbind Prog_bind bind call calls_only].
        intros [e|]; by split.
    + intros [errCreate|securityGroup]; [done|].
      destruct (SecurityGroup.ID securityGroup); [by apply IH|done].
  - split; [done|]. destruct (SecurityGroup.ID sg); [by apply IH|done].
Qed.

Lemma affinity_step_created d ev :
  affinity_step (AffinityGroups d) ev -> creates_configured d ev.
Proof. by intros (group & Hin & Hgroup & [[x ->]|[x ->]]). Qed.

Lemma Create_calls_created d : calls_only (creates_configured d) (Create d).
Proof.
  assert (Hfrom : forall d0 cloudInit,
             SecurityGroups d0 = SecurityGroups d ->
             AffinityGroups d0 = AffinityGroups d ->
             calls_only (creates_configured d) (Create_from_zone d0 cloudInit)).
  { intros d0 cloudInit Hsgs Hags.
    apply calls_only_orReturn; [unfold Create_zone; steps|]. intros zone.
    apply calls_only_orReturn; [unfold Create_image; steps|]. intros template.
    cbv zeta.
    assert (Hd1 : SecurityGroups (Create_username d0 template) = SecurityGroups d
                  /\ AffinityGroups (Create_username d0 template) = AffinityGroups d).
    { rewrite <- Hsgs, <- Hags. unfold Create_username. by destruct (_ !! _). }
    destruct Hd1 as [Hsgs1 Hags1].
    apply calls_only_orReturn; [unfold Create_profile; steps|]. intros profile.
    cbv zeta.
    apply calls_only_orReturn.
    { apply Create_securityGroups_created. intros group. by rewrite Hsgs1. }
    intros sgs.
    apply calls_only_orReturn.
    { eapply calls_only_weaken;
        [|apply (Create_affinityGroups_steps None (AffinityGroups d))].
      - intros ev [Hev _]. by apply affinity_step_created.
      - intros group. by rewrite Hags1. }
    intros ags.
    apply calls_only_orReturn.
    { eapply calls_only_weaken; [|apply Create_sshKey_steps].
      intros [X c x]. by destruct c. }
    intros [d1 ci1].
    unfold Create_deploy, Create_destroyKey.
    cbn [mbind Prog_bind bind call calls_only]. intros [e|vm]; (split; [done|]); [done|].
    steps. }
  unfold Create, getCloudInit. destruct (negb _).
  - cbn [mbind Prog_bind bind call calls_only mret Prog_ret].
    intros [data [e|]]; (split; [done|]); [done|]. by apply Hfrom.
  - by apply Hfrom.
Qed.

(** [Remove] at a provider that deletes what it is asked to. *)
Lemma run_Remove_accepting (h : forall X, Call X -> W -> X * W) d w :
  accepts_deletions h ->
  trace h (Remove d) w = teardown (KeyPair d) (ID d)
  /\ result h (Remove d) w = Some None.
Proof.
  intros Hh. unfold trace, result, Remove, teardown.
  assert (Hmachine : forall w,
             (run h (err ← match ID d with
                           | Some _ =>
                               call (Delete (DeleteVirtualMachine
                                               (VirtualMachine_with_ID (ID d))))
                           | None => mret None
                           end;
                     match err with
                     | Some e => mret (Some e)
                     | None => mret None
                     end) w).1
             = (Some None,
                match ID d with
                | Some _ =>
                    [Ev (Delete (DeleteVirtualMachine (VirtualMachine_with_ID (ID d))))
                        None]
                | None => []
                end)).
  { intros w2. destruct (ID d) as [id|]; [|done].
    cbn [mbind Prog_bind bind call run].
    pose proof (Hh (DeleteVirtualMachine (VirtualMachine_with_ID (Some id))) w2) as Hd.
    destruct (h _ (Delete _) w2) as [y w3]. cbn [fst] in Hd. by subst y. }
  destruct (String.eqb_spec (KeyPair d) "") as [Hkey|Hkey]; cbn [negb].
  - change (mret None ≫= ?f) with (f (@None error)). cbv beta iota.
    specialize (Hmachine w). destruct (run h _ w) as [[r tr] w2].
    cbn [fst snd] in *. by injection Hmachine as -> ->.
  - cbn [mbind Prog_bind bind call run].
    pose proof (Hh (DeleteSSHKeyPair (SSHKeyPair_with_Name (KeyPair d))) w) as Hd.
    destruct (h _ (Delete _) w) as [y w2]. cbn [fst] in Hd. subst y.
    specialize (Hmachine w2). destruct (run h _ w2) as [[r tr] w3].
    cbn [fst snd] in *. by injection Hmachine as -> ->.
Qed.

Lemma config_fields d d' :
  config d' = config d ->
  MachineName d' = MachineName d /\ DiskSize d' = DiskSize d
  /\ SSHKey d' = SSHKey d /\ UserDataFile d' = UserDataFile d.
Proof. unfold config. by intros [= -> _ _ _ _ _ -> _ _ _ _ -> _ ->]. Qed.

(** What the driver that sends the deployment request has of [d]. *)
Lemma assembled_driver d pre req d2 :
  assembled d pre req d2 ->
  config d2 = config d
  /\ exists tr0 d0 tpl tr_key d1 cloudInit1,
      loads_cloud_init d tr0 d0
      /\ prepares_key (Create_username d0 tpl) (UserData d0) tr_key d1 cloudInit1
      /\ d2 = set_UserData d1 cloudInit1
      /\ (forall ev, In ev tr0 -> In ev pre)
      /\ (forall ev, In ev tr_key -> In ev pre)
      /\ (exists rest, pre = (tr0 ++ rest)%list)
      /\ (exists templates,
            In (Ev (templateQuery (DeployVirtualMachine.ZoneID req)) (inr templates)) pre
            /\ List.find (names_image (ToLower (Image d)))
                 (List.filter is_10GiB templates) = Some tpl
            /\ DeployVirtualMachine.TemplateID req = Template.ID tpl).
Proof.
  intros (tr0 & d0 & z & templates & tpl & p & tr_sg & sgs & tr_ag & ags & tr_key
          & d1 & ci1 & -> & Hload & Hfind & Hsg & _ & _ & _ & _ & _ & Hkey & -> & ->).
  split.
  - assert (Hd0 : config d0 = config d).
    { by destruct Hload as [(_ & _ & ->)|(_ & data & _ & ->)]. }
    assert (Hd1 : config (Create_username d0 tpl) = config d).
    { rewrite <- Hd0. unfold Create_username. by destruct (_ !! _). }
    by destruct Hkey as [(_ & -> & _)|(_ & -> & _)].
  - exists tr0, d0, tpl, tr_key, d1, ci1.
    split; [done|]. split; [done|]. split; [done|].
    split; [intros ev Hev; apply in_or_app; by left|].
    split.
    { intros ev Hev. apply in_or_app. right. do 3 right.
      apply in_or_app. right. apply in_or_app. by right. }
    split; [by eexists|].
    exists templates. split; [|done].
    apply in_or_app. right. right. by left.
Qed.

(** What [Create] returns records the deployment. *)
Lemma concludes_records d2 x post d' err :
  concludes d2 x post (Some (d', err)) ->
  UserData d' = UserData d2 /\ SSHUser d' = SSHUser d2
  /\ match x with
     | inl e => err = Some e /\ d' = d2 /\ post = []
     | inr vm =>
         ID d' = VirtualMachine.ID vm
         /\ KeyPair d' = match err with
                         | Some _ => KeyPair d2
                         | None => ""
                         end
     end.
Proof.
  unfold concludes. destruct x as [e|vm].
  { by intros [-> [= <- <-]]. }
  assert (Hrecord : UserData (Create_record d2 vm) = UserData d2
                    /\ SSHUser (Create_record d2 vm) = SSHUser d2
                    /\ ID (Create_record d2 vm) = VirtualMachine.ID vm
                    /\ KeyPair (Create_record d2 vm) = KeyPair d2).
  { unfold Create_record.
    by destruct (VirtualMachine.IP vm), (VirtualMachine.PasswordEnabled vm). }
  destruct Hrecord as (Hdata & Huser & Hid & Hkey).
  destruct (String.eqb_spec (KeyPair d2) "") as [Hnone|Hsome].
  - intros [_ Heq]. simplify_eq. by rewrite Hkey.
  - intros [(e & _ & Heq)|[(e & _ & Heq)|(_ & Heq)]]; by simplify_eq.
Qed.

End Whole.

(** ** Properties of [Create] and [Remove] *)
Section Properties.
Context `{GoRuntime} {W : Type} (handle : forall X, Call X -> W -> X * W).

Lemma collect_none {A : Type} (f : Event -> option A) tr :
  Forall (fun ev => f ev = None) tr -> collect f tr = [].
Proof.
  induction 1 as [|ev tr Hev _ IH]; [done|]. cbn [collect]. by rewrite Hev.
Qed.

Lemma affinity_step_silent groups ev :
  affinity_step groups ev -> lookup_name ev = None /\ resolved_id ev = None.
Proof. by intros (group & _ & _ & [[x ->]|[x ->]]). Qed.

(** X1: [Create] returns nil only after a deployment: the run made one
    deployment request, for the name of the machine, after requests that
    only resolve; it was answered with a machine, whose id the driver
    records; and no key-pair name is left.  The one exception is the lookup
    of an affinity group that fails outside the not-found class: [Create]
    then returns nil right after it, with nothing deployed. *)
Theorem Create_nil_after_deployment d w d' tr w1 :
  run handle (Create d) w = (Some (d', None), tr, w1) ->
  deployed d tr d' \/ lookup_error_dropped tr.
Proof.
  intros Hrun. exact (ensures_run handle _ _ _ _ _ _ (Create_ensures d) Hrun eq_refl).
Qed.

(** X2: whatever the provider answers and however [Create] ends, it never
    asks to delete a machine, a security group or an affinity group:
    nothing it created is taken back when a later step fails. *)
Theorem Create_never_destroys d w r tr w1 :
  run handle (Create d) w = (r, tr, w1) -> Forall (fun ev => ~ destroys ev) tr.
Proof. apply calls_only_run, Create_calls_never_destroy. Qed.

(** X3: whenever [Create] returns, with or without an error, the driver has
    the configuration it had: machine name, store path, endpoint and keys,
    instance profile, disk size, image, group names, zone, key path and
    user-data file. *)
Theorem Create_keeps_configuration d w d' err tr w1 :
  run handle (Create d) w = (Some (d', err), tr, w1) -> config d' = config d.
Proof.
  intros Hrun.
  exact (returns_only_run handle _ _ _ _ _ _ (Create_returns_config d) Hrun).
Qed.

(** X4: once a run of [Create] had its deployment request answered with a
    machine, the driver it returns lets [Remove] take down what is left at
    the provider, whether [Create] succeeded or failed afterwards: at a
    provider that deletes what it is asked to, [Remove] deletes the key
    pair named in the request when [Create] failed (after success there is
    none left), then the machine that was deployed, and returns nil. *)
Theorem Create_then_Remove d w d' err pre req vm post w1
    (h : forall X, Call X -> W -> X * W) w' :
  run handle (Create d) w
  = (Some (d', err),
     (pre ++ Ev (RequestDeployVirtualMachine req) (inr vm) :: post)%list, w1) ->
  accepts_deletions h ->
  let keyPair := match err with
                 | Some _ => DeployVirtualMachine.KeyPair req
                 | None => ""
                 end in
  trace h (Remove d') w' = teardown keyPair (VirtualMachine.ID vm)
  /\ result h (Remove d') w' = Some None.
Proof.
  intros Hrun Hh keyPair.
  destruct (Create_assembles handle _ _ _ _ _ _ _ _ Hrun) as (d2 & Hpre & Hend).
  destruct (concludes_records _ _ _ _ _ Hend) as (_ & _ & Hid & Hkey).
  assert (Hreq : DeployVirtualMachine.KeyPair req = KeyPair d2).
  { destruct Hpre as (tr0 & d0 & z & templates & tpl & p & tr_sg & sgs & tr_ag & ags
                      & tr_key & d1 & ci1 & _ & _ & _ & _ & _ & _ & _ & _ & _ & _ & _
                      & ->).
    done. }
  destruct (run_Remove_accepting h d' w' Hh) as [Htrace Hresult].
  split; [|done]. rewrite Htrace, Hid, Hkey. unfold keyPair. by rewrite Hreq.
Qed.

(** X5: a deployment request of [Create] is for what the run resolved
    before it: the zone is the one zone listed under the configured name,
    the template is the first listed template of that zone, of 10 whole
    GiB, that answers to the image name, the service offering is the one
    listed under the configured profile; the machine is named and displayed
    as the machine name, with the configured disk size and IPv6 on. *)
Theorem Create_deploys_what_it_resolved d w r pre req x post w1 :
  run handle (Create d) w
  = (r, (pre ++ Ev (RequestDeployVirtualMachine req) x :: post)%list, w1) ->
  (exists z,
      In (Ev (zoneQuery d) (inr [z])) pre
      /\ DeployVirtualMachine.ZoneID req = Zone.ID z)
  /\ (exists templates tpl,
        In (Ev (templateQuery (DeployVirtualMachine.ZoneID req)) (inr templates)) pre
        /\ List.find (names_image (ToLower (Image d))) (List.filter is_10GiB templates)
           = Some tpl
        /\ DeployVirtualMachine.TemplateID req = Template.ID tpl)
  /\ (exists p,
        In (Ev (profileQuery d) (inr [p])) pre
        /\ DeployVirtualMachine.ServiceOfferingID req = ServiceOffering.ID p)
  /\ DeployVirtualMachine.Name req = MachineName d
  /\ DeployVirtualMachine.DisplayName req = MachineName d
  /\ DeployVirtualMachine.RootDiskSize req = DiskSize d
  /\ DeployVirtualMachine.Details req = {[ "ip6" := "true" ]}.
Proof.
  intros Hrun.
  destruct (Create_assembles handle _ _ _ _ _ _ _ _ Hrun) as (d2 & Hpre & _).
  destruct (assembled_driver _ _ _ _ Hpre) as (Hconfig & _).
  destruct (config_fields _ _ Hconfig) as (Hname & Hdisk & _).
  destruct Hpre as (tr0 & d0 & z & templates & tpl & p & tr_sg & sgs & tr_ag & ags
                    & tr_key & d1 & ci1 & -> & _ & Hfind & _ & _ & _ & _ & _ & _ & _
                    & _ & ->).
  cbn [deployRequest DeployVirtualMachine.ZoneID DeployVirtualMachine.TemplateID
       DeployVirtualMachine.ServiceOfferingID DeployVirtualMachine.Name
       DeployVirtualMachine.DisplayName DeployVirtualMachine.RootDiskSize
       DeployVirtualMachine.Details].
  split. { exists z. split; [|done]. apply in_or_app. right. by left. }
  split. { exists templates, tpl. split; [|done]. apply in_or_app. right. right. by left. }
  split. { exists p. split; [|done]. apply in_or_app. right. do 2 right. by left. }
  done.
Qed.

(** X6: before a deployment request, [Create] has looked up each non-empty
    configured security-group name and each non-empty configured
    affinity-group name once, in the order of the configuration, and the
    request carries the ids of the groups found or created, in that order. *)
Theorem Create_deploys_into_groups d w r pre req x post w1 :
  run handle (Create d) w
  = (r, (pre ++ Ev (RequestDeployVirtualMachine req) x :: post)%list, w1) ->
  collect lookup_name pre = List.filter nonempty (SecurityGroups d)
  /\ DeployVirtualMachine.SecurityGroupIDs req = collect resolved_id pre
  /\ collect affinity_name pre = List.filter nonempty (AffinityGroups d)
  /\ DeployVirtualMachine.AffinityGroupIDs req = collect affinity_id pre.
Proof.
  intros Hrun.
  destruct (Create_assembles handle _ _ _ _ _ _ _ _ Hrun) as (d2 & Hpre & _).
  destruct Hpre as (tr0 & d0 & z & templates & tpl & p & tr_sg & sgs & tr_ag & ags
                    & tr_key & d1 & ci1 & -> & Hload & _ & Hsg & Hsg_silent & Hag
                    & Hag_names & -> & Hkey & _ & _ & ->).
  destruct (resolves_all_ids _ _ _ _ Hsg) as [Hsg_names Hsgs]. cbn [app] in Hsgs.
  assert (Hkey_free : Forall group_free tr_key).
  { eapply Forall_impl; [exact Hkey|]. apply key_step_group_free. }
  assert (Htr0 : forall A (f : Event -> option A),
             (forall path x, f (Ev (ReadFile path) x) = None) -> collect f tr0 = []).
  { intros A f Hf.
    destruct Hload as [(_ & -> & _)|(_ & data & -> & _)]; [done|].
    cbn [collect]. by rewrite Hf. }
  cbn [deployRequest DeployVirtualMachine.SecurityGroupIDs
       DeployVirtualMachine.AffinityGroupIDs].
  rewrite !collect_app, !Htr0 by done.
  cbn [collect lookup_name resolved_id affinity_name affinity_id zoneQuery
       templateQuery profileQuery app].
  rewrite !collect_app.
  rewrite (collect_none lookup_name tr_ag), (collect_none resolved_id tr_ag),
    (collect_none lookup_name tr_key), (collect_none resolved_id tr_key),
    (collect_none affinity_name tr_sg), (collect_none affinity_id tr_sg),
    (collect_none affinity_name tr_key), (collect_none affinity_id tr_key);
    rewrite ?app_nil_r; try done;
    try (eapply Forall_impl; [exact Hkey_free|]; by intros ev (? & ? & ? & ?));
    try (eapply Forall_impl; [exact Hsg_silent|]; by intros ev [? ?]);
    try (eapply Forall_impl; [exact Hag|]; intros ev Hev;
         by destruct (affinity_step_silent _ _ Hev)).
Qed.

(** X7: the user data of a deployment request is the encoded cloud-init:
    the contents of the user-data file when one is configured, else the
    user data of the driver; followed, when an SSH key is imported, by an
    [ssh_authorized_keys] entry with the public key that was read.  With no
    key path the request names the key pair generated for the machine; with
    one it names the key pair the driver had.  The driver [Create] returns
    keeps the cloud-init that was sent. *)
Theorem Create_deploys_cloud_init d w r pre req x post w1 :
  run handle (Create d) w
  = (r, (pre ++ Ev (RequestDeployVirtualMachine req) x :: post)%list, w1) ->
  exists payload,
    (if String.eqb (UserDataFile d) "" then payload = UserData d
     else exists rest, pre = Ev (ReadFile (UserDataFile d)) (payload, None) :: rest)
    /\ (if String.eqb (SSHKey d) "" then
          DeployVirtualMachine.UserData req = EncodeToString payload
          /\ DeployVirtualMachine.KeyPair req = keyPairName d
        else
          DeployVirtualMachine.KeyPair req = KeyPair d
          /\ exists path pubKey,
              In (Ev (ReadFile (path ++ ".pub")) (pubKey, None)) pre
              /\ DeployVirtualMachine.UserData req
                 = EncodeToString (payload ++ sshAuthorizedKeys ++ pubKey))
    /\ exists d' err,
        r = Some (d', err)
        /\ DeployVirtualMachine.UserData req = EncodeToString (UserData d').
Proof.
  intros Hrun.
  destruct (Create_assembles handle _ _ _ _ _ _ _ _ Hrun) as (d2 & Hpre & Hend).
  assert (Hreq : DeployVirtualMachine.UserData req = EncodeToString (UserData d2)
                 /\ DeployVirtualMachine.KeyPair req = KeyPair d2).
  { destruct Hpre as (tr0 & d0 & z & templates & tpl & p & tr_sg & sgs & tr_ag & ags
                      & tr_key & d1 & ci1 & _ & _ & _ & _ & _ & _ & _ & _ & _ & _ & _
                      & ->).
    done. }
  destruct Hreq as [Hdata Hkeypair].
  destruct (assembled_driver _ _ _ _ Hpre)
    as (Hconfig & tr0 & d0 & tpl & tr_key & d1 & ci1 & Hload & Hkey & -> & _ & Hin
        & [rest Hrest] & _).
  assert (Hd0 : forall template,
             SSHKey (Create_username d0 template) = SSHKey d
             /\ KeyPair (Create_username d0 template) = KeyPair d
             /\ MachineName (Create_username d0 template) = MachineName d).
  { intros template. unfold Create_username.
    by destruct Hload as [(_ & _ & ->)|(_ & data & _ & ->)], (_ !! _). }
  destruct (Hd0 tpl) as (Hsshkey & Hkp & Hname).
  exists (UserData d0). split; [|split].
  - destruct Hload as [(Hfile & _ & ->)|(Hfile & data & -> & ->)].
    + by destruct (String.eqb_spec (UserDataFile d) "").
    + destruct (String.eqb_spec (UserDataFile d) ""); [done|]. by exists rest.
  - rewrite Hdata, Hkeypair.
    destruct Hkey as [(Hnone & -> & ->)|(Hsome & -> & path & pubKey & Hpub & ->)];
      rewrite Hsshkey in *.
    + destruct (String.eqb_spec (SSHKey d) ""); [|done].
      split; [done|]. cbn [KeyPair set_UserData set_KeyPair]. unfold keyPairName.
      by rewrite Hname.
    + destruct (String.eqb_spec (SSHKey d) ""); [done|].
      split; [done|]. exists path, pubKey. split; [by apply Hin|done].
  - assert (Hr : exists d' err, r = Some (d', err)).
    { unfold concludes in Hend. destruct x as [e|vm].
      - destruct Hend as [_ ->]. by eexists _, _.
      - destruct (String.eqb _ _).
        + destruct Hend as [_ ->]. by eexists _, _.
        + destruct Hend as [(e & _ & ->)|[(e & _ & ->)|(_ & ->)]]; by eexists _, _. }
    destruct Hr as (d' & err & ->). exists d', err. split; [done|].
    destruct (concludes_records _ _ _ _ _ Hend) as (-> & _). done.
Qed.

(** X8: the user name in the details of the selected template replaces the
    SSH user of the driver, configured or not: when a run of [Create] that
    came to deploy returns, [GetSSHUsername] of the driver is that name
    (when it is not empty); a template without the detail leaves the SSH
    user as it was. *)
Theorem Create_records_template_username d w d' err pre req x post w1 :
  run handle (Create d) w
  = (Some (d', err), (pre ++ Ev (RequestDeployVirtualMachine req) x :: post)%list, w1) ->
  exists templates tpl,
    In (Ev (templateQuery (DeployVirtualMachine.ZoneID req)) (inr templates)) pre
    /\ List.find (names_image (ToLower (Image d))) (List.filter is_10GiB templates)
       = Some tpl
    /\ DeployVirtualMachine.TemplateID req = Template.ID tpl
    /\ match Template.Details tpl !! "username" with
       | Some name => SSHUser d' = name /\ (name <> "" -> GetSSHUsername d' = name)
       | None => SSHUser d' = SSHUser d
       end.
Proof.
  intros Hrun.
  destruct (Create_assembles handle _ _ _ _ _ _ _ _ Hrun) as (d2 & Hpre & Hend).
  destruct (concludes_records _ _ _ _ _ Hend) as (_ & Huser & _).
  destruct (assembled_driver _ _ _ _ Hpre)
    as (_ & tr0 & d0 & tpl & tr_key & d1 & ci1 & Hload & Hkey & -> & _ & _ & _
        & templates & Hin & Hfind & Hid).
  exists templates, tpl. split; [done|]. split; [done|]. split; [done|].
  assert (Hd1 : SSHUser d1 = SSHUser (Create_username d0 tpl)).
  { by destruct Hkey as [(_ & -> & _)|(_ & -> & _)]. }
  assert (Hd0 : SSHUser d0 = SSHUser d).
  { by destruct Hload as [(_ & _ & ->)|(_ & data & _ & ->)]. }
  cbn [SSHUser set_UserData] in Huser. rewrite Hd1 in Huser.
  unfold Create_username in Huser.
  destruct (Template.Details tpl !! "username") as [name|].
  - cbn [SSHUser set_SSHUser] in Huser. split; [done|].
    intros Hname. unfold GetSSHUsername. rewrite Huser.
    by destruct (String.eqb_spec name "").
  - by rewrite Huser.
Qed.

(** X9: every group [Create] asks the provider to create is one the
    configuration names, with a non-empty name, and is described as created
    by docker-machine; an affinity group is created with the type host
    anti-affinity. *)
Theorem Create_creates_configured_groups d w r tr w1 :
  run handle (Create d) w = (r, tr, w1) -> Forall (creates_configured d) tr.
Proof. apply calls_only_run, Create_calls_created. Qed.

(** X10: when the provider refuses the deployment, [Create] returns that
    very error with no further request; the driver records no machine (its
    id is the one it had) but keeps the name of the key pair the request
    named, the generated one when no key path is configured, so that
    [Remove] can still delete it. *)
Theorem Create_deployment_refused d w r pre req e post w1 :
  run handle (Create d) w
  = (r, (pre ++ Ev (RequestDeployVirtualMachine req) (inl e) :: post)%list, w1) ->
  post = []
  /\ exists d',
      r = Some (d', Some e)
      /\ ID d' = ID d
      /\ KeyPair d' = DeployVirtualMachine.KeyPair req
      /\ (SSHKey d = "" -> KeyPair d' = keyPairName d).
Proof.
  intros Hrun.
  destruct (Create_assembles handle _ _ _ _ _ _ _ _ Hrun) as (d2 & Hpre & [-> ->]).
  split; [done|]. exists d2. split; [done|].
  destruct Hpre as (tr0 & d0 & z & templates & tpl & p & tr_sg & sgs & tr_ag & ags
                    & tr_key & d1 & ci1 & _ & Hload & _ & _ & _ & _ & _ & _ & _ & Hkey
                    & -> & ->).
  assert (Hd0 : ID (Create_username d0 tpl) = ID d
                /\ SSHKey (Create_username d0 tpl) = SSHKey d
                /\ MachineName (Create_username d0 tpl) = MachineName d).
  { unfold Create_username.
    by destruct Hload as [(_ & _ & ->)|(_ & data & _ & ->)], (_ !! _). }
  destruct Hd0 as (Hid & Hsshkey & Hname).
  destruct Hkey as [(Hnone & -> & _)|(Hsome & -> & _)].
  - split; [done|]. split; [done|]. intros _.
    cbn [KeyPair set_UserData set_KeyPair]. unfold keyPairName. by rewrite Hname.
  - split; [done|]. split; [done|]. intros Hempty. by rewrite Hsshkey in Hsome.
Qed.

(** X11: when the configured user-data file cannot be read, [Create] returns
    the error of the read before any request to the provider, and the user
    data of the driver is what the failed read returned: the cloud-init the
    driver had is lost. *)
Theorem Create_user_data_unreadable d w data e w1 :
  UserDataFile d <> "" ->
  handle _ (ReadFile (UserDataFile d)) w = ((data, Some e), w1) ->
  run handle (Create d) w
  = (Some (set_UserData d data, Some e),
     [Ev (ReadFile (UserDataFile d)) (data, Some e)], w1).
Proof.
  intros Hfile Hread. unfold Create, getCloudInit.
  destruct (String.eqb_spec (UserDataFile d) ""); [done|]. cbn [negb].
  cbn [mbind Prog_bind bind call run]. by rewrite Hread.
Qed.

End Properties.

(** ** The flags *)
Section Flags.
Variable SetSwarmConfigFromFlags : DriverOptions.t -> BaseDriver -> BaseDriver.


(** X13: [SetConfigFromFlags] reads no flag but those [GetCreateFlags]
    registers, each as the kind it is registered with: two sets of flag
    values that agree on the registered flags (and on what libmachine's
    [SetSwarmConfigFromFlags] makes of them) configure a driver alike and
    return the same error. *)
Theorem SetConfigFromFlags_registered_flags flags1 flags2 d :
  reads_alike flags1 flags2 ->
  (forall b, SetSwarmConfigFromFlags flags1 b = SetSwarmConfigFromFlags flags2 b) ->
  SetConfigFromFlags SetSwarmConfigFromFlags flags1 d
  = SetConfigFromFlags SetSwarmConfigFromFlags flags2 d.
Proof.
  intros Hflags Hswarm.
  assert (Hs : forall env name value usage,
             In (mcnflag.StringFlag env name value usage) GetCreateFlags ->
             DriverOptions.String flags1 name = DriverOptions.String flags2 name).
  { intros env name value usage Hin. exact (Hflags _ Hin). }
  assert (Hi : forall env name value usage,
             In (mcnflag.IntFlag env name value usage) GetCreateFlags ->
             DriverOptions.Int flags1 name = DriverOptions.Int flags2 name).
  { intros env name value usage Hin. exact (Hflags _ Hin). }
  assert (Hl : forall env name value usage,
             In (mcnflag.StringSliceFlag env name value usage) GetCreateFlags ->
             DriverOptions.StringSlice flags1 name
             = DriverOptions.StringSlice flags2 name).
  { intros env name value usage Hin. exact (Hflags _ Hin). }
  assert (Hconfig : configFromFlags flags1 d = configFromFlags flags2 d).
  { unfold configFromFlags.
    rewrite (Hs "EXOSCALE_SSH_USER" "exoscale-ssh-user" "" "name of the ssh user"),
      (Hs "EXOSCALE_ENDPOINT" "exoscale-url" "" "exoscale API endpoint"),
      (Hs "EXOSCALE_API_KEY" "exoscale-api-key" "" "exoscale API key"),
      (Hs "EXOSCALE_API_SECRET" "exoscale-api-secret-key" "" "exoscale API secret key"),
      (Hs "EXOSCALE_INSTANCE_PROFILE" "exoscale-instance-profile" defaultInstanceProfile
          "exoscale instance profile (Small, Medium, Large, ...)"),
      (Hi "EXOSCALE_DISK_SIZE" "exoscale-disk-size" defaultDiskSize
          "exoscale disk size (10, 50, 100, 200, 400)"),
      (Hs "EXOSCALE_IMAGE" "exoscale-image" defaultImage "exoscale image template"),
      (Hl "EXOSCALE_SECURITY_GROUP" "exoscale-security-group" [defaultSecurityGroup]
          "exoscale security group"),
      (Hl "EXOSCALE_AFFINITY_GROUP" "exoscale-affinity-group" []
          "exoscale affinity group"),
      (Hs "EXOSCALE_AVAILABILITY_ZONE" "exoscale-availability-zone"
          defaultAvailabilityZone "exoscale availability zone"),
      (Hs "EXOSCALE_SSH_KEY" "exoscale-ssh-key" "" "path to the SSH user private key"),
      (Hs "EXOSCALE_USERDATA" "exoscale-userdata" ""
          "path to file with cloud-init user-data");
      first [reflexivity | unfold GetCreateFlags; cbn [In]; tauto]. }
  unfold SetConfigFromFlags. by rewrite Hconfig, Hswarm.
Qed.

End Flags.

(** ** The pattern, read forwards *)
Section Pattern.
Context `{GoRuntime}.

Lemma match_version_other c s :
  regexp.is_version_byte c = false -> regexp.match_version (String c s) = None.
Proof. intros Hc. cbn [regexp.match_version]. by rewrite Hc. Qed.

Lemma match_version_complete v rest :
  all_bytes regexp.is_version_byte v = true ->
  ends_with_digit v = true ->
  ends_version rest = true ->
  regexp.match_version (v ++ rest) = Some (v, rest).
Proof.
  intros Hv Hlast Hrest. induction v as [|c v IH]; [done|].
  cbn [all_bytes] in Hv. apply andb_true_iff in Hv as [Hc Hv].
  change (String c v ++ rest) with (String c (v ++ rest)).
  cbn [regexp.match_version]. rewrite Hc.
  destruct v as [|c' v].
  - cbn [ends_with_digit] in Hlast. change ("" ++ rest) with rest.
    assert (Hnone : regexp.match_version rest = None).
    { destruct rest as [|c' rest]; [done|]. apply match_version_other.
      cbn [ends_version] in Hrest. apply andb_true_iff in Hrest as [_ Hrest].
      by apply negb_true_iff in Hrest. }
    rewrite Hnone.
    assert (Hboundary : regexp.word_boundary c rest = true).
    { unfold regexp.word_boundary, regexp.is_word_byte. rewrite Hlast. cbn [orb xorb].
      destruct rest as [|c' rest]; [done|].
      cbn [ends_version] in Hrest. apply andb_true_iff in Hrest as [Hrest _].
      apply negb_true_iff in Hrest. unfold regexp.is_word_byte in Hrest.
      by rewrite Hrest. }
    by rewrite Hboundary.
  - rewrite IH; [done|done|]. exact Hlast.
Qed.

Lemma match_space_version_other c s :
  c <> " "%char -> regexp.match_space_version (String c s) = None.
Proof.
  intros Hc. unfold regexp.match_space_version.
  destruct c as [[] [] [] [] [] [] [] []]; done.
Qed.

Lemma match_name_version_complete n v rest :
  n <> "" -> plain_name n = true ->
  all_bytes regexp.is_version_byte v = true ->
  ends_with_digit v = true ->
  ends_version rest = true ->
  regexp.match_name_version (n ++ " " ++ v ++ rest) = Some (n, v, rest).
Proof.
  intros Hn Hplain Hv Hlast Hrest.
  pose proof (match_version_complete v rest Hv Hlast Hrest) as Hversion.
  induction n as [|c n IH]; [done|]. clear Hn.
  cbn [plain_name] in Hplain.
  apply andb_true_iff in Hplain as [Hplain Hnext].
  apply andb_true_iff in Hplain as [Hnewline Hspace].
  apply negb_true_iff in Hnewline.
  change (String c n ++ " " ++ v ++ rest) with (String c (n ++ " " ++ v ++ rest)).
  cbn [regexp.match_name_version]. rewrite Hnewline.
  destruct n as [|c' n].
  - change ("" ++ " " ++ v ++ rest) with (String " " (v ++ rest)).
    cbn [regexp.match_space_version]. by rewrite Hversion.
  - assert (Hhere : regexp.match_space_version (String c' n ++ " " ++ v ++ rest) = None).
    { change (String c' n ++ " " ++ v ++ rest)
        with (String c' (n ++ " " ++ v ++ rest)).
      destruct (Ascii.eqb_spec c' " ") as [->|Hc']; [|by apply match_space_version_other].
      cbn [regexp.match_space_version].
      cbn [plain_name] in Hnext.
      apply andb_true_iff in Hnext as [Hnext _].
      apply andb_true_iff in Hnext as [_ Hnext].
      cbn [Ascii.eqb Bool.eqb] in Hnext.
      destruct n as [|c'' n].
      - change ("" ++ " " ++ v ++ rest) with (String " " (v ++ rest)).
        by apply match_version_other.
      - change (String c'' n ++ " " ++ v ++ rest)
          with (String c'' (n ++ " " ++ v ++ rest)).
        apply match_version_other. by apply negb_true_iff in Hnext. }
    rewrite Hhere, IH; done.
Qed.

Lemma HasPrefix_app p s : strings.HasPrefix (p ++ s) p = true.
Proof.
  unfold strings.HasPrefix. induction p as [|a p IH]; [by destruct s|].
  change (String a p ++ s) with (String a (p ++ s)). cbn [String.prefix].
  by destruct (ascii_dec a a).
Qed.

Lemma drop_app p s : strings.drop (String.length p) (p ++ s) = s.
Proof. induction p as [|a p IH]; [done|]. exact IH. Qed.

(** X14: a template named [Linux <name> <version>...] answers to the image
    name made of the lowercased name, with dashes for its spaces, a dash and
    the version: for every name without a newline and without a space before
    a digit or a dot, and every version of digits and dots that ends with a
    digit and is followed by nothing or by a byte that is neither of a word
    nor a dot, this is the shorthand of the template, so that it names the
    image. *)
Theorem shorthand_of_pattern n v rest tpl :
  n <> "" -> plain_name n = true ->
  all_bytes regexp.is_version_byte v = true ->
  ends_with_digit v = true ->
  ends_version rest = true ->
  Template.Name tpl = "Linux " ++ n ++ " " ++ v ++ rest ->
  let short := strings.ReplaceByte (ToLower n) " " "-" ++ "-" ++ v in
  shorthand (Template.Name tpl) = Some short
  /\ names_image short tpl = true.
Proof.
  intros Hn Hplain Hv Hlast Hrest Hname short.
  assert (Hshort : shorthand (Template.Name tpl) = Some short).
  { rewrite Hname. unfold shorthand, regexp.FindStringSubmatch.
    rewrite HasPrefix_app.
    change 6%nat with (String.length "Linux "). rewrite drop_app.
    by rewrite match_name_version_complete. }
  split; [done|]. unfold names_image. rewrite Hshort, String.eqb_refl.
  apply orb_true_r.
Qed.

End Pattern.

(** ** The properties at the example hosts *)
Section Runs.
Existing Instance exampleRuntime.

Lemma run_Create_host :
  run (scripted happy) (Create host) tt
  = (Some (hostCreated, None),
     (resolved ++ Ev (RequestDeployVirtualMachine hostRequest) (inr runningMachine)
        :: [Ev (WaitForSSH hostDeployed) None;
            Ev (keyPairDeletionOf "docker-machine-host") None])%list, tt).
Proof. vm_compute. reflexivity. Qed.

Lemma run_Create_host_unreachable :
  run (scriptedWith sshUnreachable happy) (Create host) tt
  = (Some (hostDeployed, Some sshTimeout),
     (resolved ++ Ev (RequestDeployVirtualMachine hostRequest) (inr runningMachine)
        :: [Ev (WaitForSSH hostDeployed) (Some sshTimeout)])%list, tt).
Proof. vm_compute. reflexivity. Qed.

Lemma run_Create_host_refused :
  run (scriptedWith deploymentRefused happy) (Create host) tt
  = (Some (hostWithKey, Some noCapacity),
     (resolved ++ Ev (RequestDeployVirtualMachine hostRequest) (inl noCapacity) :: [])%list,
     tt).
Proof. vm_compute. reflexivity. Qed.

Lemma run_Create_spreadHost :
  run (scripted happy) (Create spreadHost) tt
  = (Some (set_KeyPair
             (Create_record
                (set_UserData
                   (set_KeyPair (set_SSHUser spreadHost "ubuntu") "docker-machine-host")
                   defaultCloudInit) runningMachine) "", None),
     (spreadResolved
        ++ Ev (RequestDeployVirtualMachine spreadRequest) (inr runningMachine)
        :: [Ev (WaitForSSH
                  (Create_record
                     (set_UserData
                        (set_KeyPair (set_SSHUser spreadHost "ubuntu")
                           "docker-machine-host")
                        defaultCloudInit) runningMachine)) None;
            Ev (keyPairDeletionOf "docker-machine-host") None])%list, tt).
Proof. vm_compute. reflexivity. Qed.

(** X1 at the default host: [Create] returns nil after its deployment. *)
Lemma Create_nil_after_deployment_witness :
  result (scripted happy) (Create host) tt = Some (hostCreated, None)
  /\ (deployed host (trace (scripted happy) (Create host) tt) hostCreated
      \/ lookup_error_dropped (trace (scripted happy) (Create host) tt)).
Proof.
  unfold result, trace. rewrite run_Create_host. split; [reflexivity|].
  exact (Create_nil_after_deployment (scripted happy) host tt hostCreated _ tt
           run_Create_host).
Defined.

(** X2 at a provider without the group: the group is created, and nothing
    is deleted but the key pair. *)
Lemma Create_never_destroys_witness :
  Forall (fun ev => ~ destroys ev) (trace (scriptedWith noGroups happy) (Create host) tt).
Proof.
  unfold trace.
  apply (Create_never_destroys (scriptedWith noGroups happy) host tt
           (run (scriptedWith noGroups happy) (Create host) tt).1.1
           (run (scriptedWith noGroups happy) (Create host) tt).1.2
           (run (scriptedWith noGroups happy) (Create host) tt).2).
  by destruct (run (scriptedWith noGroups happy) (Create host) tt) as [[r tr] w].
Defined.

(** X3 at the default host. *)
Lemma Create_keeps_configuration_witness :
  result (scripted happy) (Create host) tt = Some (hostCreated, None)
  /\ config hostCreated = config host.
Proof.
  split; [unfold result; by rewrite run_Create_host|].
  exact (Create_keeps_configuration (scripted happy) host tt hostCreated None _ tt
           run_Create_host).
Defined.

(** X4 at a host that never answers on SSH: [Create] fails, and [Remove]
    deletes the key pair and the machine. *)
Lemma Create_then_Remove_witness :
  result (scriptedWith sshUnreachable happy) (Create host) tt
  = Some (hostDeployed, Some sshTimeout)
  /\ trace (scripted happy) (Remove hostDeployed) tt
     = [Ev (keyPairDeletionOf "docker-machine-host") None;
        Ev (Delete (DeleteVirtualMachine (VirtualMachine_with_ID (Some "vm-1")))) None]
  /\ result (scripted happy) (Remove hostDeployed) tt = Some None.
Proof.
  split; [unfold result; by rewrite run_Create_host_unreachable|].
  exact (Create_then_Remove (scriptedWith sshUnreachable happy) host tt hostDeployed
           (Some sshTimeout) resolved hostRequest runningMachine _ tt
           (scripted happy) tt run_Create_host_unreachable (fun _ _ => eq_refl)).
Defined.

(** X5 at the default host: zone [zone-1], the Ubuntu template, the
    offering [so-small]. *)
Lemma Create_deploys_what_it_resolved_witness :
  DeployVirtualMachine.ZoneID hostRequest = Some "zone-1"
  /\ DeployVirtualMachine.TemplateID hostRequest = Some "tpl-ubuntu"
  /\ DeployVirtualMachine.Name hostRequest = MachineName host
  /\ DeployVirtualMachine.RootDiskSize hostRequest = DiskSize host.
Proof.
  destruct (Create_deploys_what_it_resolved (scripted happy) host tt _ resolved
              hostRequest (inr runningMachine) _ tt run_Create_host)
    as (_ & _ & _ & Hname & _ & Hdisk & _).
  by repeat split.
Defined.

(** X6 at a host with the affinity group [spread]. *)
Lemma Create_deploys_into_groups_witness :
  collect lookup_name spreadResolved = ["docker-machine"]
  /\ DeployVirtualMachine.SecurityGroupIDs spreadRequest = ["sg-docker-machine"]
  /\ collect affinity_name spreadResolved = ["spread"]
  /\ DeployVirtualMachine.AffinityGroupIDs spreadRequest = ["ag-spread"].
Proof.
  destruct (Create_deploys_into_groups (scripted happy) spreadHost tt _ spreadResolved
              spreadRequest (inr runningMachine) _ tt run_Create_spreadHost)
    as (Hsg_names & Hsgs & Hag_names & Hags).
  by repeat split.
Defined.

(** X7 at the default host: the default cloud-init and the generated key
    pair. *)
Lemma Create_deploys_cloud_init_witness :
  exists payload,
    payload = defaultCloudInit
    /\ DeployVirtualMachine.UserData hostRequest = EncodeToString payload
    /\ DeployVirtualMachine.KeyPair hostRequest = "docker-machine-host".
Proof.
  destruct (Create_deploys_cloud_init (scripted happy) host tt _ resolved
              hostRequest (inr runningMachine) _ tt run_Create_host)
    as (payload & Hpayload & Hkey & _).
  exists payload. cbn in Hpayload, Hkey. destruct Hkey as [Hdata Hpair].
  by repeat split.
Defined.

(** X8 at the default host: the Ubuntu template names the user [ubuntu]. *)
Lemma Create_records_template_username_witness :
  exists templates tpl,
    List.find (names_image (ToLower (Image host))) (List.filter is_10GiB templates)
    = Some tpl
    /\ DeployVirtualMachine.TemplateID hostRequest = Template.ID tpl
    /\ match Template.Details tpl !! "username" with
       | Some name =>
           SSHUser hostCreated = name
           /\ (name <> "" -> GetSSHUsername hostCreated = name)
       | None => SSHUser hostCreated = SSHUser host
       end.
Proof.
  destruct (Create_records_template_username (scripted happy) host tt hostCreated None
              resolved hostRequest (inr runningMachine) _ tt run_Create_host)
    as (templates & tpl & _ & Hfind & Hid & Huser).
  by exists templates, tpl.
Defined.

(** X9 at a provider without the group [docker-machine]. *)
Lemma Create_creates_configured_groups_witness :
  Forall (creates_configured host)
    (trace (scriptedWith noGroups happy) (Create host) tt).
Proof.
  unfold trace.
  apply (Create_creates_configured_groups (scriptedWith noGroups happy) host tt
           (run (scriptedWith noGroups happy) (Create host) tt).1.1
           (run (scriptedWith noGroups happy) (Create host) tt).1.2
           (run (scriptedWith noGroups happy) (Create host) tt).2).
  by destruct (run (scriptedWith noGroups happy) (Create host) tt) as [[r tr] w].
Defined.

(** X10 at a provider that refuses to deploy. *)
Lemma Create_deployment_refused_witness :
  exists d',
    result (scriptedWith deploymentRefused happy) (Create host) tt
    = Some (d', Some noCapacity)
    /\ ID d' = None
    /\ KeyPair d' = "docker-machine-host".
Proof.
  destruct (Create_deployment_refused (scriptedWith deploymentRefused happy) host tt _
              resolved hostRequest noCapacity [] tt run_Create_host_refused)
    as (_ & d' & Hr & Hid & Hpair & _).
  exists d'. unfold result. rewrite run_Create_host_refused.
  by repeat split.
Defined.

(** X11 at a host whose user-data file cannot be read. *)
Lemma Create_user_data_unreadable_witness :
  UserDataFile fileHost <> ""
  /\ run (scriptedWith unreadable happy) (Create fileHost) tt
     = (Some (set_UserData fileHost "", Some permissionDenied),
        [Ev (ReadFile "/etc/cloud-init.yml") ("", Some permissionDenied)], tt).
Proof.
  split; [done|].
  exact (Create_user_data_unreadable (scriptedWith unreadable happy) fileHost tt ""
           permissionDenied tt ltac:(done) eq_refl).
Defined.

(** X13 at two sets of flag values that differ in a boolean flag. *)
Lemma SetConfigFromFlags_registered_flags_witness :
  DriverOptions.Bool (keyFlags false) "swarm-master"
  <> DriverOptions.Bool (keyFlags true) "swarm-master"
  /\ SetConfigFromFlags (fun _ b => b) (keyFlags false) (NewDriver "host" "/store")
     = SetConfigFromFlags (fun _ b => b) (keyFlags true) (NewDriver "host" "/store").
Proof.
  split; [done|].
  apply (SetConfigFromFlags_registered_flags (fun _ b => b) (keyFlags false)
           (keyFlags true) (NewDriver "host" "/store")).
  - by intros [] _.
  - done.
Defined.

(** X14 at the default template: it answers to [ubuntu-18.04]. *)
Lemma shorthand_of_pattern_witness :
  shorthand (Template.Name ubuntuTemplate) = Some "ubuntu-18.04"
  /\ names_image "ubuntu-18.04" ubuntuTemplate = true.
Proof.
  exact (shorthand_of_pattern "Ubuntu" "18.04" " LTS 64-bit" ubuntuTemplate
           ltac:(done) eq_refl eq_refl eq_refl eq_refl eq_refl).
Defined.

End Runs.
